(** * Concerto: name resolution, the model-file registry, validators,
      the serializer and the instance generator

    A shallow embedding of the introspection core of Concerto
    (packages/concerto-core): [ModelFile] (lib/introspect/modelfile.js),
    [BaseModelManager] (lib/basemodelmanager.js) and [StringValidator]
    (lib/introspect/stringvalidator.js), then the serializer and the
    instance generator as the specification describes them, and the C#
    code generator [CSharpVisitor] (packages/concerto-tools,
    lib/codegen/fromcto/csharp/csharpvisitor.js), followed by the
    properties that the specification states about them and by further
    properties of the code.

    JavaScript objects used as dictionaries and [Map]s are finite maps
    ([gmap]); methods that read the manager through [this.modelManager]
    take the manager state as an explicit argument; methods that mutate
    [this.modelFiles] return the new manager state next to their result;
    a [throw] is the left injection of a sum.

    [this.modelFiles] and [this.importUriMap] are plain objects: a read
    [object[key]] also finds what the object inherits from
    [Object.prototype] (for the key [constructor], say), and the
    embedding follows the code there.  A finite map keeps no order of
    insertion, which [Object.keys] follows: the lists that the code makes
    of the keys or the values of [this.modelFiles] are given in the order
    of the map, and the statements about them are by membership or up to
    permutation.  The manager that a model file reads is the manager
    whose method is running. *)

From stdpp Require Import gmap strings list fin_maps.
From Stdlib Require Import String Ascii ZArith.

Open Scope string_scope.

Set Warnings "-register-all".

(** ** Exceptions and the result monad *)

Inductive exn : Type :=
| Error (message : string)
| TypeError (message : string)
| IllegalModelException (message : string)
| TypeNotFoundException (typeName : string) (message : string)
| ModelViolation (message : string)
| RecursionError (message : string).

Definition exn_message (e : exn) : string :=
  match e with
  | Error msg => msg
  | TypeError msg => msg
  | IllegalModelException msg => msg
  | TypeNotFoundException _ msg => msg
  | ModelViolation msg => msg
  | RecursionError msg => msg
  end.

Definition result (A : Type) : Type := (exn + A)%type.

Definition ret {A : Type} (a : A) : result A := inr a.
Definition throw {A : Type} (e : exn) : result A := inl e.

Definition bind {A B : Type} (r : result A) (k : A -> result B) : result B :=
  match r with
  | inl e => inl e
  | inr a => k a
  end.

Notation "'letr' x := r 'in' k" := (bind r (fun x => k))
  (at level 10, x name, r at level 200, k at level 200,
   format "'[v' 'letr'  x  :=  r  'in' '/' k ']'").

Definition is_ok {A : Type} (r : result A) : bool :=
  match r with inl _ => false | inr _ => true end.

(** ** ModelUtil *)

(** Splits a dotted name at its last dot. *)
Fixpoint splitLastDot (s : string) : option (string * string) :=
  match s with
  | EmptyString => None
  | String c rest =>
      match splitLastDot rest with
      | Some (ns, sn) => Some (String c ns, sn)
      | None => if Ascii.eqb c "."%char then Some (EmptyString, rest) else None
      end
  end.

(** Modelled from the spec: [ModelUtil.getNamespace] (lib/modelutil.js is
    not part of the sources at hand).  "A fully qualified name (FQN) is
    <namespace>.<short name>", a short name being a single identifier
    segment: the namespace is what precedes the last dot, and is empty for
    a name without a dot. *)
Definition getNamespace (fqn : string) : string :=
  match splitLastDot fqn with
  | Some (ns, _) => ns
  | None => ""
  end.

(** Modelled from the spec: [ModelUtil.getShortName], the segment after the
    last dot (the whole name when there is no dot). *)
Definition getShortName (fqn : string) : string :=
  match splitLastDot fqn with
  | Some (_, sn) => sn
  | None => fqn
  end.

(** Modelled from the spec: [ModelUtil.isPrimitiveType].  "Primitive type
    names are the closed set {String, Boolean, DateTime, Double, Long,
    Integer}." *)
Definition primitiveTypes : list string :=
  ["String"; "Boolean"; "DateTime"; "Double"; "Long"; "Integer"].

Definition isPrimitiveType (typeName : string) : bool :=
  existsb (String.eqb typeName) primitiveTypes.

(** Modelled from the spec: [ModelUtil.getFullyQualifiedName], the FQN of a
    short name inside a namespace. *)
Definition getFullyQualifiedName (namespace type : string) : string :=
  namespace ++ "." ++ type.

(** ** The metamodel AST *)

(** An import: [import ns.*] ($class [concerto.metamodel.ImportAll]) or
    [import ns.Name] ([concerto.metamodel.ImportType]), each with an
    optional [from <uri>]. *)
Inductive Import : Type :=
| ImportAll (namespace : string) (uri : option string)
| ImportType (namespace : string) (name : string) (uri : option string).

Definition imp_namespace (imp : Import) : string :=
  match imp with
  | ImportAll ns _ => ns
  | ImportType ns _ _ => ns
  end.

Definition imp_uri (imp : Import) : option string :=
  match imp with
  | ImportAll _ u => u
  | ImportType _ _ u => u
  end.

(** Modelled from the spec: [ModelUtil.importFullyQualifiedName], the
    text of an import, [<ns>.*] or [<ns>.<name>]. *)
Definition importFullyQualifiedName (imp : Import) : string :=
  match imp with
  | ImportAll ns _ => ns ++ ".*"
  | ImportType ns name _ => ns ++ "." ++ name
  end.

Inductive PropertyKind : Type := Field | Relationship | EnumValue.

(** The validator of a property as the parser leaves it in the AST. *)
Record ValidatorAst : Type := {
  va_pattern : string;
  va_flags : option string
}.

(** A property of a declaration: its name, declared type (short name, FQN
    or primitive name; none for an enum value), array and optional flags. *)
Record Property : Type := {
  p_kind : PropertyKind;
  p_name : string;
  p_type : string;
  p_array : bool;
  p_optional : bool;
  p_validator : option ValidatorAst
}.

(** A declaration node of the AST.  [da_class] is its [$class]. *)
Record DeclarationAst : Type := {
  da_class : string;
  da_name : string;
  da_isAbstract : bool;
  da_superType : option string;
  da_identified : option string;
  da_properties : list Property
}.

Record ModelAst : Type := {
  ast_namespace : string;
  ast_imports : option (list Import);
  ast_declarations : option (list DeclarationAst);
  ast_concertoVersion : option string
}.

(** ** Declarations *)

Inductive DeclarationKind : Type :=
| AssetDeclaration
| TransactionDeclaration
| EventDeclaration
| ParticipantDeclaration
| EnumDeclaration
| ConceptDeclaration.

(** Modelled from the spec: the [ClassDeclaration] record
    (lib/introspect/classdeclaration.js and its six subclasses are not part
    of the sources at hand): "kind, short name, abstract?, super-type,
    own-properties, identifier field name (if any)", owned by the model
    file whose namespace qualifies it. *)
Record ClassDeclaration : Type := {
  cd_kind : DeclarationKind;
  cd_namespace : string;
  cd_name : string;
  cd_abstract : bool;
  cd_superType : option string;
  cd_idField : option string;
  cd_properties : list Property
}.

(** Modelled from the spec: [ClassDeclaration.getName], the short name. *)
Definition ClassDeclaration_getName (d : ClassDeclaration) : string := cd_name d.

(** Modelled from the spec: [ClassDeclaration.getFullyQualifiedName],
    "<namespace>.<short name>". *)
Definition ClassDeclaration_getFullyQualifiedName (d : ClassDeclaration) : string :=
  getFullyQualifiedName (cd_namespace d) (cd_name d).

(** Modelled from the spec: [ClassDeclaration.isAbstract]. *)
Definition ClassDeclaration_isAbstract (d : ClassDeclaration) : bool := cd_abstract d.

(** Modelled from the spec: the constructors [new AssetDeclaration(this,
    thing)] and its siblings, which record the AST node under the kind
    that [ModelFile.fromAst] chose. *)
Definition newClassDeclaration (kind : DeclarationKind) (namespace : string)
    (thing : DeclarationAst) : ClassDeclaration :=
  {| cd_kind := kind;
     cd_namespace := namespace;
     cd_name := da_name thing;
     cd_abstract := da_isAbstract thing;
     cd_superType := da_superType thing;
     cd_idField := da_identified thing;
     cd_properties := da_properties thing |}.

(** ** ModelFile and the manager state *)

Record ModelFile : Type := {
  mf_namespace : string;
  mf_declarations : list ClassDeclaration;
  mf_localTypes : gmap string ClassDeclaration;
  mf_imports : list Import;
  mf_importShortNames : gmap string string;
  mf_importWildcardNamespaces : list string;
  mf_importUriMap : gmap string string;
  mf_fileName : option string;
  mf_definitions : option string;
  mf_external : bool;
  mf_concertoVersion : option string;
  mf_ast : ModelAst
}.

(** The state of a [BaseModelManager]: the own properties of
    [this.modelFiles], keyed by namespace. *)
Record ModelManager : Type := {
  modelFiles : gmap string ModelFile
}.

(** *** Plain objects used as dictionaries

    [this.modelFiles] and [this.importUriMap] are plain JavaScript objects
    ([{}]).  A read [object[key]] finds the own property of that name or,
    when there is none, the property that the object inherits from
    [Object.prototype]; [Object.keys], [for ... in] and [delete] concern
    own properties only.  The [gmap] of a record holds the own
    properties. *)

(** The names of the properties of [Object.prototype].  Each of them is
    a function, except [__proto__], which reads as [Object.prototype]
    itself: every one is truthy, is not a string, and has none of the
    methods of [ModelFile]. *)
Definition objectPrototypeNames : list string :=
  [ "constructor"; "__defineGetter__"; "__defineSetter__"; "hasOwnProperty";
    "__lookupGetter__"; "__lookupSetter__"; "isPrototypeOf";
    "propertyIsEnumerable"; "toString"; "valueOf"; "__proto__";
    "toLocaleString" ].

Definition inheritedName (key : string) : bool :=
  existsb (String.eqb key) objectPrototypeNames.

(** What [object[key]] evaluates to: the own property, an inherited
    member of [Object.prototype], or [undefined]. *)
Inductive Slot (A : Type) : Type :=
| SlotOwn (a : A)
| SlotInherited
| SlotUndefined.

Arguments SlotOwn {A} a.
Arguments SlotInherited {A}.
Arguments SlotUndefined {A}.

Definition readObject {A : Type} (object : gmap string A) (key : string) : Slot A :=
  match object !! key with
  | Some a => SlotOwn a
  | None => if inheritedName key then SlotInherited else SlotUndefined
  end.

(** The [TypeError] of the host for a call of a method that the receiver
    does not have, as when a method of [ModelFile] is called on an
    inherited member. *)
Definition notAFunction (callee : string) : exn :=
  TypeError (callee ++ " is not a function").

(** What [getType] hands back: the name of a primitive type, or a
    declaration. *)
Inductive TypeRef : Type :=
| PrimitiveName (name : string)
| Declaration (d : ClassDeclaration).

(** The JavaScript values that reach a string validator or sit in an
    options object. *)
Inductive JsValue : Type :=
| JsUndefined
| JsNull
| JsString (s : string)
| JsBoolean (b : bool).

(** The code that the sources at hand call but do not contain: the file
    processing hook with the external parser, the semver check, the
    localised message formatter, the [ClassDeclaration] methods and the
    regular-expression engine of the host. *)
Class Collaborators : Type := {
  (** [this.processFile(fileName, text)], yielding the AST of a CTO text *)
  processFile : option string -> string -> result ModelAst;
  (** [packageJson.version] and [semver.satisfies(packageJson.version,
      range, ...)] *)
  packageVersion : string;
  versionSatisfies : string -> bool;
  (** the text and the file name that lib/rootmodel.js gives the root
      model *)
  rootModelCto : option string;
  rootModelFile : option string;
  (** [Globalize.messageFormatter(key)(arguments)] *)
  messageFormatter : string -> list (string * string) -> string;
  (** [classDeclaration.validate()] inside its model file and manager *)
  ClassDeclaration_validate :
    ModelManager -> ModelFile -> ClassDeclaration -> result unit;
  (** [classDeclaration.getSuperTypeDeclaration()]: [null] when there is no
      super type, an exception when it does not resolve *)
  ClassDeclaration_getSuperTypeDeclaration :
    ModelManager -> ClassDeclaration -> result (option ClassDeclaration);
  (** [classDeclaration.getProperties()], own and inherited *)
  ClassDeclaration_getProperties :
    ModelManager -> ClassDeclaration -> list Property;
  (** [classDeclaration.getAssignableClassDeclarations()] *)
  ClassDeclaration_getAssignableClassDeclarations :
    ModelManager -> ClassDeclaration -> list ClassDeclaration;
  (** compiled regular expressions, [new RegExp(pattern, flags)] and
      [regex.test(value)], which may move the [lastIndex] of the object *)
  regexp : Type;
  RegExp_new : string -> option string -> result regexp;
  RegExp_test : regexp -> JsValue -> bool * regexp;
  RegExp_toString : regexp -> string;
  (** the exception that [Validator.reportError(id, reason)] raises for a
      field (lib/introspect/validator.js) *)
  Validator_reportError : Property -> option string -> option string -> exn;
  (** [encodeURIComponent] *)
  encodeURIComponent : string -> string;
  (** [MetaModelUtil.resolveLocalNames(priorModels, metaModel)] *)
  resolveLocalNames : list ModelAst -> ModelAst -> ModelAst;
  (** [fsPath.basename] *)
  basename : string -> string
}.

(** JavaScript truthiness of an optional string: [null], [undefined] and
    the empty string are falsy. *)
Definition truthy (s : option string) : bool :=
  match s with
  | Some t => negb (String.eqb t "")
  | None => false
  end.

Fixpoint mapM {A B : Type} (f : A -> result B) (l : list A) : result (list B) :=
  match l with
  | [] => ret []
  | a :: l' =>
      letr b := f a in
      letr bs := mapM f l' in
      ret (b :: bs)
  end.

(** Runs [f] on the elements in order and stops at the first exception. *)
Fixpoint forEach {A : Type} (f : A -> result unit) (l : list A) : result unit :=
  match l with
  | [] => ret tt
  | a :: l' => letr _u := f a in forEach f l'
  end.

Section Introspection.

Context `{Collaborators}.

(** *** ModelFile: construction (constructor, fromAst, isCompatibleVersion) *)

(** The five imports of the root types that [fromAst] appends for every
    namespace other than [concerto]. *)
Definition builtinImports : list Import :=
  [ ImportType "concerto" "Concept" None;
    ImportType "concerto" "Asset" None;
    ImportType "concerto" "Transaction" None;
    ImportType "concerto" "Participant" None;
    ImportType "concerto" "Event" None ].

Definition fromAst_imports (ast : ModelAst) : list Import :=
  let imports := match ast_imports ast with Some l => l | None => [] end in
  if negb (String.eqb (ast_namespace ast) "concerto")
  then imports ++ builtinImports
  else imports.

(** [this.importShortNames.set(imp.name, fqn)] for every named import, in
    order: a later import of the same short name replaces an earlier one. *)
Definition fromAst_importShortNames (imports : list Import) : gmap string string :=
  foldl (fun acc imp =>
           match imp with
           | ImportAll _ _ => acc
           | ImportType _ name _ => <[name := importFullyQualifiedName imp]> acc
           end) ∅ imports.

Definition fromAst_importWildcardNamespaces (imports : list Import) : list string :=
  omap (fun imp =>
          match imp with
          | ImportAll ns _ => Some ns
          | ImportType _ _ _ => None
          end) imports.

Definition fromAst_importUriMap (imports : list Import) : gmap string string :=
  foldl (fun acc imp =>
           match imp_uri imp with
           | Some u => if truthy (Some u)
                       then <[importFullyQualifiedName imp := u]> acc
                       else acc
           | None => acc
           end) ∅ imports.

Definition withDefaultSuperType (name : string) (thing : DeclarationAst) : DeclarationAst :=
  match da_superType thing with
  | Some _ => thing
  | None =>
      {| da_class := da_class thing;
         da_name := da_name thing;
         da_isAbstract := da_isAbstract thing;
         da_superType := Some name;
         da_identified := da_identified thing;
         da_properties := da_properties thing |}
  end.

(** One turn of the loop of [fromAst] over [ast.declarations]. *)
Definition fromAst_declaration (namespace : string) (thing : DeclarationAst)
    : result ClassDeclaration :=
  let cls := da_class thing in
  if String.eqb cls "concerto.metamodel.AssetDeclaration" then
    ret (newClassDeclaration AssetDeclaration namespace (withDefaultSuperType "Asset" thing))
  else if String.eqb cls "concerto.metamodel.TransactionDeclaration" then
    ret (newClassDeclaration TransactionDeclaration namespace
           (withDefaultSuperType "Transaction" thing))
  else if String.eqb cls "concerto.metamodel.EventDeclaration" then
    ret (newClassDeclaration EventDeclaration namespace (withDefaultSuperType "Event" thing))
  else if String.eqb cls "concerto.metamodel.ParticipantDeclaration" then
    ret (newClassDeclaration ParticipantDeclaration namespace
           (withDefaultSuperType "Participant" thing))
  else if String.eqb cls "concerto.metamodel.EnumDeclaration" then
    ret (newClassDeclaration EnumDeclaration namespace thing)
  else if String.eqb cls "concerto.metamodel.ConceptDeclaration" then
    ret (newClassDeclaration ConceptDeclaration namespace thing)
  else
    throw (IllegalModelException
             (messageFormatter "modelfile-constructor-unrecmodelelem" [("type", cls)])).

Definition fromAst_declarations (ast : ModelAst) : result (list ClassDeclaration) :=
  match ast_declarations ast with
  | None => ret []
  | Some decls => mapM (fromAst_declaration (ast_namespace ast)) decls
  end.

Definition isCompatibleVersion (ast : ModelAst) : result (option string) :=
  match ast_concertoVersion ast with
  | Some v =>
      if truthy (Some v) then
        if versionSatisfies v then ret (Some v)
        else throw (Error ("ModelFile expects Concerto version " ++ v
                             ++ " but this is " ++ packageVersion))
      else ret None
  | None => ret None
  end.

(** The loop at the end of the constructor:
    [this.localTypes.set(namespace + '.' + name, declaration)]. *)
Definition buildLocalTypes (namespace : string) (declarations : list ClassDeclaration)
    : gmap string ClassDeclaration :=
  foldl (fun acc d => <[namespace ++ "." ++ ClassDeclaration_getName d := d]> acc)
        ∅ declarations.

(** [new ModelFile(modelManager, ast, definitions, fileName)].  The checks
    on the JavaScript types of the arguments are carried by the types
    here. *)
Definition newModelFile (ast : ModelAst) (definitions fileName : option string)
    : result ModelFile :=
  let external :=
    match fileName with
    | Some f => if truthy fileName then String.prefix "@" f else false
    | None => false
    end in
  let imports := fromAst_imports ast in
  letr declarations := fromAst_declarations ast in
  letr version := isCompatibleVersion ast in
  ret {| mf_namespace := ast_namespace ast;
         mf_declarations := declarations;
         mf_localTypes := buildLocalTypes (ast_namespace ast) declarations;
         mf_imports := imports;
         mf_importShortNames := fromAst_importShortNames imports;
         mf_importWildcardNamespaces := fromAst_importWildcardNamespaces imports;
         mf_importUriMap := fromAst_importUriMap imports;
         mf_fileName := fileName;
         mf_definitions := definitions;
         mf_external := external;
         mf_concertoVersion := version;
         mf_ast := ast |}.

(** *** ModelFile: queries *)

Definition ModelFile_getNamespace (f : ModelFile) : string := mf_namespace f.

Definition ModelFile_getName (f : ModelFile) : option string := mf_fileName f.

(** [getModelFile(namespace)], that is [this.modelFiles[namespace]]. *)
Definition getModelFile (m : ModelManager) (namespace : string) : Slot ModelFile :=
  readObject (modelFiles m) namespace.

(** [getLocalType(type)]: a name that does not start with the text of the
    namespace is qualified with it, then looked up in [localTypes];
    [None] is the [null] of the source. *)
Definition ModelFile_getLocalType (f : ModelFile) (type : string)
    : option ClassDeclaration :=
  let type' :=
    if negb (String.prefix (ModelFile_getNamespace f) type)
    then ModelFile_getNamespace f ++ "." ++ type
    else type in
  mf_localTypes f !! type'.

(** [isLocalType(type)], that is [type && this.getLocalType(type) !== null]. *)
Definition ModelFile_isLocalType (f : ModelFile) (type : string) : bool :=
  negb (String.eqb type "") && bool_decide (is_Some (ModelFile_getLocalType f type)).

(** The test of the loop over [this.importWildcardNamespaces], the same
    in [isImportedType] and [resolveImport]:
    [modelFile && modelFile.isLocalType(type)] for the [modelFile] that
    [getModelFile(wildcardNamespace)] gives. *)
Definition wildcardDeclares (m : ModelManager) (type wildcardNamespace : string)
    : result bool :=
  match getModelFile m wildcardNamespace with
  | SlotOwn modelFile => ret (ModelFile_isLocalType modelFile type)
  | SlotInherited => throw (notAFunction "modelFile.isLocalType")
  | SlotUndefined => ret false
  end.

(** The loop itself: the first wildcard namespace whose test is true,
    [None] when the loop ends without one. *)
Fixpoint findWildcard (m : ModelManager) (type : string) (namespaces : list string)
    : result (option string) :=
  match namespaces with
  | [] => ret None
  | wildcardNamespace :: rest =>
      letr declares := wildcardDeclares m type wildcardNamespace in
      if declares then ret (Some wildcardNamespace)
      else findWildcard m type rest
  end.

Definition ModelFile_isImportedType (m : ModelManager) (f : ModelFile) (type : string)
    : result bool :=
  if bool_decide (is_Some (mf_importShortNames f !! type)) then ret true
  else
    letr found := findWildcard m type (mf_importWildcardNamespaces f) in
    ret (match found with Some _ => true | None => false end).

Definition ModelFile_resolveImport (m : ModelManager) (f : ModelFile) (type : string)
    : result string :=
  match mf_importShortNames f !! type with
  | Some fqn => ret fqn
  | None =>
      letr found := findWildcard m type (mf_importWildcardNamespaces f) in
      match found with
      | Some wildcardNamespace => ret (wildcardNamespace ++ "." ++ type)
      | None =>
          throw (IllegalModelException
                   (messageFormatter "modelfile-resolveimport-failfindimp"
                      [("type", type);
                       ("imports",
                        String.concat "," (map importFullyQualifiedName (mf_imports f)));
                       ("namespace", ModelFile_getNamespace f)]))
      end
  end.

Definition ModelFile_isDefined (f : ModelFile) (type : string) : bool :=
  isPrimitiveType type || bool_decide (is_Some (ModelFile_getLocalType f type)).

(** [getType(type)]: imports are asked first, local declarations only for
    a name that is not imported. *)
Definition ModelFile_getType (m : ModelManager) (f : ModelFile) (type : string)
    : result (option TypeRef) :=
  if negb (isPrimitiveType type) then
    letr imported := ModelFile_isImportedType m f type in
    if negb imported then
      if negb (ModelFile_isLocalType f type) then ret None
      else ret (Declaration <$> ModelFile_getLocalType f type)
    else
      letr fqn := ModelFile_resolveImport m f type in
      match getModelFile m (getNamespace fqn) with
      | SlotUndefined => ret None
      | SlotOwn modelFile => ret (Declaration <$> ModelFile_getLocalType modelFile fqn)
      | SlotInherited => throw (notAFunction "modelFile.getLocalType")
      end
  else ret (Some (PrimitiveName type)).

Definition ModelFile_getFullyQualifiedTypeName (m : ModelManager) (f : ModelFile)
    (type : string) : result (option string) :=
  if negb (isPrimitiveType type) then
    letr imported := ModelFile_isImportedType m f type in
    if negb imported then
      if negb (ModelFile_isLocalType f type) then ret None
      else
        match ModelFile_getLocalType f type with
        | Some d => ret (Some (ClassDeclaration_getFullyQualifiedName d))
        | None => throw (TypeError "Cannot read properties of null")
        end
    else
      letr fqn := ModelFile_resolveImport m f type in
      match getModelFile m (getNamespace fqn) with
      | SlotUndefined => throw (TypeError "Cannot read properties of undefined")
      | SlotInherited => throw (notAFunction "modelFile.getLocalType")
      | SlotOwn modelFile =>
          match ModelFile_getLocalType modelFile fqn with
          | Some d => ret (Some (ClassDeclaration_getFullyQualifiedName d))
          | None => throw (TypeError "Cannot read properties of null")
          end
      end
  else ret (Some type).

(** One turn of [this.imports.forEach] in [validate]. *)
Definition validateImport (m : ModelManager) (imp : Import) : result unit :=
  match getModelFile m (imp_namespace imp) with
  | SlotUndefined =>
      throw (IllegalModelException
               (messageFormatter "modelmanager-gettype-noregisteredns"
                  [("type", importFullyQualifiedName imp)]))
  | SlotInherited =>
      match imp with
      | ImportAll _ _ => ret tt
      | ImportType _ _ _ => throw (notAFunction "modelFile.isLocalType")
      end
  | SlotOwn modelFile =>
      match imp with
      | ImportAll _ _ => ret tt
      | ImportType importNamespace importShortName _ =>
          if negb (ModelFile_isLocalType modelFile importShortName) then
            throw (IllegalModelException
                     (messageFormatter "modelmanager-gettype-notypeinns"
                        [("type", importShortName); ("namespace", importNamespace)]))
          else ret tt
      end
  end.

(** [validate()]: every import names a registered namespace (and, for a
    named import, a type declared there), then every declaration is
    validated. *)
Definition ModelFile_validate (m : ModelManager) (f : ModelFile) : result unit :=
  letr _u := forEach (validateImport m) (mf_imports f) in
  forEach (ClassDeclaration_validate m f) (mf_declarations f).

(** *** BaseModelManager *)

(** A model handed to the manager: CTO text still to be processed, or a
    [ModelFile] object. *)
Inductive ModelInput : Type :=
| CtoText (text : string)
| FileObject (modelFile : ModelFile).

(** [this.processFile(fileName, text)] followed by [new ModelFile(this,
    ast, text, fileName)]. *)
Definition processAndBuild (fileName : option string) (text : string) : result ModelFile :=
  letr ast := processFile fileName text in
  newModelFile ast (Some text) fileName.

(** [this.modelFiles[namespace] = modelFile]: the own property is
    defined or replaced.  (Under the one key [__proto__] the host
    replaces the prototype of the object instead; of the methods below
    only [updateModelFile] can assign under that key, and the statements
    about it leave that key out.) *)
Definition setModelFile (m : ModelManager) (namespace : string) (f : ModelFile)
    : ModelManager :=
  {| modelFiles := <[namespace := f]> (modelFiles m) |}.

(** [_throwAlreadyExists(modelFile)]; [existing] is
    [this.modelFiles[modelFile.getNamespace()]]. *)
Definition alreadyExistsMessage (existing modelFile : ModelFile) : string :=
  let postfix :=
    match ModelFile_getName existing with
    | Some n => if truthy (Some n) then " in file " ++ n else ""
    | None => ""
    end in
  let prefix :=
    match ModelFile_getName modelFile with
    | Some n => if truthy (Some n) then " specified in file " ++ n else ""
    | None => ""
    end in
  "Namespace " ++ ModelFile_getNamespace modelFile ++ prefix
    ++ " is already declared" ++ postfix.

Definition throwAlreadyExists {A : Type} (existing modelFile : ModelFile) : result A :=
  throw (Error (alreadyExistsMessage existing modelFile)).

(** [_throwAlreadyExists(modelFile)] when
    [this.modelFiles[modelFile.getNamespace()]] is an inherited member:
    the call of [getName] on it is the [TypeError] of the host. *)
Definition throwAlreadyExists_inherited {A : Type} : result A :=
  throw (notAFunction "this.modelFiles[modelFile.getNamespace(...)].getName").

(** [addModelFile(modelFile, cto, fileName, disableValidation)].  The
    arguments [cto] and [fileName] are only logged by the source. *)
Definition addModelFile (m : ModelManager) (modelFile : ModelFile)
    (disableValidation : bool) : result ModelFile * ModelManager :=
  match getModelFile m (ModelFile_getNamespace modelFile) with
  | SlotUndefined =>
      if negb disableValidation then
        match ModelFile_validate m modelFile with
        | inl e => (inl e, m)
        | inr _ => (ret modelFile, setModelFile m (ModelFile_getNamespace modelFile) modelFile)
        end
      else (ret modelFile, setModelFile m (ModelFile_getNamespace modelFile) modelFile)
  | SlotOwn existing => (throwAlreadyExists existing modelFile, m)
  | SlotInherited => (throwAlreadyExists_inherited, m)
  end.

(** [updateModelFile(modelFile, fileName, disableValidation)]. *)
Definition updateModelFile (m : ModelManager) (modelFile : ModelInput)
    (fileName : option string) (disableValidation : bool)
    : result ModelFile * ModelManager :=
  let update (mf : ModelFile) : result ModelFile * ModelManager :=
    match getModelFile m (ModelFile_getNamespace mf) with
    | SlotUndefined =>
        (throw (Error ("Model file for namespace " ++ ModelFile_getNamespace mf
                         ++ " not found")), m)
    | SlotOwn _ | SlotInherited =>
        if negb disableValidation then
          match ModelFile_validate m mf with
          | inl e => (inl e, m)
          | inr _ => (ret mf, setModelFile m (ModelFile_getNamespace mf) mf)
          end
        else (ret mf, setModelFile m (ModelFile_getNamespace mf) mf)
    end in
  match modelFile with
  | CtoText text =>
      match processAndBuild fileName text with
      | inl e => (inl e, m)
      | inr mf => update mf
      end
  | FileObject mf => update mf
  end.

(** [deleteModelFile(namespace)]: [delete] removes an own property and
    does nothing for a name that is only inherited. *)
Definition deleteModelFile (m : ModelManager) (namespace : string)
    : result unit * ModelManager :=
  match getModelFile m namespace with
  | SlotUndefined => (throw (Error "Model file does not exist"), m)
  | SlotOwn _ | SlotInherited =>
      (ret tt, {| modelFiles := delete namespace (modelFiles m) |})
  end.

(** [validateModelFiles()]: every registered file is validated against the
    current state.  The source walks the keys in insertion order and a
    [gmap] in its own order; the two agree on whether an exception is
    raised, and may differ in which one when several files are invalid. *)
Definition validateModelFiles (m : ModelManager) : result unit :=
  forEach (fun entry => ModelFile_validate m entry.2) (map_to_list (modelFiles m)).

(** The loop of [addModelFiles] from index [n] on: returns the exception
    that left the loop, or the files pushed to [newModelFiles], next to
    the state reached. *)
Fixpoint addModelFiles_loop (m : ModelManager) (inputs : list ModelInput)
    (fileNames : option (list string)) (n : nat)
    : result (list ModelFile) * ModelManager :=
  match inputs with
  | [] => (ret [], m)
  | modelFile :: rest =>
      let fileName :=
        match fileNames with
        | Some names => names !! n
        | None => None
        end in
      let built :=
        match modelFile with
        | CtoText text => processAndBuild fileName text
        | FileObject mf => ret mf
        end in
      match built with
      | inl e => (inl e, m)
      | inr mf =>
          match getModelFile m (ModelFile_getNamespace mf) with
          | SlotUndefined =>
              let '(r, m') :=
                addModelFiles_loop (setModelFile m (ModelFile_getNamespace mf) mf)
                                   rest fileNames (S n) in
              (letr added := r in ret (mf :: added), m')
          | SlotOwn existing => (throwAlreadyExists existing mf, m)
          | SlotInherited => (throwAlreadyExists_inherited, m)
          end
      end
  end.

(** [addModelFiles(modelFiles, fileNames, disableValidation)]: the [try]
    block, and the [catch] that puts a copy of [originalModelFiles] back
    before rethrowing. *)
Definition addModelFiles (m : ModelManager) (inputs : list ModelInput)
    (fileNames : option (list string)) (disableValidation : bool)
    : result (list ModelFile) * ModelManager :=
  let originalModelFiles := modelFiles m in
  let attempt : result (list ModelFile) * ModelManager :=
    match addModelFiles_loop m inputs fileNames 0 with
    | (inl e, m') => (inl e, m')
    | (inr newModelFiles, m') =>
        if negb disableValidation then
          match validateModelFiles m' with
          | inl e => (inl e, m')
          | inr _ => (ret newModelFiles, m')
          end
        else (ret newModelFiles, m')
    end in
  match attempt with
  | (inl err, _) => (inl err, {| modelFiles := originalModelFiles |})
  | (inr newModelFiles, m') => (inr newModelFiles, m')
  end.

(** The model files of a batch: what the loop of [addModelFiles] makes
    of its inputs from index [n] on, a text processed and built with the
    file name of its index, a model file taken as it is. *)
Fixpoint buildInputs (inputs : list ModelInput) (fileNames : option (list string))
    (n : nat) : result (list ModelFile) :=
  match inputs with
  | [] => ret []
  | modelFile :: rest =>
      let fileName :=
        match fileNames with
        | Some names => names !! n
        | None => None
        end in
      letr mf :=
        match modelFile with
        | CtoText text => processAndBuild fileName text
        | FileObject mf => ret mf
        end in
      letr others := buildInputs rest fileNames (S n) in
      ret (mf :: others)
  end.

(** [this.modelFiles[m.getNamespace()] = m] for the files of a list, in
    order. *)
Definition installAll (m : ModelManager) (files : list ModelFile) : ModelManager :=
  foldl (fun m' f => setModelFile m' (ModelFile_getNamespace f) f) m files.

(** [getModelFiles(includeConcertoNamespace)]. *)
Definition getModelFiles (m : ModelManager) (includeConcertoNamespace : bool)
    : list ModelFile :=
  omap (fun entry : string * ModelFile =>
          if includeConcertoNamespace || negb (String.eqb entry.1 "concerto")
          then Some entry.2 else None)
       (map_to_list (modelFiles m)).

(** [getModels(options)], the name and the content of every managed
    file; [includeExternalModels] is the option when it is given. *)
Definition getModels (m : ModelManager) (includeExternalModels : option bool)
    : list (string * option string) :=
  let opts_includeExternalModels := default true includeExternalModels in
  omap (fun file : ModelFile =>
          if mf_external file && negb opts_includeExternalModels then None
          else
            let fileName :=
              match mf_fileName file with
              | Some n =>
                  if String.eqb n "UNKNOWN" || negb (truthy (Some n))
                  then mf_namespace file ++ ".cto"
                  else basename n
              | None => mf_namespace file ++ ".cto"
              end in
            Some (fileName, mf_definitions file))
       (getModelFiles m false).

(** [resolveMetaModel(metaModel)] and [getAst(resolve)]; the result is
    the [models] array of the union AST. *)
Definition resolveMetaModel (m : ModelManager) (metaModel : ModelAst) : ModelAst :=
  resolveLocalNames (map mf_ast (getModelFiles m false)) metaModel.

Definition getAst (m : ModelManager) (resolve : bool) : list ModelAst :=
  map (fun thisModelFile : ModelFile =>
         if resolve then resolveMetaModel m (mf_ast thisModelFile)
         else mf_ast thisModelFile)
      (getModelFiles m false).

(** [getNamespaces()], that is [Object.keys(this.modelFiles)]. *)
Definition getNamespaces (m : ModelManager) : list string :=
  (map_to_list (modelFiles m)).*1.

(** Modelled from the spec: [rootModelAst] of lib/rootmodel.js, "a
    synthetic [concerto] namespace with the abstract declarations
    [Concept], [Asset], [Participant], [Transaction], [Event], each
    providing their conventional system-identifier field ([$identifier]
    for identified kinds; transactions and events additionally carry a
    [$timestamp])". *)
Definition rootModelAst : ModelAst :=
  let identifier :=
    {| p_kind := Field; p_name := "$identifier"; p_type := "String";
       p_array := false; p_optional := false; p_validator := None |} in
  let timestamp :=
    {| p_kind := Field; p_name := "$timestamp"; p_type := "DateTime";
       p_array := false; p_optional := false; p_validator := None |} in
  let root (cls name : string) (super : option string) (props : list Property) :=
    {| da_class := cls; da_name := name; da_isAbstract := true;
       da_superType := super; da_identified := None; da_properties := props |} in
  {| ast_namespace := "concerto";
     ast_imports := None;
     ast_declarations := Some
       [ root "concerto.metamodel.ConceptDeclaration" "Concept" None [];
         root "concerto.metamodel.AssetDeclaration" "Asset" (Some "Concept") [identifier];
         root "concerto.metamodel.ParticipantDeclaration" "Participant" (Some "Concept")
              [identifier];
         root "concerto.metamodel.TransactionDeclaration" "Transaction" (Some "Concept")
              [identifier; timestamp];
         root "concerto.metamodel.EventDeclaration" "Event" (Some "Concept")
              [identifier; timestamp] ];
     ast_concertoVersion := None |}.

(** [addRootModel()]. *)
Definition addRootModel (m : ModelManager) : result ModelFile * ModelManager :=
  match newModelFile rootModelAst rootModelCto rootModelFile with
  | inl e => (inl e, m)
  | inr rootFile => addModelFile m rootFile false
  end.

(** The part of the constructor that concerns [this.modelFiles]:
    [this.modelFiles = {}] and [this.addRootModel()]. *)
Definition newModelManager : result unit * ModelManager :=
  let '(r, m) := addRootModel {| modelFiles := ∅ |} in
  (letr _f := r in ret tt, m).

(** [clearModelFiles()]. *)
Definition clearModelFiles (m : ModelManager) : result unit * ModelManager :=
  let '(r, m') := addRootModel {| modelFiles := ∅ |} in
  (letr _f := r in ret tt, m').

(** [getType(qualifiedName)]. *)
Definition getType (m : ModelManager) (qualifiedName : string) : result TypeRef :=
  let namespace := getNamespace qualifiedName in
  match getModelFile m namespace with
  | SlotUndefined =>
      throw (TypeNotFoundException qualifiedName
               (messageFormatter "modelmanager-gettype-noregisteredns"
                  [("type", qualifiedName)]))
  | SlotInherited => throw (notAFunction "modelFile.getType")
  | SlotOwn modelFile =>
      letr classDecl := ModelFile_getType m modelFile qualifiedName in
      match classDecl with
      | None =>
          throw (TypeNotFoundException qualifiedName
                   (messageFormatter "modelmanager-gettype-notypeinns"
                      [("type", getShortName qualifiedName); ("namespace", namespace)]))
      | Some t => ret t
      end
  end.

(** The [while (typeDeclaration)] loop of [derivesFrom].  The loop has no
    bound of its own in the source; [fuel] bounds the number of turns and
    [None] means that it ran out. *)
Fixpoint derivesFrom_loop (m : ModelManager) (fuel : nat)
    (typeDeclaration : ClassDeclaration) (fqt2 : string) : option (result bool) :=
  match fuel with
  | O => None
  | S fuel' =>
      if String.eqb (ClassDeclaration_getFullyQualifiedName typeDeclaration) fqt2
      then Some (ret true)
      else
        match ClassDeclaration_getSuperTypeDeclaration m typeDeclaration with
        | inl e => Some (inl e)
        | inr None => Some (ret false)
        | inr (Some superDeclaration) => derivesFrom_loop m fuel' superDeclaration fqt2
        end
  end.

(** [derivesFrom(fqt1, fqt2)]. *)
Definition derivesFrom (m : ModelManager) (fuel : nat) (fqt1 fqt2 : string)
    : option (result bool) :=
  match getType m fqt1 with
  | inl e => Some (inl e)
  | inr (PrimitiveName _) =>
      Some (throw (TypeError "typeDeclaration.getFullyQualifiedName is not a function"))
  | inr (Declaration typeDeclaration) => derivesFrom_loop m fuel typeDeclaration fqt2
  end.

(** *** StringValidator *)

Record StringValidator : Type := {
  sv_field : Property;
  sv_validator : ValidatorAst;
  sv_regex : regexp
}.

(** [new StringValidator(field, validator)]: the pattern is compiled with
    the flags when there are any; an exception of the engine is handed to
    [reportError], which raises. *)
Definition newStringValidator (field : Property) (validator : ValidatorAst)
    : result StringValidator :=
  let compiled :=
    if truthy (va_flags validator)
    then RegExp_new (va_pattern validator) (va_flags validator)
    else RegExp_new (va_pattern validator) None in
  match compiled with
  | inr regex =>
      ret {| sv_field := field; sv_validator := validator; sv_regex := regex |}
  | inl exception =>
      throw (Validator_reportError field (Some (exn_message exception)) None)
  end.

Definition JsValue_toString (v : JsValue) : string :=
  match v with
  | JsUndefined => "undefined"
  | JsNull => "null"
  | JsString s => s
  | JsBoolean true => "true"
  | JsBoolean false => "false"
  end.

(** [validate(identifier, value)]; the validator comes back with the
    regular expression as [test] left it. *)
Definition StringValidator_validate (sv : StringValidator) (identifier : option string)
    (value : JsValue) : result unit * StringValidator :=
  match value with
  | JsNull => (ret tt, sv)
  | _ =>
      let '(matched, regex') := RegExp_test (sv_regex sv) value in
      let sv' := {| sv_field := sv_field sv; sv_validator := sv_validator sv;
                    sv_regex := regex' |} in
      if negb matched then
        (throw (Validator_reportError (sv_field sv) identifier
                  (Some ("Value '" ++ JsValue_toString value
                           ++ "' failed to match validation regex: "
                           ++ RegExp_toString regex'))),
         sv')
      else (ret tt, sv')
  end.

Definition StringValidator_getRegex (sv : StringValidator) : regexp := sv_regex sv.

End Introspection.

Section Reachability.

Context `{Collaborators}.

(** The states that a manager goes through: the state its constructor
    leaves, and the state that each mutating method leaves, whether it
    returned or raised. *)
Inductive reachable : ModelManager -> Prop :=
| reach_new m :
    newModelManager = (ret tt, m) -> reachable m
| reach_addModelFile m modelFile disableValidation :
    reachable m -> reachable (addModelFile m modelFile disableValidation).2
| reach_addModelFiles m inputs fileNames disableValidation :
    reachable m -> reachable (addModelFiles m inputs fileNames disableValidation).2
| reach_updateModelFile m modelFile fileName disableValidation :
    reachable m -> reachable (updateModelFile m modelFile fileName disableValidation).2
| reach_deleteModelFile m namespace :
    reachable m -> reachable (deleteModelFile m namespace).2
| reach_clearModelFiles m :
    reachable m -> reachable (clearModelFiles m).2.

End Reachability.

Section SuperTypes.

Context `{Collaborators}.

(** [onSuperTypeChain m d d']: [d'] is [d] itself or is reached from [d]
    by following [getSuperTypeDeclaration] in the state [m]. *)
Inductive onSuperTypeChain (m : ModelManager)
    : ClassDeclaration -> ClassDeclaration -> Prop :=
| chain_here d : onSuperTypeChain m d d
| chain_super d s d' :
    ClassDeclaration_getSuperTypeDeclaration m d = ret (Some s) ->
    onSuperTypeChain m s d' ->
    onSuperTypeChain m d d'.

(** [d'] is a transitive super type of [d]. *)
Definition transitiveSuperType (m : ModelManager) (d d' : ClassDeclaration) : Prop :=
  exists s, ClassDeclaration_getSuperTypeDeclaration m d = ret (Some s)
            /\ onSuperTypeChain m s d'.

(** The chain of super types of [d] ends: it reaches a declaration
    without super type, each step resolving. *)
Inductive superTypeChainEnds (m : ModelManager) : ClassDeclaration -> Prop :=
| ends_here d :
    ClassDeclaration_getSuperTypeDeclaration m d = ret None ->
    superTypeChainEnds m d
| ends_super d s :
    ClassDeclaration_getSuperTypeDeclaration m d = ret (Some s) ->
    superTypeChainEnds m s ->
    superTypeChainEnds m d.

End SuperTypes.

(** ** Instances, the serializer and the instance generator

    lib/serializer.js, lib/serializer/resourcevalidator.js,
    lib/serializer/jsongenerator.js and lib/serializer/instancegenerator.js
    are not part of the sources at hand; the sources hold their tests.
    The definitions of this part follow the specification (4.6, 4.7, 6
    and the scenarios S1 to S6). *)

Definition quote : string := String (Ascii.ascii_of_nat 34) EmptyString.

Definition quoted (s : string) : string := quote ++ s ++ quote.

(** A JavaScript number: a finite decimal [mantissa * 10^exponent], or
    one of the three values that are not finite. *)
Inductive JsNumber : Type :=
| Finite (mantissa exponent : Z)
| NaN
| PositiveInfinity
| NegativeInfinity.

Definition JsNumber_isFinite (n : JsNumber) : bool :=
  match n with
  | Finite _ _ => true
  | _ => false
  end.

(** The text of a number that is not finite; a finite number is written
    by the host and is not needed here. *)
Definition JsNumber_toString (n : JsNumber) : string :=
  match n with
  | Finite _ _ => "<finite>"
  | NaN => "NaN"
  | PositiveInfinity => "Infinity"
  | NegativeInfinity => "-Infinity"
  end.

(** The value of a property of an instance.  A [VResource] is a resource
    or a concept: its type (FQN), its identifier and timestamp when it
    has them, and the properties that are set. *)
Inductive Value : Type :=
| VNull
| VString (s : string)
| VBoolean (b : bool)
| VNumber (n : JsNumber)
| VDateTime (iso : string)
| VArray (items : list Value)
| VRelationship (type identifier : string)
| VResource (type : string) (identifier timestamp : option string)
            (properties : list (string * Value)).

Inductive Json : Type :=
| JNull
| JString (s : string)
| JBoolean (b : bool)
| JNumber (n : JsNumber)
| JArray (items : list Json)
| JObject (members : list (string * Json)).

Definition JsValue_truthy (v : option JsValue) : bool :=
  match v with
  | Some (JsBoolean b) => b
  | Some (JsString s) => negb (String.eqb s "")
  | _ => false
  end.

(** Modelled from the spec: the default options of a serializer, of
    which the specification fixes "[validate=true] (default when
    unspecified at call sites)". *)
Definition baseDefaultOptions : gmap string JsValue :=
  {[ "validate" := JsBoolean true ]}.

(** Modelled from the spec: "missing keys inherit from the defaults,
    present keys override regardless of value". *)
Definition overrideOptions (defaults options : gmap string JsValue) : gmap string JsValue :=
  options ∪ defaults.

(** Modelled from the spec: [Serializer.setDefaultOptions]. *)
Definition setDefaultOptions (newDefaultOptions : gmap string JsValue)
    : gmap string JsValue :=
  overrideOptions baseDefaultOptions newDefaultOptions.

(** Modelled from the spec: the options in force for one call, "per-call
    options override defaults". *)
Definition effectiveOptions (defaultOptions : gmap string JsValue)
    (options : option (gmap string JsValue)) : gmap string JsValue :=
  match options with
  | Some o => overrideOptions defaultOptions o
  | None => defaultOptions
  end.

(** Modelled from the spec: the members that the canonical JSON carries
    for every instance next to its properties. *)
Definition isSystemProperty (name : string) : bool :=
  existsb (String.eqb name) ["$class"; "$identifier"; "$timestamp"].

Definition isNumericType (type : string) : bool :=
  existsb (String.eqb type) ["Double"; "Long"; "Integer"].

(** The first entry of a key in a list of entries. *)
Fixpoint lookupEntry {A : Type} (name : string) (entries : list (string * A)) : option A :=
  match entries with
  | [] => None
  | (k, a) :: rest => if String.eqb k name then Some a else lookupEntry name rest
  end.

(** The properties of an instance that hold a value: [null] counts as
    not set. *)
Fixpoint presentProperties (properties : list (string * Value)) : list (string * Value) :=
  match properties with
  | [] => []
  | (_, VNull) :: rest => presentProperties rest
  | entry :: rest => entry :: presentProperties rest
  end.

(** Modelled from the spec: the identifier that messages cite, "the FQN +
    [#identifier]". *)
Definition fullyQualifiedIdentifier (type : string) (identifier : option string) : string :=
  match identifier with
  | Some id => type ++ "#" ++ id
  | None => type
  end.

(** Modelled from the spec: the model violations of scenario S2 (a
    missing required field) and S3 (a value that the field refuses), and
    the one for a property that the declaration does not have. *)
Definition missingRequiredProperty (id : string) (p : Property) : exn :=
  ModelViolation ("The instance " ++ quoted id ++ " is missing the required field "
                    ++ quoted (p_name p) ++ ".").

Definition invalidFieldValue (id : string) (p : Property) (value : string) : exn :=
  ModelViolation ("Model violation in the " ++ quoted id ++ " instance. The field "
                    ++ quoted (p_name p) ++ " has a value of " ++ quoted value ++ ".").

Definition undeclaredProperty (id name : string) : exn :=
  ModelViolation ("Instance " ++ quoted id ++ " has a property named " ++ quoted name
                    ++ ", which is not declared in the model.").

(** Modelled from the spec: one declared property against the checks of
    the values that are set; "non-optional properties require a value
    during instance validation". *)
Definition validateProperty (id : string) (checks : list (string * (Property -> result unit)))
    (p : Property) : result unit :=
  if isSystemProperty (p_name p) then ret tt
  else
    match lookupEntry (p_name p) checks with
    | Some check => check p
    | None => if p_optional p then ret tt else throw (missingRequiredProperty id p)
    end.

(** Modelled from the spec: validation of an instance against its
    declaration: "unexpected properties in the input instance (beyond the
    declaration) fail", and every declared property in declaration order
    is checked. *)
Definition validateProperties (id : string)
    (checks : list (string * (Property -> result unit))) (properties : list Property)
    : result unit :=
  letr _u := forEach (fun entry : string * (Property -> result unit) =>
                        if existsb (fun p => String.eqb (p_name p) entry.1) properties
                        then ret tt
                        else throw (undeclaredProperty id entry.1)) checks in
  forEach (validateProperty id checks) properties.

Section Serializer.

Context `{Collaborators}.

(** Modelled from the spec: validation of one value against the property
    that holds it.  A number in a [Double], [Long] or [Integer] property
    must be finite; a scalar must have the shape of the declared
    primitive; a nested resource is validated against its own
    declaration.  [inArray] is set for the elements of an array. *)
Fixpoint validateValue (m : ModelManager) (id : string) (inArray : bool) (v : Value)
    (p : Property) {struct v} : result unit :=
  let mismatch (shown : string) : result unit := throw (invalidFieldValue id p shown) in
  match v with
  | VArray items =>
      if p_array p && negb inArray then
        (fix each (l : list Value) : result unit :=
           match l with
           | [] => ret tt
           | x :: l' => letr _u := validateValue m id true x p in each l'
           end) items
      else mismatch "[array]"
  | _ =>
      if p_array p && negb inArray then mismatch "[not an array]"
      else
        match v with
        | VNull => mismatch "null"
        | VString s =>
            if String.eqb (p_type p) "String" || negb (isPrimitiveType (p_type p))
            then ret tt else mismatch s
        | VBoolean b =>
            if String.eqb (p_type p) "Boolean" then ret tt
            else mismatch (if b then "true" else "false")
        | VNumber n =>
            if isNumericType (p_type p) && JsNumber_isFinite n then ret tt
            else mismatch (JsNumber_toString n)
        | VDateTime iso =>
            if String.eqb (p_type p) "DateTime" then ret tt else mismatch iso
        | VRelationship type identifier =>
            match p_kind p with
            | Relationship => ret tt
            | _ => mismatch ("resource:" ++ type ++ "#" ++ identifier)
            end
        | VResource type identifier timestamp properties =>
            if isPrimitiveType (p_type p) then mismatch type
            else
              letr t := getType m type in
              match t with
              | PrimitiveName _ => mismatch type
              | Declaration d =>
                  validateProperties id
                    ((fix checks (l : list (string * Value))
                        : list (string * (Property -> result unit)) :=
                        match l with
                        | [] => []
                        | (_, VNull) :: l' => checks l'
                        | (k, x) :: l' => (k, validateValue m id false x) :: checks l'
                        end) properties)
                    (ClassDeclaration_getProperties m d)
              end
        | VArray _ => ret tt
        end
  end.

(** The checks of the values that are set on an instance. *)
Definition resourceChecks (m : ModelManager) (id : string)
    (properties : list (string * Value)) : list (string * (Property -> result unit)) :=
  map (fun entry : string * Value => (entry.1, validateValue m id false entry.2))
      (presentProperties properties).

(** Modelled from the spec: the resource validator on the instance that
    is serialized. *)
Definition validateResource (m : ModelManager) (d : ClassDeclaration) (type : string)
    (identifier : option string) (properties : list (string * Value)) : result unit :=
  let id := fullyQualifiedIdentifier type identifier in
  validateProperties id (resourceChecks m id properties) (ClassDeclaration_getProperties m d).

(** Modelled from the spec: the members of the declared properties that
    have a converted value, "for each own+inherited property in
    declaration order". *)
Fixpoint generateProperties (converted : list (string * result Json))
    (properties : list Property) : result (list (string * Json)) :=
  match properties with
  | [] => ret []
  | p :: rest =>
      if isSystemProperty (p_name p) then generateProperties converted rest
      else
        match lookupEntry (p_name p) converted with
        | None => generateProperties converted rest
        | Some r =>
            letr j := r in
            letr members := generateProperties converted rest in
            ret ((p_name p, j) :: members)
        end
  end.

Definition optionalMember (name : string) (value : option string) : list (string * Json) :=
  match value with
  | Some s => [(name, JString s)]
  | None => []
  end.

(** Modelled from the spec: the JSON generator.  "A JSON object whose
    first key is [$class]"; then [$identifier] and [$timestamp] where the
    instance has them; then every own and inherited property that is set,
    in declaration order; relationships as [resource:<FQN>#<id>]; nested
    resources by recursion. *)
Fixpoint generateJSON (m : ModelManager) (v : Value) {struct v} : result Json :=
  match v with
  | VNull => ret JNull
  | VString s => ret (JString s)
  | VBoolean b => ret (JBoolean b)
  | VNumber n => ret (JNumber n)
  | VDateTime iso => ret (JString iso)
  | VRelationship type identifier =>
      ret (JString ("resource:" ++ type ++ "#" ++ encodeURIComponent identifier))
  | VArray items =>
      letr js := (fix each (l : list Value) : result (list Json) :=
                    match l with
                    | [] => ret []
                    | x :: l' =>
                        letr j := generateJSON m x in
                        letr js := each l' in
                        ret (j :: js)
                    end) items in
      ret (JArray js)
  | VResource type identifier timestamp properties =>
      letr t := getType m type in
      match t with
      | PrimitiveName _ => throw (TypeError "classDeclaration.accept is not a function")
      | Declaration d =>
          letr members :=
            generateProperties
              ((fix convert (l : list (string * Value)) : list (string * result Json) :=
                  match l with
                  | [] => []
                  | (_, VNull) :: l' => convert l'
                  | (k, x) :: l' => (k, generateJSON m x) :: convert l'
                  end) properties)
              (ClassDeclaration_getProperties m d) in
          ret (JObject (("$class", JString type)
                          :: optionalMember "$identifier" identifier
                          ++ optionalMember "$timestamp" timestamp
                          ++ members))
      end
  end.

Definition convertedProperties (m : ModelManager) (properties : list (string * Value))
    : list (string * result Json) :=
  map (fun entry : string * Value => (entry.1, generateJSON m entry.2))
      (presentProperties properties).

(** Modelled from the spec: [Serializer.toJSON(resource, options)] of a
    serializer whose default options are [defaultOptions]: the
    declaration of the instance is looked up, the instance is validated
    when [validate] is in force, then converted. *)
Definition toJSON (m : ModelManager) (defaultOptions : gmap string JsValue)
    (resource : Value) (options : option (gmap string JsValue)) : result Json :=
  match resource with
  | VResource type identifier timestamp properties =>
      letr t := getType m type in
      match t with
      | PrimitiveName _ => throw (TypeError "classDeclaration.accept is not a function")
      | Declaration d =>
          letr _u :=
            (if JsValue_truthy (effectiveOptions defaultOptions options !! "validate")
             then validateResource m d type identifier properties
             else ret tt) in
          generateJSON m resource
      end
  | _ =>
      throw (Error ("Serializer.toJSON only accepts Concept, Event, Asset, "
                      ++ "Participant or Transaction."))
  end.

End Serializer.

(** *** InstanceGenerator *)

(** The two strategies of value generation. *)
Inductive Strategy : Type := EmptyStrategy | SampleStrategy.

(** A value generator: its strategy and the values it hands out (the
    sample generator draws them at random; a record fixes the draw). *)
Record ValueGenerator : Type := {
  vg_strategy : Strategy;
  vg_string : string;
  vg_boolean : bool;
  vg_number : JsNumber;
  vg_dateTime : string;
  vg_enumIndex : nat;
  vg_identifier : string
}.

Definition ValueGenerator_empty : ValueGenerator :=
  {| vg_strategy := EmptyStrategy; vg_string := ""; vg_boolean := false;
     vg_number := Finite 0 0; vg_dateTime := "1970-01-01T00:00:00.000Z";
     vg_enumIndex := 0; vg_identifier := "0000" |}.

Definition ValueGenerator_sample : ValueGenerator :=
  {| vg_strategy := SampleStrategy; vg_string := "Lorem ipsum"; vg_boolean := true;
     vg_number := Finite 3142 (-3); vg_dateTime := "2020-02-29T12:00:00.000Z";
     vg_enumIndex := 1; vg_identifier := "4242" |}.

(** The state carried through the traversal: the FQNs of the instances
    being generated, the value generator and the flag for optional
    fields. *)
Record GeneratorParameters : Type := {
  gp_seen : list string;
  gp_valueGenerator : ValueGenerator;
  gp_includeOptionalFields : bool
}.

Definition withSeen (seen : list string) (parameters : GeneratorParameters)
    : GeneratorParameters :=
  {| gp_seen := seen;
     gp_valueGenerator := gp_valueGenerator parameters;
     gp_includeOptionalFields := gp_includeOptionalFields parameters |}.

Section InstanceGenerator.

Context `{Collaborators}.

(** Modelled from the spec: the value of a primitive, "ask value
    generator for that primitive". *)
Definition primitiveValue (vg : ValueGenerator) (type : string) : Value :=
  if String.eqb type "String" then VString (vg_string vg)
  else if String.eqb type "Boolean" then VBoolean (vg_boolean vg)
  else if String.eqb type "DateTime" then VDateTime (vg_dateTime vg)
  else VNumber (vg_number vg).

(** Modelled from the spec: an array "with [empty] strategy emit [[]];
    with [sample] strategy emit a single element". *)
Definition getArray (vg : ValueGenerator) (element : option (result Value))
    : option (result Value) :=
  match vg_strategy vg with
  | EmptyStrategy => Some (ret (VArray []))
  | SampleStrategy =>
      match element with
      | Some (inr v) => Some (ret (VArray [v]))
      | other => other
      end
  end.

(** Modelled from the spec: the concrete-subclass picker, "the set of
    non-abstract assignable descendants in the manager; pick the first by
    stable ordering; if none, fail". *)
Definition findConcreteSubclass (m : ModelManager) (d : ClassDeclaration)
    : result ClassDeclaration :=
  if negb (ClassDeclaration_isAbstract d) then ret d
  else
    match find (fun c => negb (ClassDeclaration_isAbstract c))
               (ClassDeclaration_getAssignableClassDeclarations m d) with
    | Some concrete => ret concrete
    | None =>
        throw (Error ("No concrete extending type for "
                        ++ quoted (ClassDeclaration_getFullyQualifiedName d) ++ "."))
    end.

(** Modelled from the spec: the FQN of the declared type of a property,
    resolved by the model file of the declaration that is visited. *)
Definition Property_getFullyQualifiedTypeName (m : ModelManager) (parent : ClassDeclaration)
    (p : Property) : result string :=
  match modelFiles m !! cd_namespace parent with
  | None => throw (TypeError "Cannot read properties of undefined")
  | Some modelFile =>
      letr fqn := ModelFile_getFullyQualifiedTypeName m modelFile (p_type p) in
      match fqn with
      | Some name => ret name
      | None => throw (TypeNotFoundException (p_type p) "null")
      end
  end.

(** Modelled from the spec: one property.  A primitive asks the value
    generator; a relationship is built to the target with a synthetic
    identifier; an enum takes one of its values; an object field takes the
    concrete declaration of its type and, when that is already on the
    seen stack, gives the empty array for an array, null for an optional
    field and fails for a required one; otherwise an instance is
    generated with the FQN pushed.  [instance] generates an instance of a
    declaration under the given parameters. *)
Definition visitField
    (instance : GeneratorParameters -> ClassDeclaration -> option (result Value))
    (m : ModelManager) (parameters : GeneratorParameters) (parent : ClassDeclaration)
    (p : Property) : option (result Value) :=
  let vg := gp_valueGenerator parameters in
  let scalarOrArray (element : option (result Value)) : option (result Value) :=
    if p_array p then getArray vg element else element in
  if isPrimitiveType (p_type p) then
    scalarOrArray (Some (ret (primitiveValue vg (p_type p))))
  else
    match Property_getFullyQualifiedTypeName m parent p with
    | inl e => Some (inl e)
    | inr type =>
        match getType m type with
        | inl e => Some (inl e)
        | inr (PrimitiveName _) =>
            Some (throw (TypeError "classDeclaration.isAbstract is not a function"))
        | inr (Declaration classDeclaration) =>
            match p_kind p with
            | Relationship =>
                scalarOrArray (Some (ret (VRelationship type (vg_identifier vg))))
            | _ =>
                match cd_kind classDeclaration with
                | EnumDeclaration =>
                    scalarOrArray
                      (Some (ret (match cd_properties classDeclaration
                                        !! vg_enumIndex vg with
                                  | Some enumValue => VString (p_name enumValue)
                                  | None => VNull
                                  end)))
                | _ =>
                    match findConcreteSubclass m classDeclaration with
                    | inl e => Some (inl e)
                    | inr concrete =>
                        let fqn := ClassDeclaration_getFullyQualifiedName concrete in
                        if existsb (String.eqb fqn) (gp_seen parameters) then
                          if p_array p then Some (ret (VArray []))
                          else if p_optional p then Some (ret VNull)
                          else Some (throw (RecursionError "Model is recursive."))
                        else
                          scalarOrArray
                            (instance (withSeen (fqn :: gp_seen parameters) parameters)
                                      concrete)
                    end
                end
            end
        end
    end.

(** Modelled from the spec: the properties of an instance, in
    declaration order; "optional properties are emitted only when
    [includeOptionalFields=true]", and a property that already has a
    value keeps it. *)
Fixpoint visitProperties
    (instance : GeneratorParameters -> ClassDeclaration -> option (result Value))
    (m : ModelManager) (parameters : GeneratorParameters) (parent : ClassDeclaration)
    (properties : list Property) (set : list (string * Value))
    : option (result (list (string * Value))) :=
  match properties with
  | [] => Some (ret set)
  | p :: rest =>
      if isSystemProperty (p_name p)
         || (p_optional p && negb (gp_includeOptionalFields parameters))
         || bool_decide (is_Some (lookupEntry (p_name p) (presentProperties set)))
      then visitProperties instance m parameters parent rest set
      else
        match visitField instance m parameters parent p with
        | None => None
        | Some (inl e) => Some (inl e)
        | Some (inr v) =>
            visitProperties instance m parameters parent rest (set ++ [(p_name p, v)])
        end
  end.

Definition isIdentifiable (d : ClassDeclaration) : bool :=
  match cd_kind d with
  | ConceptDeclaration | EnumDeclaration => false
  | _ => true
  end.

(** Modelled from the spec: an instance of [d] whose properties are
    generated; identifiable kinds get a synthetic identifier.  [None]
    when the fuel does not reach the end of the nesting. *)
Fixpoint generateInstance (fuel : nat) (m : ModelManager)
    (parameters : GeneratorParameters) (d : ClassDeclaration) : option (result Value) :=
  match fuel with
  | O => None
  | S fuel' =>
      let identifier :=
        if isIdentifiable d
        then Some (vg_identifier (gp_valueGenerator parameters)) else None in
      let initial :=
        match cd_idField d, identifier with
        | Some idField, Some id => [(idField, VString id)]
        | _, _ => []
        end in
      match visitProperties (generateInstance fuel' m) m parameters d
              (ClassDeclaration_getProperties m d) initial with
      | None => None
      | Some (inl e) => Some (inl e)
      | Some (inr properties) =>
          Some (ret (VResource (ClassDeclaration_getFullyQualifiedName d) identifier None
                       properties))
      end
  end.

(** Modelled from the spec: the generator on an instance that the
    factory made ([type], [identifier], the properties already [set]),
    with the FQN of the instance as the seen stack. *)
Definition InstanceGenerator_generate (fuel : nat) (m : ModelManager)
    (vg : ValueGenerator) (includeOptionalFields : bool)
    (d : ClassDeclaration) (identifier : option string) (set : list (string * Value))
    : option (result Value) :=
  let parameters :=
    {| gp_seen := [ClassDeclaration_getFullyQualifiedName d];
       gp_valueGenerator := vg;
       gp_includeOptionalFields := includeOptionalFields |} in
  match visitProperties (generateInstance fuel m) m parameters d
          (ClassDeclaration_getProperties m d) set with
  | None => None
  | Some (inl e) => Some (inl e)
  | Some (inr properties) =>
      Some (ret (VResource (ClassDeclaration_getFullyQualifiedName d) identifier None
                   properties))
  end.

End InstanceGenerator.

(** ** A reference instance of the collaborators

    The examples below run the embedding on concrete models.  They use this
    instance: no parser, a literal-pattern engine in place of the host's
    regular expressions, and the [ClassDeclaration] methods written from
    the specification. *)

(** [isInfix p s]: the text [p] occurs in [s]. *)
Fixpoint isInfix (p s : string) : bool :=
  String.prefix p s ||
  match s with
  | EmptyString => false
  | String _ rest => isInfix p rest
  end.

(** The literal engine: a pattern with an opening parenthesis is refused
    the way the host refuses an unterminated group; any other pattern
    matches the values that contain it. *)
Definition literal_RegExp_new (pattern : string) (flags : option string) : result string :=
  if isInfix "(" pattern
  then throw (Error ("Invalid regular expression: /" ++ pattern ++ "/: Unterminated group"))
  else ret pattern.

Definition literal_RegExp_test (regex : string) (value : JsValue) : bool * string :=
  (isInfix regex (JsValue_toString value), regex).

Definition sample_messageFormatter (key : string) (arguments : list (string * string))
    : string :=
  foldl (fun acc kv => acc ++ " " ++ kv.1 ++ "=" ++ kv.2) key arguments.

Definition sample_reportError (field : Property) (id reason : option string) : exn :=
  Error ("Validator error for field " ++ default "undefined" id ++ " "
           ++ p_name field ++ ": " ++ default "undefined" reason).

(** The instance without the [ClassDeclaration] methods, which need the
    name resolution of [ModelFile] to be written. *)
Definition bareCollaborators : Collaborators :=
  {| processFile := fun _ _ => throw (Error "no parser");
     packageVersion := "3.0.0";
     versionSatisfies := fun _ => true;
     rootModelCto := None;
     rootModelFile := Some "concerto.cto";
     messageFormatter := sample_messageFormatter;
     ClassDeclaration_validate := fun _ _ _ => ret tt;
     ClassDeclaration_getSuperTypeDeclaration := fun _ _ => ret None;
     ClassDeclaration_getProperties := fun _ d => cd_properties d;
     ClassDeclaration_getAssignableClassDeclarations := fun _ d => [d];
     regexp := string;
     RegExp_new := literal_RegExp_new;
     RegExp_test := literal_RegExp_test;
     RegExp_toString := fun r => "/" ++ r ++ "/";
     Validator_reportError := sample_reportError;
     encodeURIComponent := fun s => s;
     resolveLocalNames := fun _ metaModel => metaModel;
     basename := fun path => path |}.

(** Modelled from the spec: [ClassDeclaration.getSuperTypeDeclaration],
    "resolve super-type FQN": no super type gives [null]; otherwise the
    name is resolved by the model file that owns the declaration, and a
    name that does not resolve is an illegal model. *)
Definition sample_getSuperTypeDeclaration (m : ModelManager) (d : ClassDeclaration)
    : result (option ClassDeclaration) :=
  match cd_superType d with
  | None => ret None
  | Some superType =>
      let notFound : result (option ClassDeclaration) :=
        throw (IllegalModelException ("Could not find super type " ++ superType)) in
      match modelFiles m !! cd_namespace d with
      | None => notFound
      | Some owner =>
          letr t := ModelFile_getType (H := bareCollaborators) m owner superType in
          match t with
          | Some (Declaration superDeclaration) => ret (Some superDeclaration)
          | _ => notFound
          end
      end
  end.

(** Modelled from the spec: the part of [ClassDeclaration.validate] that
    the examples need, "a declaration's super type resolves to an existing
    declaration". *)
Definition sample_validate (m : ModelManager) (f : ModelFile) (d : ClassDeclaration)
    : result unit :=
  match cd_superType d with
  | None => ret tt
  | Some superType =>
      letr t := ModelFile_getType (H := bareCollaborators) m f superType in
      match t with
      | Some (Declaration _) => ret tt
      | _ => throw (IllegalModelException ("Could not find super type " ++ superType))
      end
  end.

(** The declarations from [d] up its super types, at most [fuel] of them. *)
Fixpoint sample_superChain (m : ModelManager) (fuel : nat) (d : ClassDeclaration)
    : list ClassDeclaration :=
  match fuel with
  | O => []
  | S fuel' =>
      d :: match sample_getSuperTypeDeclaration m d with
           | inr (Some superDeclaration) => sample_superChain m fuel' superDeclaration
           | _ => []
           end
  end.

(** Modelled from the spec: [getProperties], "own + all inherited". *)
Definition sample_getProperties (m : ModelManager) (d : ClassDeclaration) : list Property :=
  flat_map cd_properties (sample_superChain m 16 d).

(** Modelled from the spec: [getAssignableClassDeclarations], "this
    declaration plus every descendant reachable in the manager". *)
Definition sample_getAssignableClassDeclarations (m : ModelManager) (d : ClassDeclaration)
    : list ClassDeclaration :=
  let fqn := ClassDeclaration_getFullyQualifiedName d in
  let derives (c : ClassDeclaration) : bool :=
    existsb (fun a => String.eqb (ClassDeclaration_getFullyQualifiedName a) fqn)
            (sample_superChain m 16 c) in
  d :: filter (fun c => derives c
                        && negb (String.eqb (ClassDeclaration_getFullyQualifiedName c) fqn))
              (flat_map (fun entry : string * ModelFile => mf_declarations entry.2)
                        (map_to_list (modelFiles m))).

#[export] Instance sampleCollaborators : Collaborators :=
  {| processFile := fun _ _ => throw (Error "no parser");
     packageVersion := "3.0.0";
     versionSatisfies := fun _ => true;
     rootModelCto := None;
     rootModelFile := Some "concerto.cto";
     messageFormatter := sample_messageFormatter;
     ClassDeclaration_validate := sample_validate;
     ClassDeclaration_getSuperTypeDeclaration := sample_getSuperTypeDeclaration;
     ClassDeclaration_getProperties := sample_getProperties;
     ClassDeclaration_getAssignableClassDeclarations :=
       sample_getAssignableClassDeclarations;
     regexp := string;
     RegExp_new := literal_RegExp_new;
     RegExp_test := literal_RegExp_test;
     RegExp_toString := fun r => "/" ++ r ++ "/";
     Validator_reportError := sample_reportError;
     encodeURIComponent := fun s => s;
     resolveLocalNames := fun _ metaModel => metaModel;
     basename := fun path => path |}.

(** ** Sample models *)

Definition emptyModelFile (ast : ModelAst) : ModelFile :=
  {| mf_namespace := ast_namespace ast; mf_declarations := []; mf_localTypes := ∅;
     mf_imports := []; mf_importShortNames := ∅; mf_importWildcardNamespaces := [];
     mf_importUriMap := ∅; mf_fileName := None; mf_definitions := None;
     mf_external := false; mf_concertoVersion := None; mf_ast := ast |}.

(** The model file that the constructor builds from an AST. *)
Definition buildFile (ast : ModelAst) : ModelFile :=
  match newModelFile ast None None with
  | inr f => f
  | inl _ => emptyModelFile ast
  end.

Definition field (name type : string) : Property :=
  {| p_kind := Field; p_name := name; p_type := type; p_array := false;
     p_optional := false; p_validator := None |}.

Definition declaration (cls name : string) (super identified : option string)
    (properties : list Property) : DeclarationAst :=
  {| da_class := cls; da_name := name; da_isAbstract := false; da_superType := super;
     da_identified := identified; da_properties := properties |}.

Definition model (namespace : string) (imports : list Import)
    (declarations : list DeclarationAst) : ModelAst :=
  {| ast_namespace := namespace; ast_imports := Some imports;
     ast_declarations := Some declarations; ast_concertoVersion := None |}.

(** The manager as its constructor leaves it. *)
Definition freshManager : ModelManager := newModelManager.2.

(** [namespace org.b  concept T {}] *)
Definition fileB : ModelFile :=
  buildFile (model "org.b" [] [declaration "concerto.metamodel.ConceptDeclaration" "T" None None []]).

(** [namespace org.a  import org.b.T  concept T {}] *)
Definition fileA : ModelFile :=
  buildFile (model "org.a" [ImportType "org.b" "T" None]
               [declaration "concerto.metamodel.ConceptDeclaration" "T" None None []]).

Definition managerAB : ModelManager :=
  (addModelFiles freshManager [FileObject fileB; FileObject fileA] None false).2.

(** [namespace a  asset ab identified by id { o String id }] *)
Definition fileShort : ModelFile :=
  buildFile (model "a" []
               [declaration "concerto.metamodel.AssetDeclaration" "ab" None (Some "id")
                  [field "id" "String"]]).

Definition managerShort : ModelManager :=
  (addModelFile freshManager fileShort false).2.

Definition relationship (name type : string) : Property :=
  {| p_kind := Relationship; p_name := name; p_type := type; p_array := false;
     p_optional := false; p_validator := None |}.

(** The model of the serializer scenarios (S1 to S4):
    [namespace org.acme.sample
     asset SampleAsset identified by assetId {
       o String assetId  --> SampleParticipant owner
       o String stringValue  o Double doubleValue }
     participant SampleParticipant identified by participantId {
       o String participantId  o String firstName  o String lastName }
     concept Address { o String city  o String country  o Double elevation }] *)
Definition fileSample : ModelFile :=
  buildFile
    (model "org.acme.sample" []
       [ declaration "concerto.metamodel.AssetDeclaration" "SampleAsset" None
           (Some "assetId")
           [ field "assetId" "String"; relationship "owner" "SampleParticipant";
             field "stringValue" "String"; field "doubleValue" "Double" ];
         declaration "concerto.metamodel.ParticipantDeclaration" "SampleParticipant" None
           (Some "participantId")
           [ field "participantId" "String"; field "firstName" "String";
             field "lastName" "String" ];
         declaration "concerto.metamodel.ConceptDeclaration" "Address" None None
           [ field "city" "String"; field "country" "String";
             field "elevation" "Double" ] ]).

Definition managerSample : ModelManager :=
  (addModelFile freshManager fileSample false).2.

(** [factory.newResource('org.acme.sample', 'SampleAsset', '1')] with the
    given values for [owner], [stringValue] and [doubleValue]. *)
Definition sampleAsset (values : list (string * Value)) : Value :=
  VResource "org.acme.sample.SampleAsset" (Some "1") None
            (("assetId", VString "1") :: values).

Definition aliceOwner : string * Value :=
  ("owner", VRelationship "org.acme.sample.SampleParticipant" "alice@email.com").

Definition sampleAssetWith (doubleValue : JsNumber) : Value :=
  sampleAsset [ aliceOwner; ("stringValue", VString "the value");
                ("doubleValue", VNumber doubleValue) ].

(** The models of the generator scenario (S6): an asset [MyAsset] with a
    field [theValues] of its own type, required, optional or array. *)
Definition fileRecursive (array optional : bool) : ModelFile :=
  buildFile
    (model "org.acme.test" []
       [ declaration "concerto.metamodel.AssetDeclaration" "MyAsset" None (Some "assetId")
           [ field "assetId" "String";
             {| p_kind := Field; p_name := "theValues"; p_type := "MyAsset";
                p_array := array; p_optional := optional; p_validator := None |} ] ]).

Definition managerRecursive (array optional : bool) : ModelManager :=
  (addModelFile freshManager (fileRecursive array optional) false).2.

Definition myAsset (array optional : bool) : ClassDeclaration :=
  default (newClassDeclaration AssetDeclaration "org.acme.test"
             (declaration "" "MyAsset" None None []))
          (ModelFile_getLocalType (fileRecursive array optional) "MyAsset").

Definition sampleAssetDeclaration : ClassDeclaration :=
  default (myAsset false false) (ModelFile_getLocalType fileSample "SampleAsset").

Definition abDeclaration : ClassDeclaration :=
  default (myAsset false false) (ModelFile_getLocalType fileShort "a.ab").

(** The field [theValues] of [MyAsset]. *)
Definition theValues (array optional : bool) : Property :=
  {| p_kind := Field; p_name := "theValues"; p_type := "MyAsset";
     p_array := array; p_optional := optional; p_validator := None |}.

(** The parameters of the generator tests: the asset itself on the seen
    stack. *)
Definition testParameters (vg : ValueGenerator) (includeOptionalFields : bool)
    : GeneratorParameters :=
  {| gp_seen := ["org.acme.test.MyAsset"];
     gp_valueGenerator := vg;
     gp_includeOptionalFields := includeOptionalFields |}.

(** ** More of ModelFile and BaseModelManager *)

Section MoreIntrospection.

Context `{Collaborators}.

(** [isSystemModelFile()] and [isExternal()]. *)
Definition ModelFile_isSystemModelFile (f : ModelFile) : bool :=
  String.eqb (mf_namespace f) "concerto".

Definition ModelFile_isExternal (f : ModelFile) : bool := mf_external f.

(** [getImportURI(namespace)]: what [this.importUriMap[namespace]] reads
    when that is truthy, [null] otherwise.  [importUriMap] is a plain
    object: [SlotOwn] is the URI stored under the key, [SlotInherited]
    the inherited member of that name, which the method returns as it
    is, and [SlotUndefined] stands for the [null]. *)
Definition ModelFile_getImportURI (f : ModelFile) (namespace : string) : Slot string :=
  match readObject (mf_importUriMap f) namespace with
  | SlotOwn result => if truthy (Some result) then SlotOwn result else SlotUndefined
  | SlotInherited => SlotInherited
  | SlotUndefined => SlotUndefined
  end.

Definition ModelFile_getExternalImports (f : ModelFile) : gmap string string :=
  mf_importUriMap f.

(** [getImports()]. *)
Definition ModelFile_getImports (f : ModelFile) : list string :=
  map importFullyQualifiedName (mf_imports f).

Definition ModelFile_getAllDeclarations (f : ModelFile) : list ClassDeclaration :=
  mf_declarations f.

(** [getDeclarations(type)]: the declarations that are instances of the
    class [type].  Modelled from the spec: the classes of the declarations
    (lib/introspect/assetdeclaration.js and its siblings are not at hand)
    are the "kind-tagged variant over declarations
    (Asset|Participant|Transaction|Event|Concept|Enum)": a declaration is
    an instance of the class that [fromAst] constructed, which [cd_kind]
    records, and of none of the other five. *)
Definition DeclarationKind_eqb (a b : DeclarationKind) : bool :=
  match a, b with
  | AssetDeclaration, AssetDeclaration
  | TransactionDeclaration, TransactionDeclaration
  | EventDeclaration, EventDeclaration
  | ParticipantDeclaration, ParticipantDeclaration
  | EnumDeclaration, EnumDeclaration
  | ConceptDeclaration, ConceptDeclaration => true
  | _, _ => false
  end.

Definition ModelFile_getDeclarations (f : ModelFile) (type : DeclarationKind)
    : list ClassDeclaration :=
  filter (fun classDeclaration => DeclarationKind_eqb (cd_kind classDeclaration) type = true)
         (mf_declarations f).

Definition ModelFile_getAssetDeclarations (f : ModelFile) : list ClassDeclaration :=
  ModelFile_getDeclarations f AssetDeclaration.

Definition ModelFile_getTransactionDeclarations (f : ModelFile) : list ClassDeclaration :=
  ModelFile_getDeclarations f TransactionDeclaration.

Definition ModelFile_getEventDeclarations (f : ModelFile) : list ClassDeclaration :=
  ModelFile_getDeclarations f EventDeclaration.

Definition ModelFile_getParticipantDeclarations (f : ModelFile) : list ClassDeclaration :=
  ModelFile_getDeclarations f ParticipantDeclaration.

Definition ModelFile_getConceptDeclarations (f : ModelFile) : list ClassDeclaration :=
  ModelFile_getDeclarations f ConceptDeclaration.

Definition ModelFile_getEnumDeclarations (f : ModelFile) : list ClassDeclaration :=
  ModelFile_getDeclarations f EnumDeclaration.

(** [getAssetDeclaration(name)] and its three siblings: the local type of
    that name when it is of the kind asked for.  Modelled from the spec:
    [isAsset()] and its siblings are the "kind predicates" of the kind
    tag. *)
Definition ModelFile_getDeclarationOfKind (f : ModelFile) (type : DeclarationKind)
    (name : string) : option ClassDeclaration :=
  match ModelFile_getLocalType f name with
  | Some classDeclaration =>
      if DeclarationKind_eqb (cd_kind classDeclaration) type
      then Some classDeclaration else None
  | None => None
  end.

Definition ModelFile_getAssetDeclaration (f : ModelFile) (name : string)
    : option ClassDeclaration :=
  ModelFile_getDeclarationOfKind f AssetDeclaration name.

Definition ModelFile_getTransactionDeclaration (f : ModelFile) (name : string)
    : option ClassDeclaration :=
  ModelFile_getDeclarationOfKind f TransactionDeclaration name.

Definition ModelFile_getEventDeclaration (f : ModelFile) (name : string)
    : option ClassDeclaration :=
  ModelFile_getDeclarationOfKind f EventDeclaration name.

Definition ModelFile_getParticipantDeclaration (f : ModelFile) (name : string)
    : option ClassDeclaration :=
  ModelFile_getDeclarationOfKind f ParticipantDeclaration name.

Definition ModelFile_getDefinitions (f : ModelFile) : option string := mf_definitions f.

Definition ModelFile_getAst (f : ModelFile) : ModelAst := mf_ast f.

Definition ModelFile_getConcertoVersion (f : ModelFile) : option string :=
  mf_concertoVersion f.

(** [BaseModelManager.resolveType(context, type)]. *)
Definition BaseModelManager_resolveType (m : ModelManager) (context type : string)
    : result string :=
  if isPrimitiveType type then ret type
  else
    match getModelFile m (getNamespace type) with
    | SlotUndefined =>
        throw (IllegalModelException
                 (messageFormatter "modelmanager-resolvetype-nonsfortype"
                    [("type", type); ("context", context)]))
    | SlotInherited => throw (notAFunction "modelFile.isLocalType")
    | SlotOwn modelFile =>
        if ModelFile_isLocalType modelFile type then ret type
        else
          throw (IllegalModelException
                   (messageFormatter "modelmanager-resolvetype-notypeinnsforcontext"
                      [("context", context); ("type", type);
                       ("namespace", ModelFile_getNamespace modelFile)]))
    end.

(** [ModelFile.resolveType(context, type, fileLocation)]; the file
    location only decorates the exception. *)
Definition ModelFile_resolveType (m : ModelManager) (f : ModelFile) (context type : string)
    : result unit :=
  if negb (isPrimitiveType type) then
    letr imported := ModelFile_isImportedType m f type in
    if negb imported then
      if negb (ModelFile_isLocalType f type) then
        throw (IllegalModelException
                 (messageFormatter "modelfile-resolvetype-undecltype"
                    [("type", type); ("context", context)]))
      else ret tt
    else
      letr fqn := ModelFile_resolveImport m f type in
      letr _resolved := BaseModelManager_resolveType m context fqn in
      ret tt
  else ret tt.

(** [validateModelFile(modelFile, fileName)]: the state of the manager is
    read, not written. *)
Definition validateModelFile (m : ModelManager) (modelFile : ModelInput)
    (fileName : option string) : result unit :=
  match modelFile with
  | CtoText text =>
      letr ast := processFile fileName text in
      letr built := newModelFile ast (Some text) fileName in
      ModelFile_validate m built
  | FileObject mf => ModelFile_validate m mf
  end.

(** [getModelFileByFileName(fileName)] for a string [fileName]: the
    first of the managed files that has this name, [None] for the
    [undefined] that indexing an empty array gives.  [getModelFiles()] is
    in the order of the map, as for [validateModelFiles]. *)
Definition getModelFileByFileName (m : ModelManager) (fileName : string)
    : option ModelFile :=
  head (filter (fun mf => ModelFile_getName mf = Some fileName) (getModelFiles m false)).

(** [getAssetDeclarations()] and its five siblings of the manager: the
    declarations of a kind over [getModelFiles()]. *)
Definition getDeclarationsOfKind (m : ModelManager) (type : DeclarationKind)
    : list ClassDeclaration :=
  foldl (fun prev cur => (prev ++ ModelFile_getDeclarations cur type)%list) []
        (getModelFiles m false).

Definition getAssetDeclarations (m : ModelManager) : list ClassDeclaration :=
  getDeclarationsOfKind m AssetDeclaration.

Definition getTransactionDeclarations (m : ModelManager) : list ClassDeclaration :=
  getDeclarationsOfKind m TransactionDeclaration.

Definition getEventDeclarations (m : ModelManager) : list ClassDeclaration :=
  getDeclarationsOfKind m EventDeclaration.

Definition getParticipantDeclarations (m : ModelManager) : list ClassDeclaration :=
  getDeclarationsOfKind m ParticipantDeclaration.

Definition getEnumDeclarations (m : ModelManager) : list ClassDeclaration :=
  getDeclarationsOfKind m EnumDeclaration.

Definition getConceptDeclarations (m : ModelManager) : list ClassDeclaration :=
  getDeclarationsOfKind m ConceptDeclaration.

(** The loop of [BaseModelManager.fromAst] over [ast.models]:
    [new ModelFile(this, model)] and [addModelFile] without validation. *)
Fixpoint fromAst_models (m : ModelManager) (models : list ModelAst)
    : result unit * ModelManager :=
  match models with
  | [] => (ret tt, m)
  | model :: rest =>
      match newModelFile model None None with
      | inl e => (inl e, m)
      | inr modelFile =>
          match addModelFile m modelFile true with
          | (inl e, m') => (inl e, m')
          | (inr _, m') => fromAst_models m' rest
          end
      end
  end.

(** [BaseModelManager.fromAst(ast)]: the manager is cleared, the models
    are added, then all files are validated; nothing is put back when a
    step raises. *)
Definition BaseModelManager_fromAst (m : ModelManager) (models : list ModelAst)
    : result unit * ModelManager :=
  match clearModelFiles m with
  | (inl e, m0) => (inl e, m0)
  | (inr _, m0) =>
      match fromAst_models m0 models with
      | (inl e, m1) => (inl e, m1)
      | (inr _, m1) => (validateModelFiles m1, m1)
      end
  end.

End MoreIntrospection.


(** ** addModel and updateExternalModels *)

Section ExternalModels.

Context `{Collaborators}.

(** The [definitions] of what [processFile] returns, of which the class
    above has the [ast]. *)
Variable processFile_definitions : option string -> string -> option string.

(** [addModel(modelInput, cto, fileName, disableValidation)]. *)
Definition addModel (m : ModelManager) (modelInput : string) (cto fileName : option string)
    (disableValidation : bool) : result ModelFile * ModelManager :=
  match processFile fileName modelInput with
  | inl e => (inl e, m)
  | inr ast =>
      let definitions := processFile_definitions fileName modelInput in
      let finalCto := if truthy cto then cto else definitions in
      match newModelFile ast finalCto fileName with
      | inl e => (inl e, m)
      | inr modelFile =>
          match addModelFile m modelFile disableValidation with
          | (inl e, m') => (inl e, m')
          | (inr _, m') => (ret modelFile, m')
          end
      end
  end.

(** A file that [fileDownloader.downloadExternalDependencies] resolved
    to. *)
Record ExternalModel : Type := {
  em_ast : ModelAst;
  em_definitions : option string;
  em_fileName : option string
}.

Definition ExternalModel_build (file : ExternalModel) : result ModelFile :=
  newModelFile (em_ast file) (em_definitions file) (em_fileName file).

(** [externalModels.forEach] in [updateExternalModels]: a file of a
    registered namespace replaces the registered one, any other file is
    added, both without validation. *)
Fixpoint updateExternalModels_loop (m : ModelManager) (externalModels : list ExternalModel)
    : result (list ModelFile) * ModelManager :=
  match externalModels with
  | [] => (ret [], m)
  | file :: rest =>
      match ExternalModel_build file with
      | inl e => (inl e, m)
      | inr mf =>
          let step :=
            match getModelFile m (ModelFile_getNamespace mf) with
            | SlotOwn _ | SlotInherited =>
                updateModelFile m (FileObject mf) (ModelFile_getName mf) true
            | SlotUndefined => addModelFile m mf true
            end in
          match step with
          | (inl e, m') => (inl e, m')
          | (inr pushed, m') =>
              let '(r, m'') := updateExternalModels_loop m' rest in
              (letr externalModelFiles := r in ret (pushed :: externalModelFiles), m'')
          end
      end
  end.

(** [updateExternalModels(options, fileDownloader)] from the point where
    the download has resolved to [externalModels]: the [try] block, and
    the [catch] that puts a copy of [originalModelFiles] back before
    rethrowing.  The result is what the promise resolves to, or what it
    is rejected with. *)
Definition updateExternalModels (m : ModelManager) (externalModels : list ExternalModel)
    : result (list ModelFile) * ModelManager :=
  let originalModelFiles := modelFiles m in
  match updateExternalModels_loop m externalModels with
  | (inl err, _) => (inl err, {| modelFiles := originalModelFiles |})
  | (inr externalModelFiles, m') =>
      match validateModelFiles m' with
      | inl err => (inl err, {| modelFiles := originalModelFiles |})
      | inr _ => (ret externalModelFiles, m')
      end
  end.

End ExternalModels.
(** ** CSharpVisitor (concerto-tools, lib/codegen/fromcto/csharp)

    The visitor writes through [parameters.fileWriter].  The writer is a
    collaborator; what the visitor does with it is the sequence of calls
    it makes, and a visit returns that sequence next to its result.  When
    a visit raises, the sequence holds the calls made before the
    exception.

    Modelled from the spec: what the visited nodes answer.  "Nodes
    self-identify via kind predicates ([isModelManager] / [isModelFile] /
    [isClassDeclaration] / [isField] / [isRelationship] / [isEnum] /
    [isEnumValue])": a declaration of kind [EnumDeclaration] answers
    [isEnum], every declaration answers [isClassDeclaration], a property
    answers by its kind, and [accept(visitor, parameters)] of a node is
    [visitor.visit(node, parameters)], as it is for the manager and the
    model file.  [getOwnProperties], [getName], [getType] and [isArray]
    read the records. *)

Inductive WriterEvent : Type :=
| OpenFile (fileName : string)
| WriteLine (indent : nat) (text : string)
| CloseFile.

Definition Written : Type := (result unit * list WriterEvent)%type.

Definition write (event : WriterEvent) : Written := (ret tt, [event]).

(** Sequencing of two statements: the second runs when the first
    returned. *)
Definition andThen (first second : Written) : Written :=
  match first with
  | (inl e, events) => (inl e, events)
  | (inr _, events) => (second.1, (events ++ second.2)%list)
  end.

(** [list.forEach(visit)]. *)
Fixpoint forEachWritten {A : Type} (visit : A -> Written) (l : list A) : Written :=
  match l with
  | [] => (ret tt, [])
  | a :: rest => andThen (visit a) (forEachWritten visit rest)
  end.

Definition newline : string := String (Ascii.ascii_of_nat 10) EmptyString.

(** [toCSharpType(type)]. *)
Definition toCSharpType (type : string) : string :=
  if String.eqb type "DateTime" then "DateTime"
  else if String.eqb type "Boolean" then "bool"
  else if String.eqb type "String" then "string"
  else if String.eqb type "Double" then "float"
  else if String.eqb type "Long" then "long"
  else if String.eqb type "Integer" then "int"
  else type.

(** [propertyName.substring(1)]. *)
Definition substring1 (s : string) : string :=
  match s with
  | EmptyString => EmptyString
  | String _ rest => rest
  end.

(** [toCSharpProperty(access, propertyName, propertyType, array, getset)]. *)
Definition toCSharpProperty (access propertyName propertyType array getset : string)
    : string :=
  let type := toCSharpType propertyType in
  if String.prefix "$" propertyName then
    let newName := "_" ++ substring1 propertyName in
    "[JsonPropertyName(" ++ quote ++ propertyName ++ quote ++ ")]" ++ newline
      ++ "      " ++ access ++ " " ++ type ++ array ++ " " ++ newName ++ " " ++ getset
  else
    access ++ " " ++ type ++ array ++ " " ++ propertyName ++ " " ++ getset.

(** [.filter((v, i, a) => a.indexOf(v) === i)]: an element stays when it
    does not occur earlier in the array; [earlier] holds the elements
    already passed. *)
Fixpoint firstOccurrences (earlier l : list string) : list string :=
  match l with
  | [] => []
  | v :: rest =>
      if existsb (String.eqb v) earlier
      then firstOccurrences (v :: earlier) rest
      else v :: firstOccurrences (v :: earlier) rest
  end.

(** The namespaces of the [using] lines of a model file: the namespaces
    of its imports, its own left out, without repetition. *)
Definition usingNamespaces (modelFile : ModelFile) : list string :=
  firstOccurrences []
    (filter (fun namespace => namespace <> ModelFile_getNamespace modelFile)
            (map getNamespace (map importFullyQualifiedName (mf_imports modelFile)))).

(** What [visit] can be handed: a manager, a model file, a declaration,
    a property, or any other value, of which [typeof] and [util.inspect]
    give the texts. *)
Inductive Thing : Type :=
| ThingModelManager (modelManager : ModelManager)
| ThingModelFile (modelFile : ModelFile)
| ThingClassDeclaration (classDeclaration : ClassDeclaration)
| ThingProperty (property : Property)
| ThingOther (typeofThing inspected : string).

Section CSharpVisitor.

(** [classDeclaration.getSuperType()], the FQN of the super type or
    [null]; lib/introspect/classdeclaration.js is not at hand. *)
Variable ClassDeclaration_getSuperType : ClassDeclaration -> result (option string).

(** [visitField(field, parameters)]. *)
Definition CSharpVisitor_visitField (field : Property) : Written :=
  let array := if p_array field then "[]" else "" in
  write (WriteLine 2 (toCSharpProperty "public" (p_name field) (p_type field) array
                        "{ get; set; }")).

(** [visitEnumValueDeclaration(enumValueDeclaration, parameters)]. *)
Definition CSharpVisitor_visitEnumValueDeclaration (enumValueDeclaration : Property)
    : Written :=
  write (WriteLine 2 (p_name enumValueDeclaration ++ ",")).

(** [visitRelationship(relationship, parameters)]. *)
Definition CSharpVisitor_visitRelationship (relationship : Property) : Written :=
  let array := if p_array relationship then "[]" else "" in
  write (WriteLine 2 (toCSharpProperty "public" (p_name relationship)
                        (p_type relationship) array "{ get; set; }")).

(** [property.accept(this, parameters)], that is [visit] on a property:
    [isField], [isRelationship], [isEnumValue] in this order. *)
Definition CSharpVisitor_visitProperty (property : Property) : Written :=
  match p_kind property with
  | Field => CSharpVisitor_visitField property
  | Relationship => CSharpVisitor_visitRelationship property
  | EnumValue => CSharpVisitor_visitEnumValueDeclaration property
  end.

(** [visitEnumDeclaration(enumDeclaration, parameters)]. *)
Definition CSharpVisitor_visitEnumDeclaration (enumDeclaration : ClassDeclaration)
    : Written :=
  andThen (write (WriteLine 1 ("enum " ++ ClassDeclaration_getName enumDeclaration ++ " {")))
    (andThen (forEachWritten CSharpVisitor_visitProperty (cd_properties enumDeclaration))
       (write (WriteLine 1 ("}" ++ newline)))).

(** [visitClassDeclaration(classDeclaration, parameters)]. *)
Definition CSharpVisitor_visitClassDeclaration (classDeclaration : ClassDeclaration)
    : Written :=
  match ClassDeclaration_getSuperType classDeclaration with
  | inl e => (inl e, [])
  | inr super =>
      let superType :=
        match super with
        | Some fqn => if truthy (Some fqn) then " : " ++ getShortName fqn ++ " " else " "
        | None => " "
        end in
      let abstract :=
        if ClassDeclaration_isAbstract classDeclaration then "abstract " else "" in
      andThen (write (WriteLine 1 (abstract ++ "class "
                                     ++ ClassDeclaration_getName classDeclaration
                                     ++ superType ++ "{")))
        (andThen (write (WriteLine 2
                           (toCSharpProperty "public new" "$class" "String" ""
                              ("{ get;} = " ++ quote
                                 ++ ClassDeclaration_getFullyQualifiedName classDeclaration
                                 ++ quote ++ ";"))))
           (andThen (forEachWritten CSharpVisitor_visitProperty
                       (cd_properties classDeclaration))
              (write (WriteLine 1 "}"))))
  end.

(** [declaration.accept(this, parameters)]: [isEnum] is asked before
    [isClassDeclaration]. *)
Definition CSharpVisitor_visitDeclaration (declaration : ClassDeclaration) : Written :=
  match cd_kind declaration with
  | EnumDeclaration => CSharpVisitor_visitEnumDeclaration declaration
  | _ => CSharpVisitor_visitClassDeclaration declaration
  end.

(** [visitModelFile(modelFile, parameters)]. *)
Definition CSharpVisitor_visitModelFile (modelFile : ModelFile) : Written :=
  andThen (write (OpenFile (ModelFile_getNamespace modelFile ++ ".cs")))
    (andThen (write (WriteLine 0 "using System;"))
       (andThen (write (WriteLine 0 "using System.Text.Json.Serialization;"))
          (andThen (write (WriteLine 0 ("namespace " ++ ModelFile_getNamespace modelFile
                                          ++ " {")))
             (andThen (forEachWritten
                         (fun namespace => write (WriteLine 1 ("using " ++ namespace ++ ";")))
                         (usingNamespaces modelFile))
                (andThen (forEachWritten CSharpVisitor_visitDeclaration
                            (mf_declarations modelFile))
                   (andThen (write (WriteLine 0 "}"))
                      (write CloseFile))))))).

(** [visitModelManager(modelManager, parameters)]: every registered
    file, the root model included. *)
Definition CSharpVisitor_visitModelManager (modelManager : ModelManager) : Written :=
  forEachWritten CSharpVisitor_visitModelFile (getModelFiles modelManager true).

(** [visit(thing, parameters)]. *)
Definition CSharpVisitor_visit (thing : Thing) : Written :=
  match thing with
  | ThingModelManager modelManager => CSharpVisitor_visitModelManager modelManager
  | ThingModelFile modelFile => CSharpVisitor_visitModelFile modelFile
  | ThingClassDeclaration classDeclaration =>
      CSharpVisitor_visitDeclaration classDeclaration
  | ThingProperty property => CSharpVisitor_visitProperty property
  | ThingOther typeofThing inspected =>
      (throw (Error ("Unrecognised type: " ++ typeofThing ++ ", value: " ++ inspected)), [])
  end.

End CSharpVisitor.

(** The state of a file writer after a sequence of calls: [Some true]
    when a file is open, [Some false] when none is, [None] when the
    sequence opened a file over an open one, or wrote or closed without
    an open file. *)
Fixpoint writerState (isOpen : bool) (events : list WriterEvent) : option bool :=
  match events with
  | [] => Some isOpen
  | OpenFile _ :: rest => if isOpen then None else writerState true rest
  | WriteLine _ _ :: rest => if isOpen then writerState true rest else None
  | CloseFile :: rest => if isOpen then writerState false rest else None
  end.

Definition openedFiles (events : list WriterEvent) : list string :=
  omap (fun event => match event with OpenFile name => Some name | _ => None end) events.


Definition isWriteLine (event : WriterEvent) : bool :=
  match event with
  | WriteLine _ _ => true
  | _ => false
  end.

(** The name of the file that [visitModelFile] opens. *)
Definition csharpFileName (modelFile : ModelFile) : string :=
  ModelFile_getNamespace modelFile ++ ".cs".
(** ** Invariants of the registry *)

(** Every file of the registry sits under its own namespace. *)
Definition keyedByNamespace (m : ModelManager) : Prop :=
  forall namespace f,
    modelFiles m !! namespace = Some f -> ModelFile_getNamespace f = namespace.


(** ** More sample models *)

(** The metamodels of [fileB] and [fileA]. *)
Definition modelB : ModelAst :=
  model "org.b" [] [declaration "concerto.metamodel.ConceptDeclaration" "T" None None []].

Definition modelA : ModelAst :=
  model "org.a" [ImportType "org.b" "T" None]
        [declaration "concerto.metamodel.ConceptDeclaration" "T" None None []].

(** The concept [T] of [org.b]. *)
Definition conceptT : ClassDeclaration :=
  default (myAsset false false) (ModelFile_getLocalType fileB "T").

(** [namespace org.c  import org.b.* from https://models.example/b.cto] *)
Definition modelWithUri : ModelAst :=
  model "org.c" [ImportAll "org.b" (Some "https://models.example/b.cto")] [].


(** [concerto version "^2.0.0"  namespace org.v], and collaborators whose
    [semver.satisfies] accepts only the version of the package itself. *)
Definition modelPinned : ModelAst :=
  {| ast_namespace := "org.v"; ast_imports := None; ast_declarations := None;
     ast_concertoVersion := Some "^2.0.0" |}.

Definition pinnedCollaborators : Collaborators :=
  {| processFile := processFile (Collaborators := bareCollaborators);
     packageVersion := "3.0.0";
     versionSatisfies := String.eqb "3.0.0";
     rootModelCto := None;
     rootModelFile := Some "concerto.cto";
     messageFormatter := sample_messageFormatter;
     ClassDeclaration_validate := fun _ _ _ => ret tt;
     ClassDeclaration_getSuperTypeDeclaration := fun _ _ => ret None;
     ClassDeclaration_getProperties := fun _ d => cd_properties d;
     ClassDeclaration_getAssignableClassDeclarations := fun _ d => [d];
     regexp := string;
     RegExp_new := literal_RegExp_new;
     RegExp_test := literal_RegExp_test;
     RegExp_toString := fun r => "/" ++ r ++ "/";
     Validator_reportError := sample_reportError;
     encodeURIComponent := fun s => s;
     resolveLocalNames := fun _ metaModel => metaModel;
     basename := fun path => path |}.

(** Collaborators with a parser that knows one text, the CTO of
    [org.b]. *)
Definition ctoB : string := "namespace org.b  concept T {}".

Definition parsingCollaborators : Collaborators :=
  {| processFile := fun _ text =>
       if String.eqb text ctoB then ret modelB else throw (Error "no parser");
     packageVersion := "3.0.0";
     versionSatisfies := fun _ => true;
     rootModelCto := None;
     rootModelFile := Some "concerto.cto";
     messageFormatter := sample_messageFormatter;
     ClassDeclaration_validate := fun _ _ _ => ret tt;
     ClassDeclaration_getSuperTypeDeclaration := fun _ _ => ret None;
     ClassDeclaration_getProperties := fun _ d => cd_properties d;
     ClassDeclaration_getAssignableClassDeclarations := fun _ d => [d];
     regexp := string;
     RegExp_new := literal_RegExp_new;
     RegExp_test := literal_RegExp_test;
     RegExp_toString := fun r => "/" ++ r ++ "/";
     Validator_reportError := sample_reportError;
     encodeURIComponent := fun s => s;
     resolveLocalNames := fun _ metaModel => metaModel;
     basename := fun path => path |}.

(** The regular expressions of the host for patterns without
    metacharacters, with the [global] flag and the [lastIndex] that
    [RegExp.prototype.test] reads and writes. *)
Record HostRegExp : Type := {
  re_source : string;
  re_global : bool;
  re_lastIndex : nat
}.

(** [new RegExp(pattern, flags)]: a pattern with an opening parenthesis is
    refused as an unterminated group; the flag [g] makes the expression
    global (the other flags are not followed); [lastIndex] starts at 0. *)
Definition host_RegExp_new (pattern : string) (flags : option string) : result HostRegExp :=
  if isInfix "(" pattern
  then throw (Error ("Invalid regular expression: /" ++ pattern ++ "/: Unterminated group"))
  else ret {| re_source := pattern; re_global := isInfix "g" (default "" flags);
              re_lastIndex := 0 |}.

(** [regex.test(value)]: an expression that is not global searches the
    text of the value from its start and is left as it is; a global one
    searches from its [lastIndex], which a match moves to the end of the
    match and a failure puts back to 0. *)
Definition host_RegExp_test (regex : HostRegExp) (value : JsValue) : bool * HostRegExp :=
  let text := JsValue_toString value in
  if re_global regex then
    match String.index (re_lastIndex regex) (re_source regex) text with
    | Some i =>
        (true, {| re_source := re_source regex; re_global := true;
                  re_lastIndex := i + String.length (re_source regex) |})
    | None =>
        (false, {| re_source := re_source regex; re_global := true; re_lastIndex := 0 |})
    end
  else (isInfix (re_source regex) text, regex).

(** The value matches the expression: the pattern occurs in its text. *)
Definition host_matches (regex : HostRegExp) (value : JsValue) : bool :=
  isInfix (re_source regex) (JsValue_toString value).

Definition host_RegExp_toString (regex : HostRegExp) : string :=
  "/" ++ re_source regex ++ "/" ++ (if re_global regex then "g" else "").

Definition hostRegExpCollaborators : Collaborators :=
  {| processFile := fun _ _ => throw (Error "no parser");
     packageVersion := "3.0.0";
     versionSatisfies := fun _ => true;
     rootModelCto := None;
     rootModelFile := Some "concerto.cto";
     messageFormatter := sample_messageFormatter;
     ClassDeclaration_validate := fun _ _ _ => ret tt;
     ClassDeclaration_getSuperTypeDeclaration := fun _ _ => ret None;
     ClassDeclaration_getProperties := fun _ d => cd_properties d;
     ClassDeclaration_getAssignableClassDeclarations := fun _ d => [d];
     regexp := HostRegExp;
     RegExp_new := host_RegExp_new;
     RegExp_test := host_RegExp_test;
     RegExp_toString := host_RegExp_toString;
     Validator_reportError := sample_reportError;
     encodeURIComponent := fun s => s;
     resolveLocalNames := fun _ metaModel => metaModel;
     basename := fun path => path |}.

(** [o String theValue regex=/foo/g] and the validator that the
    constructor makes of it, before and after a [test] that matched. *)
Definition validatorFooGlobal : ValidatorAst :=
  {| va_pattern := "foo"; va_flags := Some "g" |}.

Definition stringValidatorFoo (lastIndex : nat)
    : StringValidator (H := hostRegExpCollaborators) :=
  {| sv_field := field "theValue" "String"; sv_validator := validatorFooGlobal;
     sv_regex := ({| re_source := "foo"; re_global := true; re_lastIndex := lastIndex |}
                  : regexp (Collaborators := hostRegExpCollaborators)) |}.

(** [namespace constructor  concept T {}]: a namespace that is the name
    of a member that every object inherits. *)
Definition modelConstructor : ModelAst :=
  model "constructor" []
        [declaration "concerto.metamodel.ConceptDeclaration" "T" None None []].

Definition fileConstructor : ModelFile := buildFile modelConstructor.

(** [namespace org.d  import constructor.T] *)
Definition modelImportingConstructor : ModelAst :=
  model "org.d" [ImportType "constructor" "T" None] [].

Definition fileImportingConstructor : ModelFile := buildFile modelImportingConstructor.

(** * Properties *)

Section RegistryProperties.

Context `{Collaborators}.

Implicit Types (m : ModelManager) (f : ModelFile).

Lemma ModelManager_eq m m' : modelFiles m = modelFiles m' -> m = m'.
Proof. destruct m, m'; simpl; congruence. Qed.

(** The constructor gives a model file the namespace of its AST. *)
Lemma newModelFile_namespace ast definitions fileName f :
  newModelFile ast definitions fileName = inr f ->
  ModelFile_getNamespace f = ast_namespace ast.
Proof.
  unfold newModelFile.
  destruct (fromAst_declarations ast) as [e|ds]; simpl; [discriminate|].
  destruct (isCompatibleVersion ast) as [e|v]; simpl; [discriminate|].
  intros [= <-]. reflexivity.
Qed.

(** Reading [this.modelFiles[namespace]]. *)
Lemma getModelFile_SlotOwn m namespace f :
  getModelFile m namespace = SlotOwn f <-> modelFiles m !! namespace = Some f.
Proof.
  unfold getModelFile, readObject.
  destruct (modelFiles m !! namespace) as [g|]; [|by destruct (inheritedName namespace)].
  split; by intros [= ->].
Qed.

Lemma getModelFile_SlotUndefined m namespace :
  getModelFile m namespace = SlotUndefined <->
  modelFiles m !! namespace = None /\ inheritedName namespace = false.
Proof.
  unfold getModelFile, readObject.
  destruct (modelFiles m !! namespace) as [g|]; [by split; [|intros [? _]]|].
  destruct (inheritedName namespace); by split; [|intros [_ ?]].
Qed.

Lemma getModelFile_SlotInherited m namespace :
  getModelFile m namespace = SlotInherited <->
  modelFiles m !! namespace = None /\ inheritedName namespace = true.
Proof.
  unfold getModelFile, readObject.
  destruct (modelFiles m !! namespace) as [g|]; [by split; [|intros [? _]]|].
  destruct (inheritedName namespace); by split; [|intros [_ ?]].
Qed.

(** What a successful [addModelFile] did. *)
Lemma addModelFile_inr m f disableValidation r m' :
  addModelFile m f disableValidation = (inr r, m') ->
  modelFiles m !! ModelFile_getNamespace f = None
  /\ r = f
  /\ m' = setModelFile m (ModelFile_getNamespace f) f.
Proof.
  unfold addModelFile.
  destruct (getModelFile m (ModelFile_getNamespace f)) as [existing| |] eqn:Hlookup.
  - intros [= ]; discriminate.
  - intros [= ]; discriminate.
  - apply getModelFile_SlotUndefined in Hlookup as [Hfree _].
    destruct disableValidation; simpl.
    + intros [= <- <-]. auto.
    + destruct (ModelFile_validate m f); intros [= ]; subst; auto.
Qed.

(** It found nothing under the namespace, not even an inherited member. *)
Lemma addModelFile_inr_undefined m f disableValidation r m' :
  addModelFile m f disableValidation = (inr r, m') ->
  getModelFile m (ModelFile_getNamespace f) = SlotUndefined.
Proof.
  unfold addModelFile.
  by destruct (getModelFile m (ModelFile_getNamespace f)) as [existing| |]; intros [= ].
Qed.

(** A failed [addModelFile] leaves the state alone. *)
Lemma addModelFile_inl m f disableValidation e m' :
  addModelFile m f disableValidation = (inl e, m') -> m' = m.
Proof.
  unfold addModelFile.
  destruct (getModelFile m (ModelFile_getNamespace f)).
  - intros [= ]; congruence.
  - intros [= ]; congruence.
  - destruct disableValidation; simpl.
    + intros [= ].
    + destruct (ModelFile_validate m f); intros [= ]; congruence.
Qed.

(** When the namespace is free and validation is off or passes, the file
    is installed. *)
Lemma addModelFile_succeeds m f disableValidation :
  getModelFile m (ModelFile_getNamespace f) = SlotUndefined ->
  (disableValidation = true \/ ModelFile_validate m f = ret tt) ->
  addModelFile m f disableValidation
  = (ret f, setModelFile m (ModelFile_getNamespace f) f).
Proof.
  intros Hfree Hvalid. unfold addModelFile. rewrite Hfree.
  destruct disableValidation; simpl; [reflexivity|].
  destruct Hvalid as [? | ->]; [discriminate | reflexivity].
Qed.

(** [delete] of a key that is not an own property changes nothing. *)
Lemma delete_absent m namespace :
  modelFiles m !! namespace = None ->
  {| modelFiles := delete namespace (modelFiles m) |} = m.
Proof. intros Habsent. apply ModelManager_eq. simpl. by apply delete_id. Qed.

(** X23. Adding a model file and then deleting its namespace gives back
    the state, hence the namespace set, of before the add.
    [deleteModelFile] raises an error and changes nothing when
    [this.modelFiles[namespace]] reads [undefined]; when it reads an
    inherited member (the namespace is [constructor], say, and is not
    registered) it returns and changes nothing.  [addModelFile] raises the
    already-declared error and changes nothing on a registered namespace,
    and raises a [TypeError] and changes nothing where the read finds an
    inherited member. *)
Theorem add_then_delete_restores m f disableValidation :
  (forall m1,
      addModelFile m f disableValidation = (ret f, m1) ->
      deleteModelFile m1 (ModelFile_getNamespace f) = (ret tt, m)
      /\ getNamespaces (deleteModelFile m1 (ModelFile_getNamespace f)).2 = getNamespaces m)
  /\ (forall namespace,
         getModelFile m namespace = SlotUndefined ->
         deleteModelFile m namespace = (throw (Error "Model file does not exist"), m))
  /\ (forall namespace,
         getModelFile m namespace = SlotInherited ->
         deleteModelFile m namespace = (ret tt, m))
  /\ (forall existing,
         modelFiles m !! ModelFile_getNamespace f = Some existing ->
         addModelFile m f disableValidation
         = (throw (Error ("Namespace " ++ ModelFile_getNamespace f
                            ++ match ModelFile_getName f with
                               | Some n => if truthy (Some n)
                                           then " specified in file " ++ n else ""
                               | None => ""
                               end
                            ++ " is already declared"
                            ++ match ModelFile_getName existing with
                               | Some n => if truthy (Some n) then " in file " ++ n else ""
                               | None => ""
                               end)), m))
  /\ (getModelFile m (ModelFile_getNamespace f) = SlotInherited ->
      exists message,
        addModelFile m f disableValidation = (throw (TypeError message), m)).
Proof.
  split; [|split; [|split; [|split]]].
  - intros m1 Hadd.
    apply addModelFile_inr in Hadd as (Hfree & _ & ->).
    assert (deleteModelFile (setModelFile m (ModelFile_getNamespace f) f)
              (ModelFile_getNamespace f) = (ret tt, m)) as Hdel.
    { unfold deleteModelFile.
      rewrite (proj2 (getModelFile_SlotOwn _ _ f)) by (simpl; apply lookup_insert_eq).
      f_equal. apply ModelManager_eq; simpl. by apply delete_insert_id. }
    by rewrite Hdel.
  - intros namespace Habsent. unfold deleteModelFile. by rewrite Habsent.
  - intros namespace Hinherited. unfold deleteModelFile. rewrite Hinherited.
    apply getModelFile_SlotInherited in Hinherited as [Habsent _].
    by rewrite delete_absent.
  - intros existing Hthere%getModelFile_SlotOwn. unfold addModelFile. by rewrite Hthere.
  - intros Hinherited. unfold addModelFile. rewrite Hinherited. by eexists.
Qed.


(** The loop of [addModelFiles]: when it runs to its end, the files it
    returns are the inputs (built from their text where they were text),
    each is registered under its namespace, and what was registered
    before still is. *)
Lemma addModelFiles_loop_inr inputs fileNames :
  forall m n added m',
    addModelFiles_loop m inputs fileNames n = (inr added, m') ->
    Forall2 (fun input mf =>
               match input with
               | FileObject g => mf = g
               | CtoText text => exists fileName, processAndBuild fileName text = inr mf
               end) inputs added
    /\ (forall mf, mf ∈ added -> modelFiles m' !! ModelFile_getNamespace mf = Some mf)
    /\ modelFiles m ⊆ modelFiles m'.
Proof.
  induction inputs as [|input rest IH]; intros m n added m'; simpl.
  - intros [= <- <-]. split; [constructor|]. split; [|done].
    intros mf Hin. by apply elem_of_nil in Hin.
  - set (fileName := match fileNames with Some names => names !! n | None => None end).
    set (built := match input with
                  | CtoText text => processAndBuild fileName text
                  | FileObject mf => ret mf
                  end).
    destruct built as [e|mf] eqn:Hbuilt; [intros [= ]|].
    destruct (getModelFile m (ModelFile_getNamespace mf)) as [existing| |] eqn:Hfree;
      [intros [= ]|intros [= ]|].
    apply getModelFile_SlotUndefined in Hfree as [Hfree _].
    destruct (addModelFiles_loop (setModelFile m (ModelFile_getNamespace mf) mf)
                rest fileNames (S n)) as [r m1] eqn:Hrest.
    destruct r as [e|added']; simpl; [intros [= ]|].
    intros [= <- <-].
    destruct (IH _ _ _ _ Hrest) as (Hshape & Hinstalled & Hincl).
    assert (modelFiles m1 !! ModelFile_getNamespace mf = Some mf) as Hmf.
    { eapply lookup_weaken; [|exact Hincl]. simpl. apply lookup_insert_eq. }
    split; [|split].
    + constructor; [|exact Hshape].
      subst built. destruct input as [text|g].
      * exists fileName. exact Hbuilt.
      * unfold ret in Hbuilt. congruence.
    + intros g [->|Hin]%elem_of_cons; [exact Hmf | by apply Hinstalled].
    + etrans; [|exact Hincl]. simpl. by apply insert_subseteq.
Qed.

Lemma getModelFile_setModelFile_ne m namespace f key :
  key <> namespace ->
  getModelFile (setModelFile m namespace f) key = getModelFile m key.
Proof.
  intros Hne. unfold getModelFile, readObject. simpl. by rewrite lookup_insert_ne.
Qed.

(** The loop goes through when the inputs build and the namespaces of
    the files are pairwise distinct and read [undefined]; each file is
    then assigned under its namespace. *)
Lemma addModelFiles_loop_installs inputs :
  forall m fileNames n files,
    buildInputs inputs fileNames n = inr files ->
    NoDup (map ModelFile_getNamespace files) ->
    Forall (fun f => getModelFile m (ModelFile_getNamespace f) = SlotUndefined) files ->
    addModelFiles_loop m inputs fileNames n = (inr files, installAll m files).
Proof.
  induction inputs as [|input inputs IH]; intros m fileNames n files; simpl.
  - by intros [= <-].
  - set (fileName := match fileNames with Some names => names !! n | None => None end).
    destruct (match input with
              | CtoText text => processAndBuild fileName text
              | FileObject mf => ret mf
              end) as [e|f]; simpl; [discriminate|].
    destruct (buildInputs inputs fileNames (S n)) as [e|others] eqn:Hothers; simpl;
      [discriminate|].
    intros [= <-] [Hfresh Hdistinct]%NoDup_cons [Hf Hfree]%Forall_cons.
    rewrite Hf.
    rewrite (IH (setModelFile m (ModelFile_getNamespace f) f) fileNames (S n) others
                Hothers Hdistinct); [done|].
    apply Forall_forall. intros g Hg.
    rewrite getModelFile_setModelFile_ne.
    + by apply (proj1 (Forall_forall _ _) Hfree).
    + intros Hsame. apply Hfresh. rewrite <- Hsame. by apply list_elem_of_fmap_2.
Qed.

(** And only then. *)
Lemma addModelFiles_loop_inr_free inputs :
  forall m fileNames n added m',
    addModelFiles_loop m inputs fileNames n = (inr added, m') ->
    buildInputs inputs fileNames n = inr added
    /\ NoDup (map ModelFile_getNamespace added)
    /\ Forall (fun f => getModelFile m (ModelFile_getNamespace f) = SlotUndefined) added.
Proof.
  induction inputs as [|input inputs IH]; intros m fileNames n added m'; simpl.
  - intros [= <- <-]. by repeat constructor.
  - set (fileName := match fileNames with Some names => names !! n | None => None end).
    destruct (match input with
              | CtoText text => processAndBuild fileName text
              | FileObject mf => ret mf
              end) as [e|f]; simpl; [intros [= ]|].
    destruct (getModelFile m (ModelFile_getNamespace f)) as [existing| |] eqn:Hf;
      [intros [= ]|intros [= ]|].
    destruct (addModelFiles_loop _ inputs fileNames (S n)) as [[e|others] m1] eqn:Hloop;
      simpl; [intros [= ]|].
    intros [= <- <-].
    destruct (IH _ _ _ _ _ Hloop) as (Hbuilt & Hdistinct & Hfree).
    rewrite Hbuilt. simpl.
    assert (forall g, g ∈ others ->
                      ModelFile_getNamespace g <> ModelFile_getNamespace f
                      /\ getModelFile m (ModelFile_getNamespace g) = SlotUndefined) as Hrest.
    { intros g Hg. pose proof (proj1 (Forall_forall _ _) Hfree g Hg) as Hnone.
      cbv beta in Hnone.
      destruct (decide (ModelFile_getNamespace g = ModelFile_getNamespace f)) as [Hsame|Hne].
      - rewrite Hsame in Hnone. apply getModelFile_SlotUndefined in Hnone as [Hnone _].
        simpl in Hnone. by rewrite lookup_insert_eq in Hnone.
      - by rewrite getModelFile_setModelFile_ne in Hnone. }
    split; [done|]. split.
    + constructor; [|exact Hdistinct].
      intros (g & Hsame & Hg)%list_elem_of_fmap. destruct (Hrest g Hg) as [Hne _].
      by destruct Hne.
    + constructor; [exact Hf|]. apply Forall_forall. intros g Hg. by destruct (Hrest g Hg).
Qed.

(** What is registered after the files of a list were assigned. *)
Lemma installAll_lookup files :
  forall m namespace g,
    NoDup (map ModelFile_getNamespace files) ->
    Forall (fun f => modelFiles m !! ModelFile_getNamespace f = None) files ->
    modelFiles (installAll m files) !! namespace = Some g <->
    (In g files /\ ModelFile_getNamespace g = namespace)
    \/ modelFiles m !! namespace = Some g.
Proof.
  unfold installAll.
  induction files as [|f files IH]; intros m namespace g Hdistinct Hfree; simpl.
  - tauto.
  - apply NoDup_cons in Hdistinct as [Hfresh Hdistinct].
    apply Forall_cons in Hfree as [Hf Hfree].
    rewrite IH; [|done|].
    + simpl. destruct (decide (ModelFile_getNamespace f = namespace)) as [<-|Hother].
      * rewrite lookup_insert_eq, Hf. split.
        -- intros [[Hin Hns]|[= <-]]; left; split; auto.
        -- intros [[[<-|Hin] Hns]|Hnone]; [by right | by left | discriminate].
      * rewrite lookup_insert_ne by done. split.
        -- intros [[Hin Hns]|Hm]; [left; split; auto | by right].
        -- intros [[[<-|Hin] Hns]|Hm]; [done | by left | by right].
    + apply Forall_forall. intros h Hh. simpl. rewrite lookup_insert_ne.
      * by apply (proj1 (Forall_forall _ _) Hfree).
      * intros Hsame. apply Hfresh. rewrite Hsame. by apply list_elem_of_fmap_2.
Qed.

Lemma installAll_lookup_installed files m f :
  NoDup (map ModelFile_getNamespace files) ->
  Forall (fun f => modelFiles m !! ModelFile_getNamespace f = None) files ->
  In f files ->
  modelFiles (installAll m files) !! ModelFile_getNamespace f = Some f.
Proof.
  intros Hdistinct Hfree Hin. apply installAll_lookup; [done | done |]. by left.
Qed.

(** Whatever made [addModelFiles] raise, the map is put back. *)
Lemma addModelFiles_inl m inputs fileNames disableValidation e m' :
  addModelFiles m inputs fileNames disableValidation = (inl e, m') -> m' = m.
Proof.
  unfold addModelFiles.
  destruct (addModelFiles_loop m inputs fileNames 0) as [[e0|added0] m0].
  - intros [= <- <-]. by apply ModelManager_eq.
  - destruct (negb disableValidation); [|intros [= ]].
    destruct (validateModelFiles m0); [|intros [= ]].
    intros [= <- <-]. by apply ModelManager_eq.
Qed.

Lemma addModelFiles_inr m inputs fileNames disableValidation added m' :
  addModelFiles m inputs fileNames disableValidation = (inr added, m') ->
  addModelFiles_loop m inputs fileNames 0 = (inr added, m')
  /\ (disableValidation = true \/ validateModelFiles m' = ret tt).
Proof.
  unfold addModelFiles.
  destruct (addModelFiles_loop m inputs fileNames 0) as [[e0|added0] m0]; [intros [= ]|].
  destruct disableValidation; simpl.
  - intros [= <- <-]. auto.
  - destruct (validateModelFiles m0) as [e1|[]] eqn:Hvalid; [intros [= ]|].
    intros [= <- <-]. auto.
Qed.

(** An exception of the installation loop is the exception of the call. *)
Lemma addModelFiles_loop_raises m inputs fileNames disableValidation e m1 :
  addModelFiles_loop m inputs fileNames 0 = (inl e, m1) ->
  addModelFiles m inputs fileNames disableValidation = (inl e, m).
Proof.
  intros Hloop. unfold addModelFiles. rewrite Hloop.
  f_equal. by apply ModelManager_eq.
Qed.

(** So is an exception of the validation that follows the loop. *)
Lemma addModelFiles_validation_raises m inputs fileNames added m1 e :
  addModelFiles_loop m inputs fileNames 0 = (inr added, m1) ->
  validateModelFiles m1 = inl e ->
  addModelFiles m inputs fileNames false = (inl e, m).
Proof.
  intros Hloop Hvalid. unfold addModelFiles. rewrite Hloop. simpl. rewrite Hvalid.
  f_equal. by apply ModelManager_eq.
Qed.

(** C2. Batch add is all-or-nothing.  When [addModelFiles] raises, be it
    from the installation loop (a duplicate namespace, a text that does not
    build) or from the validation at its end, the exception is the one
    that was raised and the namespace map is the map of before the call;
    when it returns, every file of the batch is registered under its
    namespace.  And it does return when nothing fails: when the inputs
    build, the namespaces of the files are pairwise distinct and
    [this.modelFiles] has nothing under them, and validation is off or
    passes on the registry with the files, the call returns the files and
    leaves each registered under its namespace beside what was
    registered; when the files are not distinct or not free in that way,
    when an input does not build, or when the validation of the registry
    with the files raises, the call raises and leaves the manager as it
    was. *)
Theorem addModelFiles_all_or_nothing m inputs fileNames disableValidation :
  (forall e m',
      addModelFiles m inputs fileNames disableValidation = (inl e, m') ->
      modelFiles m' = modelFiles m)
  /\ (forall e m1,
         addModelFiles_loop m inputs fileNames 0 = (inl e, m1) ->
         addModelFiles m inputs fileNames disableValidation = (inl e, m))
  /\ (forall added m1 e,
         addModelFiles_loop m inputs fileNames 0 = (inr added, m1) ->
         disableValidation = false ->
         validateModelFiles m1 = inl e ->
         addModelFiles m inputs fileNames disableValidation = (inl e, m))
  /\ (forall added m',
         addModelFiles m inputs fileNames disableValidation = (inr added, m') ->
         Forall2 (fun input mf =>
                    match input with
                    | FileObject g => mf = g
                    | CtoText text =>
                        exists fileName, processAndBuild fileName text = inr mf
                    end) inputs added
         /\ (forall mf, mf ∈ added ->
                        modelFiles m' !! ModelFile_getNamespace mf = Some mf)
         /\ modelFiles m ⊆ modelFiles m')
  /\ (forall files,
         buildInputs inputs fileNames 0 = inr files ->
         NoDup (map ModelFile_getNamespace files) ->
         Forall (fun f => getModelFile m (ModelFile_getNamespace f) = SlotUndefined)
                files ->
         (disableValidation = true \/ validateModelFiles (installAll m files) = ret tt) ->
         addModelFiles m inputs fileNames disableValidation
         = (ret files, installAll m files)
         /\ (forall f, In f files ->
                       modelFiles (installAll m files) !! ModelFile_getNamespace f
                       = Some f)
         /\ modelFiles m ⊆ modelFiles (installAll m files))
  /\ (forall files,
         buildInputs inputs fileNames 0 = inr files ->
         ~ (NoDup (map ModelFile_getNamespace files)
            /\ Forall (fun f => getModelFile m (ModelFile_getNamespace f) = SlotUndefined)
                      files) ->
         exists e, addModelFiles m inputs fileNames disableValidation = (inl e, m))
  /\ (forall e',
         buildInputs inputs fileNames 0 = inl e' ->
         exists e, addModelFiles m inputs fileNames disableValidation = (inl e, m))
  /\ (forall files e,
         buildInputs inputs fileNames 0 = inr files ->
         NoDup (map ModelFile_getNamespace files) ->
         Forall (fun f => getModelFile m (ModelFile_getNamespace f) = SlotUndefined)
                files ->
         disableValidation = false ->
         validateModelFiles (installAll m files) = inl e ->
         addModelFiles m inputs fileNames disableValidation = (inl e, m)).
Proof.
  split; [|split; [|split; [|split; [|split; [|split; [|split]]]]]].
  - intros e m' Hadd. by rewrite (addModelFiles_inl _ _ _ _ _ _ Hadd).
  - intros e m1. apply addModelFiles_loop_raises.
  - intros added m1 e Hloop -> Hvalid. by eapply addModelFiles_validation_raises.
  - intros added m' (Hloop & _)%addModelFiles_inr. by eapply addModelFiles_loop_inr.
  - intros files Hbuilt Hdistinct Hfree Hvalid.
    pose proof (addModelFiles_loop_installs _ _ _ _ _ Hbuilt Hdistinct Hfree) as Hloop.
    assert (addModelFiles m inputs fileNames disableValidation
            = (ret files, installAll m files)) as Hcall.
    { unfold addModelFiles. rewrite Hloop.
      destruct Hvalid as [->|Hvalid]; [done|].
      destruct disableValidation; simpl; [done|]. by rewrite Hvalid. }
    split; [exact Hcall|].
    apply addModelFiles_loop_inr in Hloop as (_ & Hinstalled & Hkept).
    split; [|exact Hkept]. intros f Hin. by apply Hinstalled, list_elem_of_In.
  - intros files Hbuilt Hnot.
    destruct (addModelFiles_loop m inputs fileNames 0) as [[e|added] m1] eqn:Hloop.
    + exists e. by eapply addModelFiles_loop_raises.
    + destruct Hnot.
      apply addModelFiles_loop_inr_free in Hloop as (Hadded & Hdistinct & Hfree).
      rewrite Hbuilt in Hadded. by injection Hadded as <-.
  - intros e' Hbuilt.
    destruct (addModelFiles_loop m inputs fileNames 0) as [[e|added] m1] eqn:Hloop.
    + exists e. by eapply addModelFiles_loop_raises.
    + apply addModelFiles_loop_inr_free in Hloop as (Hadded & _).
      rewrite Hbuilt in Hadded. discriminate Hadded.
  - intros files e Hbuilt Hdistinct Hfree -> Hvalid.
    pose proof (addModelFiles_loop_installs _ _ _ _ _ Hbuilt Hdistinct Hfree) as Hloop.
    by eapply addModelFiles_validation_raises.
Qed.

Lemma elem_of_getNamespaces m namespace :
  namespace ∈ getNamespaces m <-> is_Some (modelFiles m !! namespace).
Proof.
  unfold getNamespaces. rewrite list_elem_of_fmap. split.
  - intros ([k f] & -> & Hin). apply elem_of_map_to_list in Hin. by exists f.
  - intros [f Hf]. exists (namespace, f). split; [done|]. by apply elem_of_map_to_list.
Qed.

Lemma elem_of_getModelFiles m includeConcertoNamespace f :
  f ∈ getModelFiles m includeConcertoNamespace <->
  exists namespace,
    (includeConcertoNamespace = true \/ namespace <> "concerto")
    /\ modelFiles m !! namespace = Some f.
Proof.
  unfold getModelFiles. rewrite list_elem_of_omap. split.
  - intros ([k g] & Hin & Hkeep). apply elem_of_map_to_list in Hin. simpl in Hkeep.
    exists k. destruct includeConcertoNamespace; simpl in Hkeep.
    + injection Hkeep as <-. auto.
    + destruct (String.eqb k "concerto") eqn:Hk; simpl in Hkeep; [discriminate|].
      injection Hkeep as <-. apply String.eqb_neq in Hk. auto.
  - intros (k & Hkeep & Hf). exists (k, f). split; [by apply elem_of_map_to_list|].
    simpl. destruct Hkeep as [-> | Hk]; [done|].
    apply String.eqb_neq in Hk. rewrite Hk. by rewrite orb_true_r.
Qed.

(** [addRootModel] on the empty registry installs a file of namespace
    [concerto] when it returns. *)
Lemma addRootModel_empty r m' :
  addRootModel {| modelFiles := ∅ |} = (inr r, m') ->
  "concerto" ∈ getNamespaces m'.
Proof.
  unfold addRootModel.
  destruct (newModelFile rootModelAst rootModelCto rootModelFile) as [e|rootFile] eqn:Hroot;
    [intros [= ]|].
  apply newModelFile_namespace in Hroot. simpl in Hroot.
  intros (_ & _ & ->)%addModelFile_inr.
  apply elem_of_getNamespaces. exists rootFile. simpl. rewrite Hroot.
  apply lookup_insert_eq.
Qed.

Lemma addModelFile_keeps m f disableValidation namespace :
  namespace ∈ getNamespaces m ->
  namespace ∈ getNamespaces (addModelFile m f disableValidation).2.
Proof.
  intros Hin.
  destruct (addModelFile m f disableValidation) as [[e|r] m'] eqn:Hadd; simpl.
  - apply addModelFile_inl in Hadd as ->. exact Hin.
  - apply addModelFile_inr in Hadd as (Hfree & _ & ->).
    apply elem_of_getNamespaces in Hin as [g Hg]. apply elem_of_getNamespaces.
    exists g. simpl. rewrite lookup_insert_ne; [done|]. congruence.
Qed.

Lemma updateModelFile_keeps m input fileName disableValidation namespace :
  namespace ∈ getNamespaces m ->
  namespace ∈ getNamespaces (updateModelFile m input fileName disableValidation).2.
Proof.
  intros Hin.
  assert (forall g, namespace ∈ getNamespaces (setModelFile m (ModelFile_getNamespace g) g))
    as Hset.
  { intros g. apply elem_of_getNamespaces in Hin as [g' Hg'].
    apply elem_of_getNamespaces. simpl.
    destruct (decide (ModelFile_getNamespace g = namespace)) as [->|Hne].
    - rewrite lookup_insert_eq. by eexists.
    - rewrite lookup_insert_ne; [by eexists | done]. }
  assert (forall g,
    namespace ∈ getNamespaces
      (match getModelFile m (ModelFile_getNamespace g) with
       | SlotUndefined =>
           (throw (Error ("Model file for namespace " ++ ModelFile_getNamespace g
                            ++ " not found")), m)
       | SlotOwn _ | SlotInherited =>
           if negb disableValidation then
             match ModelFile_validate m g with
             | inl e => (inl e, m)
             | inr _ => (ret g, setModelFile m (ModelFile_getNamespace g) g)
             end
           else (ret g, setModelFile m (ModelFile_getNamespace g) g)
       end : result ModelFile * ModelManager).2) as Hupdate.
  { intros g.
    destruct (getModelFile m (ModelFile_getNamespace g)); [| |exact Hin];
      (destruct (negb disableValidation); [|apply Hset]);
      (destruct (ModelFile_validate m g); [exact Hin | apply Hset]). }
  unfold updateModelFile. destruct input as [text|g]; [|apply Hupdate].
  destruct (processAndBuild fileName text) as [e|g]; [exact Hin | apply Hupdate].
Qed.

Lemma addModelFiles_keeps m inputs fileNames disableValidation namespace :
  namespace ∈ getNamespaces m ->
  namespace ∈ getNamespaces (addModelFiles m inputs fileNames disableValidation).2.
Proof.
  intros Hin.
  destruct (addModelFiles m inputs fileNames disableValidation) as [[e|added] m'] eqn:Hadd;
    simpl.
  - by rewrite (addModelFiles_inl _ _ _ _ _ _ Hadd).
  - apply addModelFiles_inr in Hadd as (Hloop & _).
    apply addModelFiles_loop_inr in Hloop as (_ & _ & Hincl).
    apply elem_of_getNamespaces in Hin as [g Hg]. apply elem_of_getNamespaces.
    exists g. by eapply lookup_weaken.
Qed.

Lemma deleteModelFile_keeps m deleted namespace :
  deleted <> namespace ->
  namespace ∈ getNamespaces m ->
  namespace ∈ getNamespaces (deleteModelFile m deleted).2.
Proof.
  intros Hne Hin. unfold deleteModelFile.
  destruct (getModelFile m deleted); simpl; [| |exact Hin];
    apply elem_of_getNamespaces in Hin as [g Hg]; apply elem_of_getNamespaces;
    exists g; simpl; by rewrite lookup_delete_ne.
Qed.

(** C10 (amended). [getModelFiles()] without [includeConcertoNamespace]
    lists exactly the files registered under a namespace other than
    [concerto], so never the root model, and [getModels()] and [getAst()]
    are made of the files of that list; [getNamespaces()] lists every
    registered namespace, and [concerto] is among them when the
    constructor or [clearModelFiles] returns and stays among them across
    [addModelFile], [addModelFiles], [updateModelFile] and the deletion of
    any other namespace. *)
Theorem root_model_views :
  (forall m f,
      f ∈ getModelFiles m false <->
      exists namespace, namespace <> "concerto" /\ modelFiles m !! namespace = Some f)
  /\ (forall m includeExternalModels entry,
         entry ∈ getModels m includeExternalModels ->
         exists f, f ∈ getModelFiles m false /\ entry.2 = mf_definitions f)
  /\ (forall m resolve ast,
         ast ∈ getAst m resolve ->
         exists f, f ∈ getModelFiles m false
                   /\ ast = if resolve then resolveMetaModel m (mf_ast f) else mf_ast f)
  /\ (forall m,
         (forall namespace g, modelFiles m !! namespace = Some g ->
                              ModelFile_getNamespace g = namespace) ->
         forall f, f ∈ getModelFiles m false -> ModelFile_getNamespace f <> "concerto")
  /\ (forall m namespace,
         namespace ∈ getNamespaces m <-> is_Some (modelFiles m !! namespace))
  /\ (forall m, newModelManager = (ret tt, m) -> "concerto" ∈ getNamespaces m)
  /\ (forall m m', clearModelFiles m = (ret tt, m') -> "concerto" ∈ getNamespaces m')
  /\ (forall m,
         "concerto" ∈ getNamespaces m ->
         (forall f disableValidation,
             "concerto" ∈ getNamespaces (addModelFile m f disableValidation).2)
         /\ (forall inputs fileNames disableValidation,
                "concerto" ∈ getNamespaces
                  (addModelFiles m inputs fileNames disableValidation).2)
         /\ (forall input fileName disableValidation,
                "concerto" ∈ getNamespaces
                  (updateModelFile m input fileName disableValidation).2)
         /\ (forall namespace,
                namespace <> "concerto" ->
                "concerto" ∈ getNamespaces (deleteModelFile m namespace).2)).
Proof.
  split; [|split; [|split; [|split; [|split; [|split; [|split]]]]]].
  - intros m f. rewrite elem_of_getModelFiles. split.
    + intros (k & [Hk|Hk] & Hf); [discriminate | eauto].
    + intros (k & Hk & Hf). eauto.
  - intros m includeExternalModels entry. unfold getModels.
    intros (f & Hin & Hentry)%list_elem_of_omap. exists f. split; [exact Hin|].
    destruct (mf_external f && negb (default true includeExternalModels));
      [discriminate|]. by injection Hentry as <-.
  - intros m resolve ast. unfold getAst.
    intros (f & -> & Hin)%list_elem_of_fmap. by exists f.
  - intros m Hkeys f (k & [Hk|Hk] & Hf)%elem_of_getModelFiles; [discriminate|].
    by rewrite (Hkeys _ _ Hf).
  - apply elem_of_getNamespaces.
  - intros m. unfold newModelManager.
    destruct (addRootModel {| modelFiles := ∅ |}) as [[e|r] m0] eqn:Hroot; simpl;
      [intros [= ]|].
    intros [= <-]. by eapply addRootModel_empty.
  - intros m m'. unfold clearModelFiles.
    destruct (addRootModel {| modelFiles := ∅ |}) as [[e|r] m0] eqn:Hroot; simpl;
      [intros [= ]|].
    intros [= <-]. by eapply addRootModel_empty.
  - intros m Hin. split; [|split; [|split]].
    + intros. by apply addModelFile_keeps.
    + intros. by apply addModelFiles_keeps.
    + intros. by apply updateModelFile_keeps.
    + intros. by apply deleteModelFile_keeps.
Qed.

End RegistryProperties.

Section DerivesFromProperties.

Context `{Collaborators}.

Implicit Types (m : ModelManager) (d : ClassDeclaration).

Lemma derivesFrom_loop_true_chain m fqt2 :
  forall fuel d,
    derivesFrom_loop m fuel d fqt2 = Some (ret true) ->
    exists d', onSuperTypeChain m d d'
               /\ ClassDeclaration_getFullyQualifiedName d' = fqt2.
Proof.
  induction fuel as [|fuel IH]; intros d; simpl; [discriminate|].
  destruct (String.eqb (ClassDeclaration_getFullyQualifiedName d) fqt2) eqn:Hname.
  - intros _. exists d. split; [constructor | by apply String.eqb_eq].
  - destruct (ClassDeclaration_getSuperTypeDeclaration m d) as [e|[s|]] eqn:Hsuper;
      [discriminate | | discriminate].
    intros (d' & Hchain & Hd')%IH. exists d'. split; [|exact Hd'].
    by econstructor.
Qed.

Lemma derivesFrom_loop_chain_true m fqt2 d d' :
  onSuperTypeChain m d d' ->
  ClassDeclaration_getFullyQualifiedName d' = fqt2 ->
  exists fuel, derivesFrom_loop m fuel d fqt2 = Some (ret true).
Proof.
  induction 1 as [d|d s d' Hsuper Hchain IH]; intros Hname.
  - exists 1. simpl. apply String.eqb_eq in Hname. by rewrite Hname.
  - destruct (IH Hname) as [fuel Hfuel]. exists (S fuel). simpl.
    destruct (String.eqb (ClassDeclaration_getFullyQualifiedName d) fqt2); [done|].
    by rewrite Hsuper.
Qed.

(** More fuel does not change an answer. *)
Lemma derivesFrom_loop_mono m fqt2 :
  forall fuel fuel' d r,
    derivesFrom_loop m fuel d fqt2 = Some r ->
    fuel <= fuel' ->
    derivesFrom_loop m fuel' d fqt2 = Some r.
Proof.
  induction fuel as [|fuel IH]; intros fuel' d r; simpl; [discriminate|].
  intros Hrun Hle. destruct fuel' as [|fuel']; [lia|]. simpl.
  destruct (String.eqb (ClassDeclaration_getFullyQualifiedName d) fqt2); [done|].
  destruct (ClassDeclaration_getSuperTypeDeclaration m d) as [e|[s|]]; [done| |done].
  apply IH; [done | lia].
Qed.

Lemma derivesFrom_loop_agree m fqt2 fuel fuel' d r r' :
  derivesFrom_loop m fuel d fqt2 = Some r ->
  derivesFrom_loop m fuel' d fqt2 = Some r' ->
  r = r'.
Proof.
  intros Hr Hr'.
  destruct (Nat.le_ge_cases fuel fuel') as [Hle|Hle].
  - rewrite (derivesFrom_loop_mono _ _ _ _ _ _ Hr Hle) in Hr'. congruence.
  - rewrite (derivesFrom_loop_mono _ _ _ _ _ _ Hr' Hle) in Hr. congruence.
Qed.

(** On a chain that ends the loop answers. *)
Lemma derivesFrom_loop_ends m fqt2 d :
  superTypeChainEnds m d ->
  exists fuel answer, derivesFrom_loop m fuel d fqt2 = Some (ret answer).
Proof.
  induction 1 as [d Hnone|d s Hsuper Hends (fuel & answer & IH)].
  - exists 1. simpl.
    destruct (String.eqb (ClassDeclaration_getFullyQualifiedName d) fqt2); [by eexists|].
    rewrite Hnone. by eexists.
  - exists (S fuel). simpl.
    destruct (String.eqb (ClassDeclaration_getFullyQualifiedName d) fqt2); [by eexists|].
    rewrite Hsuper. by eexists.
Qed.

Lemma onSuperTypeChain_cases m d d' :
  onSuperTypeChain m d d' <-> d' = d \/ transitiveSuperType m d d'.
Proof.
  split.
  - destruct 1 as [d|d s d' Hsuper Hchain]; [by left|]. right. by exists s.
  - intros [->|(s & Hsuper & Hchain)]; [constructor | by econstructor].
Qed.

(** C4. For a fully qualified name [a] that names a declaration known to
    the manager, [derivesFrom(a, b)] returns true exactly when [b] is [a]
    or the fully qualified name of a transitive super type of [a]; so
    [derivesFrom(a, a)] returns true; the answer does not depend on the
    number of turns allowed; and whenever the chain of super types ends
    there is an answer, which is false when [b] is neither. *)
Theorem derivesFrom_iff_super_type m a b d :
  getType m a = ret (Declaration d) ->
  ClassDeclaration_getFullyQualifiedName d = a ->
  ((exists fuel, derivesFrom m fuel a b = Some (ret true)) <->
   (b = a \/ exists d', transitiveSuperType m d d'
                        /\ ClassDeclaration_getFullyQualifiedName d' = b))
  /\ (exists fuel, derivesFrom m fuel a a = Some (ret true))
  /\ (forall fuel fuel' r r',
         derivesFrom m fuel a b = Some r ->
         derivesFrom m fuel' a b = Some r' -> r = r')
  /\ (superTypeChainEnds m d ->
      exists fuel answer, derivesFrom m fuel a b = Some (ret answer))
  /\ (superTypeChainEnds m d ->
      ~ (b = a \/ exists d', transitiveSuperType m d d'
                             /\ ClassDeclaration_getFullyQualifiedName d' = b) ->
      exists fuel, derivesFrom m fuel a b = Some (ret false)).
Proof.
  intros Htype Hname. unfold derivesFrom. rewrite Htype.
  split; [|split; [|split; [|split]]].
  - split.
    + intros [fuel (d' & Hchain & Hd')%derivesFrom_loop_true_chain].
      apply onSuperTypeChain_cases in Hchain as [->|Hsuper].
      * left. congruence.
      * right. eauto.
    + intros [->|(d' & Hsuper & Hd')].
      * eapply derivesFrom_loop_chain_true; [constructor | exact Hname].
      * eapply derivesFrom_loop_chain_true; [|exact Hd'].
        apply onSuperTypeChain_cases. by right.
  - eapply derivesFrom_loop_chain_true; [constructor | exact Hname].
  - intros fuel fuel' r r'. apply derivesFrom_loop_agree.
  - apply derivesFrom_loop_ends.
  - intros Hends Hnot.
    destruct (derivesFrom_loop_ends m b d Hends) as (fuel & [|] & Hanswer);
      [|by exists fuel].
    destruct Hnot.
    apply derivesFrom_loop_true_chain in Hanswer as (d' & Hchain & Hd').
    apply onSuperTypeChain_cases in Hchain as [->|Hsuper].
    + left. congruence.
    + right. eauto.
Qed.

End DerivesFromProperties.

Section ResolutionProperties.

Context `{Collaborators}.

Implicit Types (m : ModelManager) (f : ModelFile) (d : ClassDeclaration).



Lemma findWildcard_raises m type before wildcardNamespace after e :
  Forall (fun namespace => wildcardDeclares m type namespace = ret false) before ->
  wildcardDeclares m type wildcardNamespace = inl e ->
  findWildcard m type (before ++ wildcardNamespace :: after)%list = inl e.
Proof.
  intros Hbefore Hraises.
  induction Hbefore as [|namespace before Hnamespace _ IH]; simpl.
  - by rewrite Hraises.
  - by rewrite Hnamespace.
Qed.

Lemma findWildcard_none m type namespaces :
  Forall (fun namespace => wildcardDeclares m type namespace = ret false) namespaces <->
  findWildcard m type namespaces = ret None.
Proof.
  induction namespaces as [|namespace namespaces IH]; simpl; [by split; [|constructor]|].
  split.
  - intros [Hnamespace Hrest]%Forall_cons. rewrite Hnamespace. simpl. by apply IH.
  - destruct (wildcardDeclares m type namespace) as [e|[|]] eqn:Hnamespace; simpl;
      [discriminate | discriminate |].
    intros Hrest. constructor; [done | by apply IH].
Qed.

Lemma findWildcard_some m type namespaces wildcardNamespace :
  findWildcard m type namespaces = ret (Some wildcardNamespace) ->
  exists before after,
    namespaces = (before ++ wildcardNamespace :: after)%list
    /\ Forall (fun namespace => wildcardDeclares m type namespace = ret false) before
    /\ wildcardDeclares m type wildcardNamespace = ret true.
Proof.
  induction namespaces as [|namespace namespaces IH]; simpl; [discriminate|].
  destruct (wildcardDeclares m type namespace) as [e|[|]] eqn:Hnamespace; simpl;
    [discriminate| |].
  - intros [= <-]. by exists [], namespaces.
  - intros (before & after & -> & Hbefore & Hdeclares)%IH.
    exists (namespace :: before), after.
    split; [done|]. split; [by constructor | done].
Qed.




(** So does a lookup of a name that its model file does not resolve. *)
Lemma getType_unresolved m modelFile qualifiedName :
  getModelFile m (getNamespace qualifiedName) = SlotOwn modelFile ->
  ModelFile_getType m modelFile qualifiedName = ret None ->
  exists message, getType m qualifiedName = throw (TypeNotFoundException qualifiedName message).
Proof. intros Hfile Hnone. unfold getType. rewrite Hfile, Hnone. simpl. by eexists. Qed.

Lemma prefix_app (namespace rest : string) : String.prefix namespace (namespace ++ rest) = true.
Proof.
  induction namespace as [|c namespace IH]; simpl; [by destruct rest|].
  destruct (ascii_dec c c) as [_|Hne]; [exact IH | by destruct Hne].
Qed.

Lemma qualified_not_empty (namespace t : string) :
  String.eqb (namespace ++ "." ++ t) "" = false.
Proof. by destruct namespace. Qed.

(** A short name that does not start with the text of the namespace is
    found by [getLocalType] exactly when the manager finds its qualified
    name, as long as the qualified name is not itself imported. *)
Lemma getType_agrees_with_getLocalType m f t d :
  getModelFile m (getNamespace (ModelFile_getNamespace f ++ "." ++ t)) = SlotOwn f ->
  isPrimitiveType (ModelFile_getNamespace f ++ "." ++ t) = false ->
  ModelFile_isImportedType m f (ModelFile_getNamespace f ++ "." ++ t) = ret false ->
  String.prefix (ModelFile_getNamespace f) t = false ->
  getType m (ModelFile_getNamespace f ++ "." ++ t) = ret (Declaration d)
  <-> ModelFile_getLocalType f t = Some d.
Proof.
  intros Hfile Hprimitive Himported Hprefix.
  assert (ModelFile_getLocalType f (ModelFile_getNamespace f ++ "." ++ t)
          = ModelFile_getLocalType f t) as Hsame.
  { unfold ModelFile_getLocalType. by rewrite prefix_app, Hprefix. }
  unfold getType. rewrite Hfile. unfold ModelFile_getType, ModelFile_isLocalType.
  rewrite Hprimitive, Himported. simpl. rewrite qualified_not_empty, Hsame. simpl.
  destruct (ModelFile_getLocalType f t) as [d'|] eqn:Hlocal.
  - rewrite bool_decide_eq_true_2; [|by eexists]. simpl. unfold ret.
    split; congruence.
  - rewrite bool_decide_eq_false_2; [|by intros [? ?]]. simpl. split; discriminate.
Qed.

(** A short name that starts with the text of the namespace is looked up
    as it is, without the namespace. *)
Lemma getLocalType_prefixed f t :
  String.prefix (ModelFile_getNamespace f) t = true ->
  ModelFile_getLocalType f t = mf_localTypes f !! t.
Proof. intros Hprefix. unfold ModelFile_getLocalType. by rewrite Hprefix. Qed.
End ResolutionProperties.

Section ValidatorProperties.

Context `{Collaborators}.

(** X24. The string validator and the engine of the host.  A pattern
    that the engine refuses builds no validator: the construction raises
    the error that [reportError] reports for the field, carrying the
    message of the engine.  A pattern that the engine compiles, with the
    flags when there are any, builds the validator that holds that
    compiled expression.  [validate] of [null] returns and leaves the
    validator as it was; [validate] of any other value calls [test] once
    on the expression that the validator holds, returns when the answer
    is true, raises the error that [reportError] reports for the
    identifier, citing the value and the expression, when it is false,
    and leaves the validator with the expression as [test] left it. *)
Theorem StringValidator_reports field validator sv identifier value :
  (forall exception,
      RegExp_new (va_pattern validator)
                 (if truthy (va_flags validator) then va_flags validator else None)
      = inl exception ->
      newStringValidator field validator
      = throw (Validator_reportError field (Some (exn_message exception)) None))
  /\ (forall regex,
         RegExp_new (va_pattern validator)
                    (if truthy (va_flags validator) then va_flags validator else None)
         = ret regex ->
         newStringValidator field validator
         = ret {| sv_field := field; sv_validator := validator; sv_regex := regex |})
  /\ (is_ok (StringValidator_validate sv identifier value).1 = false <->
      value <> JsNull /\ (RegExp_test (sv_regex sv) value).1 = false)
  /\ (value <> JsNull ->
      StringValidator_validate sv identifier value
      = (if (RegExp_test (sv_regex sv) value).1 then ret tt
         else throw (Validator_reportError (sv_field sv) identifier
                       (Some ("Value '" ++ JsValue_toString value
                                ++ "' failed to match validation regex: "
                                ++ RegExp_toString (RegExp_test (sv_regex sv) value).2))),
         {| sv_field := sv_field sv; sv_validator := sv_validator sv;
            sv_regex := (RegExp_test (sv_regex sv) value).2 |}))
  /\ StringValidator_validate sv identifier JsNull = (ret tt, sv).
Proof.
  split; [|split; [|split; [|split]]].
  - intros exception Hnew. unfold newStringValidator.
    destruct (truthy (va_flags validator)); by rewrite Hnew.
  - intros regex Hnew. unfold newStringValidator.
    destruct (truthy (va_flags validator)); by rewrite Hnew.
  - unfold StringValidator_validate.
    destruct value as [| |s|b]; simpl;
      try (destruct (RegExp_test (sv_regex sv) _) as [[|] regex']; simpl;
           (split; [intros Hraised; first [discriminate Hraised | by split]
                   |intros [_ Hmiss]; first [discriminate Hmiss | reflexivity]])).
    split; [discriminate | by intros [? _]].
  - intros Hvalue. unfold StringValidator_validate.
    destruct value as [| |s|b]; try done;
      by destruct (RegExp_test (sv_regex sv) _) as [[|] regex'].
  - reflexivity.
Qed.

End ValidatorProperties.

Section SerializerProperties.

Context `{Collaborators}.

Implicit Types (m : ModelManager) (d : ClassDeclaration) (p : Property).

Lemma forEach_raises {A : Type} (f : A -> result unit) (l : list A) (a : A) :
  a ∈ l -> is_ok (f a) = false -> is_ok (forEach f l) = false.
Proof.
  induction l as [|x l IH]; intros Hin Hraise; [by apply elem_of_nil in Hin|].
  simpl. destruct (f x) as [e|[]] eqn:Hx; simpl; [done|].
  apply elem_of_cons in Hin as [->|Hin]; [by rewrite Hx in Hraise | by apply IH].
Qed.

(** The first element that raises decides the outcome of the loop. *)
Lemma forEach_first_raise {A : Type} (f : A -> result unit) (before after : list A)
    (a : A) (e : exn) :
  forEach f before = ret tt -> f a = inl e -> forEach f (before ++ a :: after)%list = inl e.
Proof.
  induction before as [|x before IH]; simpl; intros Hbefore Ha.
  - by rewrite Ha.
  - destruct (f x) as [e'|[]]; simpl in *; [discriminate | by apply IH].
Qed.

Lemma forEach_all_pass {A : Type} (f : A -> result unit) (l : list A) :
  Forall (fun a => f a = ret tt) l -> forEach f l = ret tt.
Proof.
  induction 1 as [|x l Hx _ IH]; simpl; [done|]. by rewrite Hx.
Qed.

Lemma lookupEntry_map {A B : Type} (g : A -> B) (name : string) (l : list (string * A)) :
  lookupEntry name (map (fun entry : string * A => (entry.1, g entry.2)) l)
  = g <$> lookupEntry name l.
Proof.
  induction l as [|[k a] l IH]; simpl; [done|].
  by destruct (String.eqb k name).
Qed.

(** The conversions that [generateJSON] makes of the properties of a
    resource are [convertedProperties]. *)
Lemma generateJSON_resource m type identifier timestamp properties :
  generateJSON m (VResource type identifier timestamp properties)
  = (letr t := getType m type in
     match t with
     | PrimitiveName _ => throw (TypeError "classDeclaration.accept is not a function")
     | Declaration d =>
         letr members := generateProperties (convertedProperties m properties)
                           (ClassDeclaration_getProperties m d) in
         ret (JObject (("$class", JString type)
                         :: optionalMember "$identifier" identifier
                         ++ optionalMember "$timestamp" timestamp
                         ++ members))
     end).
Proof.
  simpl. destruct (getType m type) as [e|[name|d]]; simpl; try done.
  replace ((fix convert (l : list (string * Value)) : list (string * result Json) :=
              match l with
              | [] => []
              | (_, VNull) :: l' => convert l'
              | (k, x) :: l' => (k, generateJSON m x) :: convert l'
              end) properties)
    with (convertedProperties m properties); [done|].
  unfold convertedProperties.
  induction properties as [|[k v] l IH]; [done|].
  destruct v; simpl; first [exact IH | by rewrite IH].
Qed.

(** The members that [generateProperties] emits are the declared
    properties, system properties apart, that have a value. *)
Lemma generateProperties_members (converted : list (string * result Json))
    (properties : list Property) :
  Forall (fun entry => is_ok entry.2 = true) converted ->
  exists members,
    generateProperties converted properties = ret members
    /\ forall name,
         name ∈ members.*1 <->
         exists q, q ∈ properties /\ p_name q = name
                   /\ isSystemProperty name = false
                   /\ is_Some (lookupEntry name converted).
Proof.
  intros Hconverted.
  assert (forall name r, lookupEntry name converted = Some r -> is_ok r = true) as Hok.
  { intros name r. induction Hconverted as [|[k r'] l Hr _ IH]; simpl; [done|].
    destruct (String.eqb k name); [|exact IH]. by intros [= <-]. }
  induction properties as [|p rest (members & Hrest & Hmembers)]; simpl.
  - exists []. split; [done|]. intros name. split.
    + by intros Hin%elem_of_nil.
    + by intros (q & Hin%elem_of_nil & _).
  - destruct (isSystemProperty (p_name p)) eqn:Hsystem.
    { exists members. split; [done|]. intros name. rewrite Hmembers. split.
      - intros (q & Hq & Hrest'). exists q. split; [by right | done].
      - intros (q & [->|Hq]%elem_of_cons & Hname & Hnot & Hset); [congruence|].
        by exists q. }
    destruct (lookupEntry (p_name p) converted) as [r|] eqn:Hlookup.
    + pose proof (Hok _ _ Hlookup) as Hr. destruct r as [e|j]; [discriminate|].
      simpl. rewrite Hrest. simpl. exists ((p_name p, j) :: members). split; [done|].
      intros name. simpl. rewrite elem_of_cons, Hmembers. split.
      * intros [->|(q & Hq & Hrest')].
        -- exists p. split; [by left|]. by rewrite Hlookup.
        -- exists q. split; [by right | done].
      * intros (q & [->|Hq]%elem_of_cons & Hname & Hnot & Hset); [by left|].
        right. by exists q.
    + exists members. split; [done|]. intros name. rewrite Hmembers. split.
      * intros (q & Hq & Hrest'). exists q. split; [by right | done].
      * intros (q & [->|Hq]%elem_of_cons & Hname & Hnot & [r Hset]); [congruence|].
        exists q. by rewrite Hset.
Qed.

(** The member that [generateProperties] emits under the name of a
    declared property is the conversion of the value of that name. *)
Lemma generateProperties_member (converted : list (string * result Json))
    (properties : list Property) members p j :
  generateProperties converted properties = ret members ->
  p ∈ properties ->
  isSystemProperty (p_name p) = false ->
  lookupEntry (p_name p) converted = Some (ret j) ->
  lookupEntry (p_name p) members = Some j.
Proof.
  intros Hmembers Hin Hsystem Hvalue. revert members Hmembers Hin.
  induction properties as [|q rest IH]; intros members Hmembers Hin.
  { by apply elem_of_nil in Hin. }
  simpl in Hmembers.
  destruct (isSystemProperty (p_name q)) eqn:Hq.
  { apply elem_of_cons in Hin as [->|Hin]; [congruence|]. by apply IH. }
  destruct (lookupEntry (p_name q) converted) as [r|] eqn:Hr.
  - destruct r as [e|j']; simpl in Hmembers; [discriminate|].
    destruct (generateProperties converted rest) as [e|members'] eqn:Hrest;
      simpl in Hmembers; [discriminate|].
    injection Hmembers as <-. simpl.
    destruct (String.eqb (p_name q) (p_name p)) eqn:Hname.
    + apply String.eqb_eq in Hname. rewrite Hname, Hvalue in Hr.
      unfold ret in Hr. congruence.
    + apply elem_of_cons in Hin as [->|Hin]; [by rewrite String.eqb_refl in Hname|].
      by apply IH.
  - apply elem_of_cons in Hin as [->|Hin]; [congruence|]. by apply IH.
Qed.

(** The members [$class], [$identifier] and [$timestamp] that lead the
    JSON object do not hide the member of a property. *)
Lemma lookupEntry_after_system_members name type identifier timestamp
    (members : list (string * Json)) :
  isSystemProperty name = false ->
  lookupEntry name (("$class", JString type)
                      :: optionalMember "$identifier" identifier
                      ++ optionalMember "$timestamp" timestamp
                      ++ members)
  = lookupEntry name members.
Proof.
  intros Hsystem. unfold isSystemProperty in Hsystem. cbn [existsb] in Hsystem.
  rewrite orb_false_r in Hsystem.
  apply orb_false_iff in Hsystem as [Hclass Hsystem].
  apply orb_false_iff in Hsystem as [Hidentifier Htimestamp].
  rewrite String.eqb_sym in Hclass. rewrite String.eqb_sym in Hidentifier.
  rewrite String.eqb_sym in Htimestamp.
  cbn [lookupEntry]. rewrite Hclass.
  destruct identifier, timestamp; cbn [optionalMember app lookupEntry];
    by rewrite ?Hidentifier, ?Htimestamp.
Qed.

(** The JSON object that [toJSON] returns carries, under the name of a
    declared property, the conversion of the value of the instance. *)
Lemma toJSON_member m defaultOptions options type identifier timestamp properties
    d p j json :
  getType m type = ret (Declaration d) ->
  p ∈ ClassDeclaration_getProperties m d ->
  isSystemProperty (p_name p) = false ->
  lookupEntry (p_name p) (convertedProperties m properties) = Some (ret j) ->
  toJSON m defaultOptions (VResource type identifier timestamp properties) options
  = ret json ->
  exists members,
    json = JObject (("$class", JString type)
                      :: optionalMember "$identifier" identifier
                      ++ optionalMember "$timestamp" timestamp
                      ++ members)
    /\ generateProperties (convertedProperties m properties)
         (ClassDeclaration_getProperties m d) = ret members
    /\ lookupEntry (p_name p) members = Some j.
Proof.
  intros Htype Hin Hsystem Hvalue. unfold toJSON. rewrite Htype. cbn [bind ret].
  destruct (if JsValue_truthy _ then _ else _) as [e|[]]; cbn [bind ret]; [done|].
  rewrite generateJSON_resource, Htype. simpl.
  destruct (generateProperties _ _) as [e|members] eqn:Hmembers; simpl; [done|].
  intros [= <-]. exists members. split; [done|]. split; [done|].
  by eapply generateProperties_member.
Qed.

(** [toJSON] returns when the validation of the instance passes and
    every value that is set converts. *)
Lemma toJSON_returns m defaultOptions options type identifier timestamp properties d :
  getType m type = ret (Declaration d) ->
  (JsValue_truthy (effectiveOptions defaultOptions options !! "validate") = true ->
   validateResource m d type identifier properties = ret tt) ->
  Forall (fun entry : string * result Json => is_ok entry.2 = true)
         (convertedProperties m properties) ->
  exists json,
    toJSON m defaultOptions (VResource type identifier timestamp properties) options
    = ret json.
Proof.
  intros Htype Hvalid Hconverted. unfold toJSON. rewrite Htype. cbn [bind ret].
  destruct (JsValue_truthy _); [rewrite Hvalid by done|]; cbn [bind ret];
    rewrite generateJSON_resource, Htype; simpl;
    destruct (generateProperties_members _ (ClassDeclaration_getProperties m d)
                Hconverted) as (members & -> & _); simpl; by eexists.
Qed.

(** [toJSON] with validation in force raises what the first failing
    property raises, when no property of the instance is undeclared. *)
Lemma toJSON_first_failure m defaultOptions options type identifier timestamp properties
    d before p after e :
  getType m type = ret (Declaration d) ->
  JsValue_truthy (effectiveOptions defaultOptions options !! "validate") = true ->
  ClassDeclaration_getProperties m d = (before ++ p :: after)%list ->
  Forall (fun entry : string * Value =>
            existsb (fun q => String.eqb (p_name q) entry.1)
                    (ClassDeclaration_getProperties m d) = true)
         (presentProperties properties) ->
  forEach (validateProperty (fullyQualifiedIdentifier type identifier)
             (resourceChecks m (fullyQualifiedIdentifier type identifier) properties))
          before = ret tt ->
  validateProperty (fullyQualifiedIdentifier type identifier)
    (resourceChecks m (fullyQualifiedIdentifier type identifier) properties) p = inl e ->
  toJSON m defaultOptions (VResource type identifier timestamp properties) options = inl e.
Proof.
  intros Htype Hvalidate Hproperties Hdeclared Hbefore Hp.
  unfold toJSON. rewrite Htype. simpl. rewrite Hvalidate.
  unfold validateResource, validateProperties.
  rewrite forEach_all_pass.
  - simpl. rewrite Hproperties. by rewrite (forEach_first_raise _ _ _ _ _ Hbefore Hp).
  - unfold resourceChecks. apply Forall_map.
    eapply Forall_impl; [exact Hdeclared|]. intros [k v] Hk. simpl in *. by rewrite Hk.
Qed.

(** With validation in force, a declared property that raises makes
    [toJSON] raise. *)
Lemma toJSON_property_raises m defaultOptions options type identifier timestamp properties
    d p :
  getType m type = ret (Declaration d) ->
  JsValue_truthy (effectiveOptions defaultOptions options !! "validate") = true ->
  p ∈ ClassDeclaration_getProperties m d ->
  is_ok (validateProperty (fullyQualifiedIdentifier type identifier)
           (resourceChecks m (fullyQualifiedIdentifier type identifier) properties) p)
  = false ->
  is_ok (toJSON m defaultOptions (VResource type identifier timestamp properties) options)
  = false.
Proof.
  intros Htype Hvalidate Hin Hp.
  unfold toJSON. rewrite Htype. simpl. rewrite Hvalidate.
  unfold validateResource, validateProperties.
  destruct (forEach _ (resourceChecks m _ properties)) as [e|[]]; simpl; [done|].
  pose proof (forEach_raises _ _ _ Hin Hp) as Hraise.
  destruct (forEach _ (ClassDeclaration_getProperties m d)) as [e|[]]; simpl;
    [done | discriminate].
Qed.

Lemma validateProperty_missing id checks p :
  isSystemProperty (p_name p) = false ->
  p_optional p = false ->
  lookupEntry (p_name p) checks = None ->
  validateProperty id checks p = throw (missingRequiredProperty id p).
Proof.
  intros Hsystem Hrequired Hmissing. unfold validateProperty.
  by rewrite Hsystem, Hmissing, Hrequired.
Qed.

Lemma validateProperty_non_finite m id properties p n :
  isSystemProperty (p_name p) = false ->
  p_array p = false ->
  lookupEntry (p_name p) (presentProperties properties) = Some (VNumber n) ->
  JsNumber_isFinite n = false ->
  validateProperty id (resourceChecks m id properties) p
  = throw (invalidFieldValue id p (JsNumber_toString n)).
Proof.
  intros Hsystem Harray Hvalue Hfinite. unfold validateProperty, resourceChecks.
  rewrite Hsystem, lookupEntry_map, Hvalue. simpl.
  by rewrite Harray, Hfinite, andb_false_r.
Qed.

Lemma resourceChecks_missing m id properties name :
  lookupEntry name (presentProperties properties) = None ->
  lookupEntry name (resourceChecks m id properties) = None.
Proof. intros Hmissing. unfold resourceChecks. by rewrite lookupEntry_map, Hmissing. Qed.


(** C3. [toJSON] with validation in force (the default) fails on an
    instance that lacks a required property, and the error of that
    property is the model violation [The instance "<FQN>#<id>" is missing
    the required field "<name>".]; with [validate] off the instance is
    converted without validation, and the members of the JSON object are
    exactly the declared properties that have a value, so the missing
    ones are absent; an option given with the call decides over the
    default options of the serializer whatever its value, and a call
    without it uses the default. *)
Theorem toJSON_validate_option m defaultOptions options type identifier timestamp
    properties d :
  getType m type = ret (Declaration d) ->
  (JsValue_truthy (effectiveOptions defaultOptions options !! "validate") = true ->
   forall p,
     p ∈ ClassDeclaration_getProperties m d ->
     isSystemProperty (p_name p) = false ->
     p_optional p = false ->
     lookupEntry (p_name p) (presentProperties properties) = None ->
     is_ok (toJSON m defaultOptions (VResource type identifier timestamp properties)
              options) = false
     /\ forall before after,
          ClassDeclaration_getProperties m d = (before ++ p :: after)%list ->
          Forall (fun entry : string * Value =>
                    existsb (fun q => String.eqb (p_name q) entry.1)
                            (ClassDeclaration_getProperties m d) = true)
                 (presentProperties properties) ->
          forEach (validateProperty (fullyQualifiedIdentifier type identifier)
                     (resourceChecks m (fullyQualifiedIdentifier type identifier)
                        properties)) before = ret tt ->
          toJSON m defaultOptions (VResource type identifier timestamp properties) options
          = throw (ModelViolation
                     ("The instance "
                        ++ quoted (fullyQualifiedIdentifier type identifier)
                        ++ " is missing the required field " ++ quoted (p_name p)
                        ++ ".")))
  /\ (JsValue_truthy (effectiveOptions defaultOptions options !! "validate") = false ->
      Forall (fun entry : string * Value => is_ok (generateJSON m entry.2) = true)
             (presentProperties properties) ->
      exists members,
        toJSON m defaultOptions (VResource type identifier timestamp properties) options
        = ret (JObject (("$class", JString type)
                          :: optionalMember "$identifier" identifier
                          ++ optionalMember "$timestamp" timestamp
                          ++ members))
        /\ forall name,
             name ∈ members.*1 <->
             exists q, q ∈ ClassDeclaration_getProperties m d /\ p_name q = name
                       /\ isSystemProperty name = false
                       /\ is_Some (lookupEntry name (presentProperties properties)))
  /\ (forall given value,
         options = Some given -> given !! "validate" = Some value ->
         effectiveOptions defaultOptions options !! "validate" = Some value)
  /\ (forall given,
         options = Some given -> given !! "validate" = None ->
         effectiveOptions defaultOptions options !! "validate"
         = defaultOptions !! "validate")
  /\ (options = None ->
      effectiveOptions defaultOptions options !! "validate"
      = defaultOptions !! "validate")
  /\ JsValue_truthy (baseDefaultOptions !! "validate") = true.
Proof.
  intros Htype. split; [|split; [|split; [|split; [|split]]]].
  - intros Hvalidate p Hin Hsystem Hrequired Hmissing.
    pose proof (validateProperty_missing (fullyQualifiedIdentifier type identifier)
                  _ p Hsystem Hrequired
                  (resourceChecks_missing m (fullyQualifiedIdentifier type identifier)
                     properties _ Hmissing)) as Hp.
    split.
    + eapply toJSON_property_raises; eauto. by rewrite Hp.
    + intros before after Hproperties Hdeclared Hbefore.
      eapply toJSON_first_failure; eauto.
  - intros Hvalidate Hconvert.
    destruct (generateProperties_members (convertedProperties m properties)
                (ClassDeclaration_getProperties m d)) as (members & Hgen & Hmembers).
    { unfold convertedProperties. apply Forall_map.
      eapply Forall_impl; [exact Hconvert|]. by intros [k v]. }
    exists members. split.
    + unfold toJSON. rewrite generateJSON_resource, Htype. simpl.
      rewrite Hvalidate. simpl. by rewrite Hgen.
    + intros name. rewrite Hmembers. unfold convertedProperties.
      setoid_rewrite lookupEntry_map. by setoid_rewrite fmap_is_Some.
  - intros given value -> Hgiven. unfold effectiveOptions, overrideOptions.
    by apply lookup_union_Some_l.
  - intros given -> Hgiven. unfold effectiveOptions, overrideOptions.
    by apply lookup_union_r.
  - by intros ->.
  - reflexivity.
Qed.

(** C7. [toJSON] with validation in force fails on an instance whose
    [Double] property holds NaN, Infinity or -Infinity, and the error of
    that property is the model violation that cites the FQN and
    identifier of the instance, the field name and the value; a finite
    value passes the validation of the property, and the JSON object
    that [toJSON] returns has the JSON number itself as the member of the
    name of the property: [toJSON] returns whenever the instance
    validates and every value that is set converts. *)
Theorem toJSON_rejects_non_finite m defaultOptions options type identifier timestamp
    properties d p n :
  getType m type = ret (Declaration d) ->
  JsValue_truthy (effectiveOptions defaultOptions options !! "validate") = true ->
  p ∈ ClassDeclaration_getProperties m d ->
  isSystemProperty (p_name p) = false ->
  p_type p = "Double" ->
  p_array p = false ->
  lookupEntry (p_name p) (presentProperties properties) = Some (VNumber n) ->
  (JsNumber_isFinite n = false ->
   is_ok (toJSON m defaultOptions (VResource type identifier timestamp properties) options)
   = false
   /\ forall before after,
        ClassDeclaration_getProperties m d = (before ++ p :: after)%list ->
        Forall (fun entry : string * Value =>
                  existsb (fun q => String.eqb (p_name q) entry.1)
                          (ClassDeclaration_getProperties m d) = true)
               (presentProperties properties) ->
        forEach (validateProperty (fullyQualifiedIdentifier type identifier)
                   (resourceChecks m (fullyQualifiedIdentifier type identifier)
                      properties)) before = ret tt ->
        toJSON m defaultOptions (VResource type identifier timestamp properties) options
        = throw (ModelViolation
                   ("Model violation in the "
                      ++ quoted (fullyQualifiedIdentifier type identifier)
                      ++ " instance. The field " ++ quoted (p_name p)
                      ++ " has a value of "
                      ++ quoted (match n with
                                 | NaN => "NaN"
                                 | PositiveInfinity => "Infinity"
                                 | NegativeInfinity => "-Infinity"
                                 | Finite _ _ => "<finite>"
                                 end)
                      ++ ".")))
  /\ (JsNumber_isFinite n = true ->
      validateProperty (fullyQualifiedIdentifier type identifier)
        (resourceChecks m (fullyQualifiedIdentifier type identifier) properties) p
      = ret tt
      /\ generateJSON m (VNumber n) = ret (JNumber n)
      /\ (forall json,
            toJSON m defaultOptions (VResource type identifier timestamp properties)
              options = ret json ->
            exists members,
              json = JObject (("$class", JString type)
                                :: optionalMember "$identifier" identifier
                                ++ optionalMember "$timestamp" timestamp
                                ++ members)
              /\ lookupEntry (p_name p) members = Some (JNumber n)
              /\ exists fields, json = JObject fields
                   /\ lookupEntry (p_name p) fields = Some (JNumber n))
      /\ (validateResource m d type identifier properties = ret tt ->
          Forall (fun entry : string * result Json => is_ok entry.2 = true)
                 (convertedProperties m properties) ->
          exists json,
            toJSON m defaultOptions (VResource type identifier timestamp properties)
              options = ret json)).
Proof.
  intros Htype Hvalidate Hin Hsystem Hdouble Harray Hvalue. split.
  - intros Hfinite.
    pose proof (validateProperty_non_finite m (fullyQualifiedIdentifier type identifier)
                  properties p n Hsystem Harray Hvalue Hfinite) as Hp.
    split.
    + eapply toJSON_property_raises; eauto. by rewrite Hp.
    + intros before after Hproperties Hdeclared Hbefore.
      eapply toJSON_first_failure; eauto.
  - intros Hfinite. split; [|split; [done|split]].
    + unfold validateProperty, resourceChecks.
      rewrite Hsystem, lookupEntry_map, Hvalue. simpl.
      by rewrite Harray, Hdouble, Hfinite.
    + intros json Hjson.
      assert (lookupEntry (p_name p) (convertedProperties m properties)
              = Some (ret (JNumber n))) as Hconverted.
      { unfold convertedProperties. by rewrite lookupEntry_map, Hvalue. }
      destruct (toJSON_member _ _ _ _ _ _ _ _ _ _ _ Htype Hin Hsystem Hconverted Hjson)
        as (members & -> & _ & Hmember).
      exists members. split; [done|]. split; [done|].
      eexists. split; [done|]. by rewrite lookupEntry_after_system_members.
    + intros Hvalid Hconverted. by eapply toJSON_returns.
Qed.

End SerializerProperties.

Section GeneratorProperties.

Context `{Collaborators}.

(** C6. When the concrete declaration of the type of a field is already
    on the seen stack of the generator, the field is not generated by
    recursion, whatever the value generator and its strategy: an array
    field is the empty array, an optional field that is not an array is
    null, and a required field that is not an array fails with the
    model-is-recursive error.  With [includeOptionalFields] off the
    optional field is not visited at all and stays unset. *)
Theorem visitField_on_recursion instance m parameters parent p type classDeclaration
    concrete :
  isPrimitiveType (p_type p) = false ->
  p_kind p <> Relationship ->
  Property_getFullyQualifiedTypeName m parent p = ret type ->
  getType m type = ret (Declaration classDeclaration) ->
  cd_kind classDeclaration <> EnumDeclaration ->
  findConcreteSubclass m classDeclaration = ret concrete ->
  In (ClassDeclaration_getFullyQualifiedName concrete) (gp_seen parameters) ->
  (p_array p = true ->
   visitField instance m parameters parent p = Some (ret (VArray [])))
  /\ (p_array p = false -> p_optional p = true ->
      visitField instance m parameters parent p = Some (ret VNull))
  /\ (p_array p = false -> p_optional p = false ->
      visitField instance m parameters parent p
      = Some (throw (RecursionError "Model is recursive.")))
  /\ (p_optional p = true -> gp_includeOptionalFields parameters = false ->
      forall rest set,
        visitProperties instance m parameters parent (p :: rest) set
        = visitProperties instance m parameters parent rest set).
Proof.
  intros Hprimitive Hkind Htype Hdecl Henum Hconcrete Hseen.
  assert (visitField instance m parameters parent p
          = Some (if p_array p then ret (VArray [])
                  else if p_optional p then ret VNull
                       else throw (RecursionError "Model is recursive."))) as Hvisit.
  { unfold visitField. rewrite Hprimitive, Htype. unfold ret at 1. cbn beta iota.
    rewrite Hdecl. unfold ret at 1. cbn beta iota.
    assert (existsb (String.eqb (ClassDeclaration_getFullyQualifiedName concrete))
                    (gp_seen parameters) = true) as Hexists.
    { apply existsb_exists. eexists. split; [exact Hseen | apply String.eqb_refl]. }
    destruct (p_kind p); [|done|];
      (destruct (cd_kind classDeclaration); try done;
       rewrite Hconcrete; unfold ret at 1; cbn beta iota zeta; rewrite Hexists;
       by destruct (p_array p), (p_optional p)). }
  split; [|split; [|split]].
  - intros Harray. by rewrite Hvisit, Harray.
  - intros Harray Hoptional. by rewrite Hvisit, Harray, Hoptional.
  - intros Harray Hoptional. by rewrite Hvisit, Harray, Hoptional.
  - intros Hoptional Hflag rest set. simpl. rewrite Hoptional, Hflag. simpl.
    by rewrite orb_true_r.
Qed.

End GeneratorProperties.

(** * The theorems on concrete models *)



(** A batch that registers [org.b] twice raises and leaves the fresh
    manager as it was; the batch of [org.b] and [org.a] is installed. *)
Lemma addModelFiles_all_or_nothing_witness :
  (exists e,
      addModelFiles freshManager [FileObject fileB; FileObject fileB] None false
      = (inl e, freshManager))
  /\ addModelFiles freshManager [FileObject fileB; FileObject fileA] None false
     = (ret [fileB; fileA], installAll freshManager [fileB; fileA])
  /\ modelFiles (installAll freshManager [fileB; fileA]) !! "org.b" = Some fileB
  /\ modelFiles (installAll freshManager [fileB; fileA]) !! "org.a" = Some fileA.
Proof.
  split.
  - destruct (addModelFiles freshManager [FileObject fileB; FileObject fileB] None false)
      as [[e|added] m'] eqn:Hcall.
    + exists e.
      pose proof (proj1 (addModelFiles_all_or_nothing freshManager
                           [FileObject fileB; FileObject fileB] None false) e m' Hcall)
        as Hrestored.
      f_equal. destruct m' as [files]. simpl in Hrestored. rewrite Hrestored.
      vm_compute. reflexivity.
    + vm_compute in Hcall. discriminate Hcall.
  - assert (buildInputs [FileObject fileB; FileObject fileA] None 0 = inr [fileB; fileA])
      as Hbuilt by reflexivity.
    assert (NoDup (map ModelFile_getNamespace [fileB; fileA])) as Hdistinct.
    { apply (bool_decide_unpack _). vm_compute. exact I. }
    assert (Forall (fun f => getModelFile freshManager (ModelFile_getNamespace f)
                             = SlotUndefined) [fileB; fileA]) as Hfree.
    { apply Forall_cons. split; [vm_compute; reflexivity|].
      apply Forall_cons. split; [vm_compute; reflexivity|]. apply Forall_nil_2. }
    assert (validateModelFiles (installAll freshManager [fileB; fileA]) = ret tt)
      as Hvalid by (vm_compute; reflexivity).
    destruct (proj1 (proj2 (proj2 (proj2 (proj2
                (addModelFiles_all_or_nothing freshManager
                   [FileObject fileB; FileObject fileA] None false)))))
                [fileB; fileA] Hbuilt Hdistinct Hfree (or_intror Hvalid))
      as (Hcall & Hinstalled & _).
    split; [exact Hcall|]. split.
    + exact (Hinstalled fileB (or_introl eq_refl)).
    + exact (Hinstalled fileA (or_intror (or_introl eq_refl))).
Defined.

(** Scenario S2: the asset that has only its identifier. *)
Lemma toJSON_validate_option_witness :
  toJSON managerSample baseDefaultOptions (sampleAsset []) None
  = throw (ModelViolation
             ("The instance " ++ quoted "org.acme.sample.SampleAsset#1"
                ++ " is missing the required field " ++ quoted "owner" ++ ".")).
Proof.
  assert (getType managerSample "org.acme.sample.SampleAsset"
          = ret (Declaration sampleAssetDeclaration)) as Htype
    by (vm_compute; reflexivity).
  assert (JsValue_truthy (effectiveOptions baseDefaultOptions None !! "validate") = true)
    as Hvalidate by (vm_compute; reflexivity).
  assert (relationship "owner" "SampleParticipant"
          ∈ ClassDeclaration_getProperties managerSample sampleAssetDeclaration) as Hin.
  { apply list_elem_of_In. vm_compute. right. left. reflexivity. }
  refine (proj2 (proj1 (toJSON_validate_option managerSample baseDefaultOptions None
                          "org.acme.sample.SampleAsset" (Some "1") None
                          [("assetId", VString "1")] sampleAssetDeclaration Htype)
                   Hvalidate (relationship "owner" "SampleParticipant") Hin
                   eq_refl eq_refl eq_refl)
                [field "assetId" "String"]
                [field "stringValue" "String"; field "doubleValue" "Double";
                 field "$identifier" "String"]
                _ _ _).
  - vm_compute. reflexivity.
  - repeat constructor.
  - vm_compute. reflexivity.
Defined.

(** Scenario S3: the asset whose [doubleValue] is NaN, and the asset
    whose [doubleValue] is 3.14. *)
Lemma toJSON_rejects_non_finite_witness :
  toJSON managerSample baseDefaultOptions (sampleAssetWith NaN) None
  = throw (ModelViolation
             ("Model violation in the " ++ quoted "org.acme.sample.SampleAsset#1"
                ++ " instance. The field " ++ quoted "doubleValue"
                ++ " has a value of " ++ quoted "NaN" ++ "."))
  /\ exists json fields,
       toJSON managerSample baseDefaultOptions (sampleAssetWith (Finite 314 (-2))) None
       = ret json
       /\ json = JObject fields
       /\ lookupEntry "doubleValue" fields = Some (JNumber (Finite 314 (-2))).
Proof.
  assert (getType managerSample "org.acme.sample.SampleAsset"
          = ret (Declaration sampleAssetDeclaration)) as Htype
    by (vm_compute; reflexivity).
  assert (JsValue_truthy (effectiveOptions baseDefaultOptions None !! "validate") = true)
    as Hvalidate by (vm_compute; reflexivity).
  assert (field "doubleValue" "Double"
          ∈ ClassDeclaration_getProperties managerSample sampleAssetDeclaration) as Hin.
  { apply list_elem_of_In. vm_compute. do 3 right. left. reflexivity. }
  split; [|
    destruct (proj2 (toJSON_rejects_non_finite managerSample baseDefaultOptions None
                       "org.acme.sample.SampleAsset" (Some "1") None
                       [("assetId", VString "1"); aliceOwner;
                        ("stringValue", VString "the value");
                        ("doubleValue", VNumber (Finite 314 (-2)))]
                       sampleAssetDeclaration (field "doubleValue" "Double")
                       (Finite 314 (-2))
                       Htype Hvalidate Hin eq_refl eq_refl eq_refl eq_refl)
                    eq_refl) as (_ & _ & Hmember & Hreturns);
    destruct Hreturns as [json Hjson];
      [vm_compute; reflexivity | repeat constructor |];
    destruct (Hmember json Hjson) as (_ & _ & _ & fields & Hfields & Hlookup);
    exists json, fields; split; [exact Hjson | split; [exact Hfields | exact Hlookup]]].
  refine (proj2 (proj1 (toJSON_rejects_non_finite managerSample baseDefaultOptions None
                          "org.acme.sample.SampleAsset" (Some "1") None
                          [("assetId", VString "1"); aliceOwner;
                           ("stringValue", VString "the value");
                           ("doubleValue", VNumber NaN)]
                          sampleAssetDeclaration (field "doubleValue" "Double") NaN
                          Htype Hvalidate Hin eq_refl eq_refl eq_refl eq_refl)
                   eq_refl)
                [field "assetId" "String"; relationship "owner" "SampleParticipant";
                 field "stringValue" "String"]
                [field "$identifier" "String"]
                _ _ _).
  - vm_compute. reflexivity.
  - repeat constructor.
  - vm_compute. reflexivity.
Defined.

(** The asset [a.ab] derives from itself. *)
Lemma derivesFrom_iff_super_type_witness :
  exists fuel, derivesFrom managerShort fuel "a.ab" "a.ab" = Some (ret true).
Proof.
  assert (getType managerShort "a.ab" = ret (Declaration abDeclaration)) as Htype
    by (vm_compute; reflexivity).
  exact (proj1 (proj2 (derivesFrom_iff_super_type managerShort "a.ab" "a.ab"
                         abDeclaration Htype eq_refl))).
Defined.

(** Scenario S6: the required field of type [MyAsset] inside [MyAsset]. *)
Lemma visitField_on_recursion_witness :
  visitField (fun _ _ => None) (managerRecursive false false)
             (testParameters ValueGenerator_sample false) (myAsset false false)
             (theValues false false)
  = Some (throw (RecursionError "Model is recursive.")).
Proof.
  assert (Property_getFullyQualifiedTypeName (managerRecursive false false)
            (myAsset false false) (theValues false false)
          = ret "org.acme.test.MyAsset") as Hname by (vm_compute; reflexivity).
  assert (getType (managerRecursive false false) "org.acme.test.MyAsset"
          = ret (Declaration (myAsset false false))) as Htype
    by (vm_compute; reflexivity).
  assert (p_kind (theValues false false) <> Relationship) as Hkind by discriminate.
  assert (cd_kind (myAsset false false) <> EnumDeclaration) as Henum
    by (vm_compute; discriminate).
  assert (findConcreteSubclass (managerRecursive false false) (myAsset false false)
          = ret (myAsset false false)) as Hconcrete by (vm_compute; reflexivity).
  assert (In (ClassDeclaration_getFullyQualifiedName (myAsset false false))
             (gp_seen (testParameters ValueGenerator_sample false))) as Hseen.
  { left. vm_compute. reflexivity. }
  exact (proj1 (proj2 (proj2 (visitField_on_recursion (fun _ _ => None)
                                (managerRecursive false false)
                                (testParameters ValueGenerator_sample false)
                                (myAsset false false) (theValues false false)
                                "org.acme.test.MyAsset" (myAsset false false)
                                (myAsset false false)
                                eq_refl Hkind Hname Htype Henum Hconcrete Hseen)))
               eq_refl eq_refl).
Defined.

(** Adding [org.b] to the fresh manager and deleting it again. *)
Lemma add_then_delete_restores_witness :
  addModelFile freshManager fileB false
  = (ret fileB, setModelFile freshManager "org.b" fileB)
  /\ deleteModelFile (setModelFile freshManager "org.b" fileB) "org.b"
     = (ret tt, freshManager).
Proof.
  assert (addModelFile freshManager fileB false
          = (ret fileB, setModelFile freshManager "org.b" fileB)) as Hadd
    by (vm_compute; reflexivity).
  split; [exact Hadd|].
  exact (proj1 (proj1 (add_then_delete_restores freshManager fileB false)
                  (setModelFile freshManager "org.b" fileB) Hadd)).
Defined.

(** A pattern with an unterminated group, and one that compiles. *)
Lemma StringValidator_reports_witness :
  newStringValidator (field "theValue" "String")
                     {| va_pattern := "(foo"; va_flags := None |}
  = throw (Validator_reportError (field "theValue" "String")
             (Some "Invalid regular expression: /(foo/: Unterminated group") None)
  /\ newStringValidator (field "theValue" "String")
                        {| va_pattern := "foo"; va_flags := None |}
     = ret {| sv_field := field "theValue" "String";
              sv_validator := {| va_pattern := "foo"; va_flags := None |};
              sv_regex := "foo" |}.
Proof.
  split.
  - exact (proj1 (StringValidator_reports (field "theValue" "String")
                    {| va_pattern := "(foo"; va_flags := None |}
                    {| sv_field := field "theValue" "String";
                       sv_validator := {| va_pattern := "foo"; va_flags := None |};
                       sv_regex := "foo" |}
                    None JsNull)
                 (Error "Invalid regular expression: /(foo/: Unterminated group") eq_refl).
  - exact (proj1 (proj2 (StringValidator_reports (field "theValue" "String")
                           {| va_pattern := "foo"; va_flags := None |}
                           {| sv_field := field "theValue" "String";
                              sv_validator := {| va_pattern := "foo"; va_flags := None |};
                              sv_regex := "foo" |}
                           None JsNull))
                 "foo" eq_refl).
Defined.

(** C10, the claim as stated fails: [deleteModelFile('concerto')] is not
    refused, and after it [getNamespaces()] has no [concerto]. *)
Lemma getNamespaces_without_concerto :
  ~ (forall m : ModelManager, reachable m -> "concerto" ∈ getNamespaces m).
Proof.
  intros Hclaim.
  assert (reachable (deleteModelFile freshManager "concerto").2) as Hreach.
  { apply reach_deleteModelFile, reach_new. vm_compute. reflexivity. }
  apply Hclaim in Hreach.
  assert (getNamespaces (deleteModelFile freshManager "concerto").2 = []) as Hempty
    by (vm_compute; reflexivity).
  rewrite Hempty in Hreach. by apply elem_of_nil in Hreach.
Qed.

(** The constructor leaves [concerto] registered. *)
Lemma root_model_views_witness : "concerto" ∈ getNamespaces freshManager.
Proof.
  assert (newModelManager = (ret tt, freshManager)) as Hnew by (vm_compute; reflexivity).
  exact (proj1 (proj2 (proj2 (proj2 (proj2 (proj2 root_model_views))))) freshManager Hnew).
Defined.

(** C8, the failing input: [deleteModelFile('constructor')] on the
    manager as its constructor leaves it.  The only registered namespace
    is [concerto], yet the call returns, where the namespace [org.b],
    just as absent, is refused: [this.modelFiles['constructor']] reads
    the member that every object inherits, which is truthy.  By the same
    read [addModelFile] takes a model file of the namespace
    [constructor] for already declared and dies with a [TypeError] when
    it asks the inherited member for its file name. *)
Theorem deleteModelFile_accepts_inherited_name :
  getNamespaces freshManager = ["concerto"]
  /\ deleteModelFile freshManager "constructor" = (ret tt, freshManager)
  /\ deleteModelFile freshManager "org.b"
     = (throw (Error "Model file does not exist"), freshManager)
  /\ ModelFile_getNamespace fileConstructor = "constructor"
  /\ addModelFile freshManager fileConstructor true
     = (throw (TypeError
                 "this.modelFiles[modelFile.getNamespace(...)].getName is not a function"),
        freshManager).
Proof. repeat split; vm_compute; reflexivity. Qed.

(** C9, the failing input: the validator of [regex=/foo/g].  The
    constructor builds it with the compiled global expression.  The value
    [foo], which the expression matches, passes a first [validate]; the
    second [validate] of the same value on the same validator raises,
    because [test] of a global expression starts at the [lastIndex] that
    the first call left behind. *)
Theorem StringValidator_validate_reads_lastIndex :
  newStringValidator (H := hostRegExpCollaborators) (field "theValue" "String")
    validatorFooGlobal
  = ret (stringValidatorFoo 0)
  /\ host_matches (sv_regex (stringValidatorFoo 0)) (JsString "foo") = true
  /\ StringValidator_validate (stringValidatorFoo 0) (Some "id1") (JsString "foo")
     = (ret tt, stringValidatorFoo 3)
  /\ host_matches (sv_regex (stringValidatorFoo 3)) (JsString "foo") = true
  /\ StringValidator_validate (stringValidatorFoo 3) (Some "id2") (JsString "foo")
     = (throw (sample_reportError (field "theValue" "String") (Some "id2")
                 (Some "Value 'foo' failed to match validation regex: /foo/g")),
        stringValidatorFoo 0).
Proof. repeat split; vm_compute; reflexivity. Qed.

(** The model file [org.d], which imports [constructor.T], in a manager
    that has no namespace [constructor]: the read of
    [this.modelFiles['constructor']] finds the inherited member, and the
    calls of [getLocalType], [isLocalType] and [getType] on it die. *)
Example inherited_namespace_is_not_a_model_file :
  getModelFile freshManager "constructor" = SlotInherited
  /\ ModelFile_getType freshManager fileImportingConstructor "T"
     = throw (TypeError "modelFile.getLocalType is not a function")
  /\ ModelFile_validate freshManager fileImportingConstructor
     = throw (TypeError "modelFile.isLocalType is not a function")
  /\ ModelFile_resolveType freshManager fileImportingConstructor "org.d" "T"
     = throw (TypeError "modelFile.isLocalType is not a function")
  /\ getType freshManager "constructor.T"
     = throw (TypeError "modelFile.getType is not a function").
Proof. repeat split; vm_compute; reflexivity. Qed.

(** C5, the failing input: the file of namespace [a] declares the asset
    [ab]; the manager finds the declaration under [a.ab], and
    [getLocalType('ab')] of the file, which takes the short name for a
    qualified one because it starts with the text of the namespace,
    returns null. *)
Theorem getLocalType_misses_prefixed_short_name :
  modelFiles managerShort !! "a" = Some fileShort
  /\ mf_declarations fileShort = [abDeclaration]
  /\ ClassDeclaration_getName abDeclaration = "ab"
  /\ getType managerShort ("a" ++ "." ++ "ab") = ret (Declaration abDeclaration)
  /\ ModelFile_getLocalType fileShort "ab" = None.
Proof. repeat split; vm_compute; reflexivity. Qed.


(** Scenario S1: the round-trip asset serializes to the canonical JSON. *)
Example toJSON_sample_asset :
  toJSON managerSample baseDefaultOptions (sampleAssetWith (Finite 314 (-2)))
         (Some {[ "validate" := JsBoolean true ]})
  = ret (JObject
           [ ("$class", JString "org.acme.sample.SampleAsset");
             ("$identifier", JString "1");
             ("assetId", JString "1");
             ("owner", JString "resource:org.acme.sample.SampleParticipant#alice@email.com");
             ("stringValue", JString "the value");
             ("doubleValue", JNumber (Finite 314 (-2))) ]).
Proof. vm_compute. reflexivity. Qed.

(** Scenario S2 with [validate=false], by the call or by the default
    options, and the call that puts validation back. *)
Example toJSON_without_validation :
  toJSON managerSample baseDefaultOptions (sampleAsset [])
         (Some {[ "validate" := JsBoolean false ]})
  = ret (JObject
           [ ("$class", JString "org.acme.sample.SampleAsset");
             ("$identifier", JString "1");
             ("assetId", JString "1") ])
  /\ toJSON managerSample (setDefaultOptions {[ "validate" := JsBoolean false ]})
            (sampleAsset []) None
     = ret (JObject
              [ ("$class", JString "org.acme.sample.SampleAsset");
                ("$identifier", JString "1");
                ("assetId", JString "1") ])
  /\ is_ok (toJSON managerSample (setDefaultOptions {[ "validate" := JsBoolean false ]})
              (sampleAsset []) (Some {[ "validate" := JsBoolean true ]}))
     = false.
Proof. repeat split; vm_compute; reflexivity. Qed.

(** Scenario S3 for the two infinities. *)
Example toJSON_infinities :
  toJSON managerSample baseDefaultOptions (sampleAssetWith PositiveInfinity) None
  = throw (ModelViolation
             ("Model violation in the " ++ quoted "org.acme.sample.SampleAsset#1"
                ++ " instance. The field " ++ quoted "doubleValue"
                ++ " has a value of " ++ quoted "Infinity" ++ "."))
  /\ toJSON managerSample baseDefaultOptions (sampleAssetWith NegativeInfinity) None
     = throw (ModelViolation
                ("Model violation in the " ++ quoted "org.acme.sample.SampleAsset#1"
                   ++ " instance. The field " ++ quoted "doubleValue"
                   ++ " has a value of " ++ quoted "-Infinity" ++ ".")).
Proof. split; vm_compute; reflexivity. Qed.

(** Scenario S6: the sample generator on an asset with a field of its
    own type, required, optional and array. *)
Example generate_recursive_asset :
  InstanceGenerator_generate 4 (managerRecursive false false) ValueGenerator_sample false
    (myAsset false false) (Some "asset1") [("assetId", VString "asset1")]
  = Some (throw (RecursionError "Model is recursive."))
  /\ InstanceGenerator_generate 4 (managerRecursive false true) ValueGenerator_sample true
       (myAsset false true) (Some "asset1") [("assetId", VString "asset1")]
     = Some (ret (VResource "org.acme.test.MyAsset" (Some "asset1") None
                    [("assetId", VString "asset1"); ("theValues", VNull)]))
  /\ InstanceGenerator_generate 4 (managerRecursive true false) ValueGenerator_sample false
       (myAsset true false) (Some "asset1") [("assetId", VString "asset1")]
     = Some (ret (VResource "org.acme.test.MyAsset" (Some "asset1") None
                    [("assetId", VString "asset1"); ("theValues", VArray [])])).
Proof. repeat split; vm_compute; reflexivity. Qed.

(** The string validator of the literal engine at work: [null] passes, a
    value that holds the pattern passes, another one is reported. *)
Example validate_with_literal_engine :
  let sv := {| sv_field := field "theValue" "String";
               sv_validator := {| va_pattern := "foo"; va_flags := None |};
               sv_regex := "foo" |} in
  (StringValidator_validate sv (Some "id1") JsNull).1 = ret tt
  /\ (StringValidator_validate sv (Some "id1") (JsString "a foo b")).1 = ret tt
  /\ is_ok (StringValidator_validate sv (Some "id1") (JsString "bar")).1 = false.
Proof. repeat split. Qed.

(** * Further properties of the registry *)

Section RegistryInvariants.

Context `{Collaborators}.

Implicit Types (m : ModelManager) (f : ModelFile).

Lemma keyedByNamespace_set m f :
  keyedByNamespace m -> keyedByNamespace (setModelFile m (ModelFile_getNamespace f) f).
Proof.
  intros Hkeyed namespace g. simpl.
  destruct (decide (ModelFile_getNamespace f = namespace)) as [<-|Hne].
  - rewrite lookup_insert_eq. by intros [= <-].
  - rewrite lookup_insert_ne; [apply Hkeyed | done].
Qed.

Lemma keyedByNamespace_addModelFile m f disableValidation :
  keyedByNamespace m -> keyedByNamespace (addModelFile m f disableValidation).2.
Proof.
  intros Hkeyed.
  destruct (addModelFile m f disableValidation) as [[e|r] m'] eqn:Hadd; simpl.
  - by rewrite (addModelFile_inl _ _ _ _ _ Hadd).
  - apply addModelFile_inr in Hadd as (_ & _ & ->). by apply keyedByNamespace_set.
Qed.

Lemma keyedByNamespace_loop inputs fileNames :
  forall m n, keyedByNamespace m ->
              keyedByNamespace (addModelFiles_loop m inputs fileNames n).2.
Proof.
  induction inputs as [|input rest IH]; intros m n Hkeyed; simpl; [done|].
  destruct (match input with
            | CtoText text => _
            | FileObject mf => ret mf
            end) as [e|mf]; [done|].
  destruct (getModelFile m (ModelFile_getNamespace mf)); [done|done|].
  specialize (IH (setModelFile m (ModelFile_getNamespace mf) mf) (S n)
                 (keyedByNamespace_set _ _ Hkeyed)).
  by destruct (addModelFiles_loop _ rest fileNames (S n)).
Qed.

Lemma keyedByNamespace_addModelFiles m inputs fileNames disableValidation :
  keyedByNamespace m ->
  keyedByNamespace (addModelFiles m inputs fileNames disableValidation).2.
Proof.
  intros Hkeyed.
  destruct (addModelFiles m inputs fileNames disableValidation) as [[e|added] m'] eqn:Hadd;
    simpl.
  - by rewrite (addModelFiles_inl _ _ _ _ _ _ Hadd).
  - apply addModelFiles_inr in Hadd as (Hloop & _).
    pose proof (keyedByNamespace_loop inputs fileNames m 0 Hkeyed) as Hkept.
    by rewrite Hloop in Hkept.
Qed.

(** The outcomes of [updateModelFile]: the state is left alone, or the
    file is assigned under its namespace, where the read found a file or
    an inherited member. *)
Lemma updateModelFile_cases m input fileName disableValidation :
  (exists e, updateModelFile m input fileName disableValidation = (inl e, m))
  \/ exists g, getModelFile m (ModelFile_getNamespace g) <> SlotUndefined
               /\ updateModelFile m input fileName disableValidation
                  = (ret g, setModelFile m (ModelFile_getNamespace g) g).
Proof.
  assert (forall g,
    let outcome : result ModelFile * ModelManager :=
      match getModelFile m (ModelFile_getNamespace g) with
      | SlotUndefined =>
          (throw (Error ("Model file for namespace " ++ ModelFile_getNamespace g
                           ++ " not found")), m)
      | SlotOwn _ | SlotInherited =>
          if negb disableValidation then
            match ModelFile_validate m g with
            | inl e => (inl e, m)
            | inr _ => (ret g, setModelFile m (ModelFile_getNamespace g) g)
            end
          else (ret g, setModelFile m (ModelFile_getNamespace g) g)
      end in
    (exists e, outcome = (inl e, m))
    \/ exists g', getModelFile m (ModelFile_getNamespace g') <> SlotUndefined
                  /\ outcome = (ret g', setModelFile m (ModelFile_getNamespace g') g'))
    as Hupdate.
  { intros g. simpl.
    destruct (getModelFile m (ModelFile_getNamespace g)) as [old| |] eqn:Hold;
      [| |left; by eexists];
      (destruct (negb disableValidation);
       [destruct (ModelFile_validate m g); [left; by eexists|]|]);
      right; exists g; by rewrite Hold. }
  unfold updateModelFile. destruct input as [text|g]; [|apply Hupdate].
  destruct (processAndBuild fileName text) as [e|g]; [left; by eexists | apply Hupdate].
Qed.

Lemma keyedByNamespace_updateModelFile m input fileName disableValidation :
  keyedByNamespace m ->
  keyedByNamespace (updateModelFile m input fileName disableValidation).2.
Proof.
  intros Hkeyed.
  destruct (updateModelFile_cases m input fileName disableValidation)
    as [[e ->]|(g & _ & ->)]; [done|].
  by apply keyedByNamespace_set.
Qed.

Lemma keyedByNamespace_deleteModelFile m namespace :
  keyedByNamespace m -> keyedByNamespace (deleteModelFile m namespace).2.
Proof.
  intros Hkeyed. unfold deleteModelFile.
  destruct (getModelFile m namespace); simpl; [| |done];
    intros k g Hg; simpl in Hg; apply lookup_delete_Some in Hg as [_ Hg];
    by apply Hkeyed.
Qed.

Lemma keyedByNamespace_addRootModel :
  keyedByNamespace (addRootModel {| modelFiles := ∅ |}).2.
Proof.
  unfold addRootModel.
  destruct (newModelFile rootModelAst rootModelCto rootModelFile) as [e|rootFile];
    simpl.
  - intros k g Hg. simpl in Hg. by rewrite lookup_empty in Hg.
  - apply keyedByNamespace_addModelFile. intros k g Hg. simpl in Hg.
    by rewrite lookup_empty in Hg.
Qed.

(** X1. In every state that a manager goes through, each model file is
    registered under its own namespace: no method installs a file under
    another key. *)
Theorem reachable_keyedByNamespace m :
  reachable m -> keyedByNamespace m.
Proof.
  induction 1 as [m Hnew|m g dv _ IH|m inputs names dv _ IH|m input name dv _ IH
                 |m namespace _ IH|m _ IH].
  - unfold newModelManager in Hnew.
    pose proof keyedByNamespace_addRootModel as Hroot.
    destruct (addRootModel {| modelFiles := ∅ |}) as [r m0].
    injection Hnew as _ <-. exact Hroot.
  - by apply keyedByNamespace_addModelFile.
  - by apply keyedByNamespace_addModelFiles.
  - by apply keyedByNamespace_updateModelFile.
  - by apply keyedByNamespace_deleteModelFile.
  - unfold clearModelFiles.
    pose proof keyedByNamespace_addRootModel as Hroot.
    by destruct (addRootModel {| modelFiles := ∅ |}) as [r m0].
Qed.

(** X2. [updateModelFile] and the set of registered namespaces.  However
    a call ends, no namespace is lost.  A call that raises changes
    nothing.  A call that returns has found a file or an inherited member
    under the namespace of the file it returns: where a file was
    registered, the returned file has taken its place and the set of
    namespaces is the same; where only an inherited member was found (the
    namespace is [constructor], say), the file is registered as a new
    namespace (for every such name but [__proto__], under which the host
    assigns the prototype). *)
Theorem updateModelFile_keeps_namespaces m input fileName disableValidation :
  dom (modelFiles m)
  ⊆ dom (modelFiles (updateModelFile m input fileName disableValidation).2)
  /\ (forall e m',
         updateModelFile m input fileName disableValidation = (inl e, m') -> m' = m)
  /\ (forall g m',
         updateModelFile m input fileName disableValidation = (ret g, m') ->
         match modelFiles m !! ModelFile_getNamespace g with
         | Some old =>
             modelFiles m' = <[ModelFile_getNamespace g := g]> (modelFiles m)
             /\ dom (modelFiles m') = dom (modelFiles m)
         | None =>
             inheritedName (ModelFile_getNamespace g) = true
             /\ (ModelFile_getNamespace g <> "__proto__" ->
                 modelFiles m' = <[ModelFile_getNamespace g := g]> (modelFiles m)
                 /\ dom (modelFiles m')
                    = {[ ModelFile_getNamespace g ]} ∪ dom (modelFiles m))
         end).
Proof.
  destruct (updateModelFile_cases m input fileName disableValidation)
    as [[e Hraised]|(g & Hfound & Hupdate)].
  - rewrite Hraised. simpl. split; [done|]. split; [by intros e' m' [= _ <-]|].
    by intros g m' [= ].
  - rewrite Hupdate. simpl. split; [|split].
    + rewrite dom_insert_L. set_solver.
    + by intros e m' [= ].
    + intros g' m' [= <- <-]. simpl.
      destruct (modelFiles m !! ModelFile_getNamespace g) as [old|] eqn:Hold.
      * split; [done|]. rewrite dom_insert_L.
        by apply subseteq_union_1_L, singleton_subseteq_l, elem_of_dom.
      * split.
        -- destruct (inheritedName (ModelFile_getNamespace g)) eqn:Hinherited; [done|].
           destruct Hfound. by apply getModelFile_SlotUndefined.
        -- intros _. split; [done|]. by rewrite dom_insert_L.
Qed.

(** X3. [addModelFile] only ever extends the registry: whatever it is
    given and however it ends, every file that was registered is still
    registered under its namespace afterwards; a registered file is
    never replaced. *)
Theorem addModelFile_extends m f disableValidation :
  modelFiles m ⊆ modelFiles (addModelFile m f disableValidation).2.
Proof.
  destruct (addModelFile m f disableValidation) as [[e|r] m'] eqn:Hadd; simpl.
  - by rewrite (addModelFile_inl _ _ _ _ _ Hadd).
  - apply addModelFile_inr in Hadd as (Hfree & _ & ->). simpl.
    by apply insert_subseteq.
Qed.


End RegistryInvariants.

(** * Further properties of ModelFile *)

Section ModelFileProperties.

Context `{Collaborators}.

Implicit Types (m : ModelManager) (f : ModelFile) (d : ClassDeclaration).

Lemma splitLastDot_qualified (namespace name : string) :
  splitLastDot (namespace ++ "." ++ name) <> None.
Proof.
  induction namespace as [|c namespace IH]; simpl.
  - by destruct (splitLastDot _) as [[? ?]|].
  - by destruct (splitLastDot _) as [[? ?]|].
Qed.

(** A qualified name is not the name of a primitive. *)
Lemma isPrimitiveType_qualified (namespace name : string) :
  isPrimitiveType (namespace ++ "." ++ name) = false.
Proof.
  destruct (isPrimitiveType (namespace ++ "." ++ name)) eqn:Hprimitive; [|done].
  pose proof (splitLastDot_qualified namespace name) as Hdot.
  unfold isPrimitiveType in Hprimitive. apply existsb_exists in Hprimitive as (p & Hin & Heq).
  apply String.eqb_eq in Heq. rewrite Heq in Hdot.
  simpl in Hin. by repeat (destruct Hin as [<-|Hin]; [by destruct Hdot|]).
Qed.

Lemma mapM_Forall2 {A B : Type} (g : A -> result B) (l : list A) (l' : list B) :
  mapM g l = inr l' -> Forall2 (fun a b => g a = inr b) l l'.
Proof.
  revert l'. induction l as [|a l IH]; intros l'; simpl.
  - intros [= <-]. constructor.
  - destruct (g a) as [e|b] eqn:Ha; simpl; [discriminate|].
    destruct (mapM g l) as [e|bs]; simpl; [discriminate|].
    intros [= <-]. constructor; [exact Ha | by apply IH].
Qed.

Lemma forEach_app {A : Type} (g : A -> result unit) (l k : list A) :
  forEach g (l ++ k)%list = (letr _u := forEach g l in forEach g k).
Proof.
  induction l as [|a l IH]; simpl; [done|].
  destruct (g a) as [e|[]]; simpl; [done | exact IH].
Qed.

(** What the constructor makes of its arguments. *)
Lemma newModelFile_inr ast definitions fileName f :
  newModelFile ast definitions fileName = inr f ->
  exists declarations,
    fromAst_declarations ast = inr declarations
    /\ mf_namespace f = ast_namespace ast
    /\ mf_declarations f = declarations
    /\ mf_localTypes f = buildLocalTypes (ast_namespace ast) declarations
    /\ mf_imports f = fromAst_imports ast
    /\ mf_importShortNames f = fromAst_importShortNames (fromAst_imports ast)
    /\ mf_importWildcardNamespaces f
       = fromAst_importWildcardNamespaces (fromAst_imports ast)
    /\ mf_importUriMap f = fromAst_importUriMap (fromAst_imports ast)
    /\ mf_ast f = ast.
Proof.
  unfold newModelFile.
  destruct (fromAst_declarations ast) as [e|declarations]; simpl; [discriminate|].
  destruct (isCompatibleVersion ast) as [e|version]; simpl; [discriminate|].
  intros [= <-]. exists declarations. simpl. repeat split.
Qed.

Lemma fromAst_importShortNames_app (imports more : list Import) :
  fromAst_importShortNames (imports ++ more)
  = foldl (fun acc imp =>
             match imp with
             | ImportAll _ _ => acc
             | ImportType _ name _ => <[name := importFullyQualifiedName imp]> acc
             end) (fromAst_importShortNames imports) more.
Proof. unfold fromAst_importShortNames. apply foldl_app. Qed.

(** X5. In every model file that the constructor builds for a namespace
    other than [concerto], the names [Concept], [Asset], [Transaction],
    [Participant] and [Event] are named imports of the root model,
    whatever the file imports or declares itself: they are imported
    types, they resolve to [concerto.<name>], and [getType] gives the
    declaration of the root model (null when there is none). *)
Theorem root_types_always_imported ast definitions fileName f name :
  newModelFile ast definitions fileName = inr f ->
  ast_namespace ast <> "concerto" ->
  In name ["Concept"; "Asset"; "Transaction"; "Participant"; "Event"] ->
  mf_importShortNames f !! name = Some ("concerto." ++ name)
  /\ forall m,
       ModelFile_isImportedType m f name = ret true
       /\ ModelFile_resolveImport m f name = ret ("concerto." ++ name)
       /\ ModelFile_getType m f name
          = ret (match modelFiles m !! "concerto" with
                 | Some rootFile =>
                     Declaration <$> ModelFile_getLocalType rootFile ("concerto." ++ name)
                 | None => None
                 end).
Proof.
  intros (ds & _ & _ & _ & _ & _ & Hnames & _)%newModelFile_inr Hroot Hin.
  assert (mf_importShortNames f !! name = Some ("concerto." ++ name)) as Hnamed.
  { rewrite Hnames. unfold fromAst_imports.
    apply String.eqb_neq in Hroot. rewrite Hroot. simpl.
    rewrite fromAst_importShortNames_app. simpl.
    simpl in Hin.
    repeat (destruct Hin as [<-|Hin]; [by simplify_map_eq|]). done. }
  split; [exact Hnamed|]. intros m.
  assert (ModelFile_isImportedType m f name = ret true) as Himported.
  { unfold ModelFile_isImportedType. rewrite bool_decide_eq_true_2; [done | by eexists]. }
  assert (ModelFile_resolveImport m f name = ret ("concerto." ++ name)) as Hresolve.
  { unfold ModelFile_resolveImport. by rewrite Hnamed. }
  split; [exact Himported|]. split; [exact Hresolve|].
  assert (isPrimitiveType name = false) as Hprimitive.
  { simpl in Hin. by repeat (destruct Hin as [<-|Hin]; [done|]). }
  assert (getNamespace ("concerto." ++ name) = "concerto") as Hnamespace.
  { simpl in Hin. by repeat (destruct Hin as [<-|Hin]; [done|]). }
  unfold ModelFile_getType. rewrite Hprimitive, Himported. simpl.
  rewrite Hresolve. simpl. rewrite Hnamespace.
  unfold getModelFile, readObject. by destruct (modelFiles m !! "concerto").
Qed.

(** An exception of an import check is an illegal model, or the
    [TypeError] of a named import whose namespace reads as an inherited
    member. *)
Lemma validateImport_raises m imp e :
  validateImport m imp = inl e ->
  (exists message, e = IllegalModelException message)
  \/ (exists message, e = TypeError message)
      /\ inheritedName (imp_namespace imp) = true
      /\ exists namespace name uri, imp = ImportType namespace name uri.
Proof.
  unfold validateImport.
  destruct (getModelFile m (imp_namespace imp)) as [g| |] eqn:Hread.
  - destruct imp as [ns u|ns name u]; [discriminate|].
    destruct (negb (ModelFile_isLocalType g name)); [|discriminate].
    intros [= <-]. left. by eexists.
  - apply getModelFile_SlotInherited in Hread as [_ Hinherited].
    destruct imp as [ns u|ns name u]; [discriminate|].
    intros [= <-]. right. split; [by eexists|]. split; [done|]. by eexists _, _, _.
  - intros [= <-]. left. by eexists.
Qed.

Lemma forEach_validateImport_raises m imports e :
  forEach (validateImport m) imports = inl e ->
  (exists message, e = IllegalModelException message)
  \/ (exists message, e = TypeError message)
      /\ exists namespace name uri,
           In (ImportType namespace name uri) imports /\ inheritedName namespace = true.
Proof.
  induction imports as [|imp imports IH]; simpl; [discriminate|].
  destruct (validateImport m imp) as [e'|[]] eqn:Himp; simpl.
  - intros [= <-].
    apply validateImport_raises in Himp
      as [Hillegal|(Htype & Hinherited & namespace & name & uri & ->)]; [by left|].
    right. split; [done|]. exists namespace, name, uri. by split; [left|].
  - intros [Hillegal|(Htype & namespace & name & uri & Hin & Hinherited)]%IH; [by left|].
    right. split; [done|]. exists namespace, name, uri. by split; [right|].
Qed.

(** X6. A model file that the constructor built for a namespace other
    than [concerto] does not validate in a manager that has no root
    model, whatever the file holds, because of the imports of the root
    types that the constructor added: [validate] raises
    [IllegalModelException], or the [TypeError] of a named import of the
    AST whose namespace is the name of a member that objects inherit (an
    import of [constructor.T], say), which is checked before the root
    imports. *)
Theorem validate_needs_root_model m ast definitions fileName f :
  newModelFile ast definitions fileName = inr f ->
  ast_namespace ast <> "concerto" ->
  modelFiles m !! "concerto" = None ->
  exists e,
    ModelFile_validate m f = throw e
    /\ ((exists message, e = IllegalModelException message)
        \/ (exists message, e = TypeError message)
            /\ exists namespace name uri,
                 In (ImportType namespace name uri) (default [] (ast_imports ast))
                 /\ inheritedName namespace = true).
Proof.
  intros (ds & _ & _ & _ & _ & Himports & _)%newModelFile_inr Hroot Hnone.
  unfold ModelFile_validate. rewrite Himports. unfold fromAst_imports.
  apply String.eqb_neq in Hroot. rewrite Hroot. simpl. rewrite forEach_app.
  destruct (forEach (validateImport m) _) as [e|[]] eqn:Huser; simpl.
  - exists e. split; [done|].
    apply forEach_validateImport_raises in Huser as [Hillegal|[Htype Himport]];
      [by left|]. right. split; [done|]. by destruct (ast_imports ast).
  - unfold validateImport at 1. simpl.
    rewrite (proj2 (getModelFile_SlotUndefined m "concerto") (conj Hnone eq_refl)).
    simpl. eexists. split; [done|]. left. by eexists.
Qed.

(** What [fromAst] makes of a declaration of the AST: a declaration of
    the namespace of the file, with the name of the AST, the kind of its
    class and its super type or, when the AST names none, the root type
    of the kind. *)
Lemma fromAst_declaration_inr namespace thing d :
  fromAst_declaration namespace thing = inr d ->
  cd_namespace d = namespace
  /\ cd_name d = da_name thing
  /\ cd_superType d
     = match da_superType thing with
       | Some superType => Some superType
       | None =>
           match cd_kind d with
           | AssetDeclaration => Some "Asset"
           | TransactionDeclaration => Some "Transaction"
           | EventDeclaration => Some "Event"
           | ParticipantDeclaration => Some "Participant"
           | EnumDeclaration | ConceptDeclaration => None
           end
       end
  /\ match cd_kind d with
     | AssetDeclaration => da_class thing = "concerto.metamodel.AssetDeclaration"
     | TransactionDeclaration => da_class thing = "concerto.metamodel.TransactionDeclaration"
     | EventDeclaration => da_class thing = "concerto.metamodel.EventDeclaration"
     | ParticipantDeclaration => da_class thing = "concerto.metamodel.ParticipantDeclaration"
     | EnumDeclaration => da_class thing = "concerto.metamodel.EnumDeclaration"
     | ConceptDeclaration => da_class thing = "concerto.metamodel.ConceptDeclaration"
     end.
Proof.
  unfold fromAst_declaration.
  assert (forall name,
             da_superType (withDefaultSuperType name thing)
             = match da_superType thing with
               | Some superType => Some superType
               | None => Some name
               end) as Hsuper.
  { intros name. unfold withDefaultSuperType.
    by destruct (da_superType thing) eqn:Hthing; simpl; [rewrite Hthing|]. }
  assert (forall name, da_name (withDefaultSuperType name thing) = da_name thing) as Hname.
  { intros name. unfold withDefaultSuperType. by destruct (da_superType thing). }
  destruct (String.eqb (da_class thing) "concerto.metamodel.AssetDeclaration") eqn:Hasset.
  { apply String.eqb_eq in Hasset. intros [= <-]. simpl. by rewrite Hname, Hsuper. }
  destruct (String.eqb (da_class thing) "concerto.metamodel.TransactionDeclaration")
    eqn:Htransaction.
  { apply String.eqb_eq in Htransaction. intros [= <-]. simpl. by rewrite Hname, Hsuper. }
  destruct (String.eqb (da_class thing) "concerto.metamodel.EventDeclaration") eqn:Hevent.
  { apply String.eqb_eq in Hevent. intros [= <-]. simpl. by rewrite Hname, Hsuper. }
  destruct (String.eqb (da_class thing) "concerto.metamodel.ParticipantDeclaration")
    eqn:Hparticipant.
  { apply String.eqb_eq in Hparticipant. intros [= <-]. simpl. by rewrite Hname, Hsuper. }
  destruct (String.eqb (da_class thing) "concerto.metamodel.EnumDeclaration") eqn:Henum.
  { apply String.eqb_eq in Henum. intros [= <-]. simpl.
    by destruct (da_superType thing). }
  destruct (String.eqb (da_class thing) "concerto.metamodel.ConceptDeclaration")
    eqn:Hconcept.
  { apply String.eqb_eq in Hconcept. intros [= <-]. simpl.
    by destruct (da_superType thing). }
  intros Hthrow. inversion Hthrow.
Qed.

Lemma fromAst_declarations_inr ast declarations :
  fromAst_declarations ast = inr declarations ->
  Forall2 (fun thing d => fromAst_declaration (ast_namespace ast) thing = inr d)
          (default [] (ast_declarations ast)) declarations.
Proof.
  unfold fromAst_declarations. destruct (ast_declarations ast) as [things|]; simpl.
  - apply mapM_Forall2.
  - intros [= <-]. constructor.
Qed.

(** The constructor gives every declaration the namespace of the file. *)
Lemma fromAst_declarations_owned ast declarations :
  fromAst_declarations ast = inr declarations ->
  forall d, In d declarations -> cd_namespace d = ast_namespace ast.
Proof.
  intros Hbuilt%fromAst_declarations_inr.
  induction Hbuilt as [|thing d0 things ds Hd0 _ IH]; intros d Hin; [destruct Hin|].
  destruct Hin as [<-|Hin]; [|by apply IH].
  by apply fromAst_declaration_inr in Hd0 as (? & _).
Qed.

(** The keys of [localTypes] are the qualified names of declarations of
    the file. *)
Lemma buildLocalTypes_lookup namespace declarations key d :
  buildLocalTypes namespace declarations !! key = Some d ->
  In d declarations /\ key = namespace ++ "." ++ cd_name d.
Proof.
  unfold buildLocalTypes.
  assert (forall acc : gmap string ClassDeclaration,
    foldl (fun acc d => <[namespace ++ "." ++ ClassDeclaration_getName d := d]> acc)
          acc declarations !! key = Some d ->
    acc !! key = Some d
    \/ (In d declarations /\ key = namespace ++ "." ++ cd_name d)) as Hfold.
  { induction declarations as [|d0 ds IH]; intros acc; simpl; [by left|].
    intros [Hacc|[Hin ->]]%IH.
    - destruct (decide (namespace ++ "." ++ ClassDeclaration_getName d0 = key))
        as [<-|Hne].
      + rewrite lookup_insert_eq in Hacc. injection Hacc as <-. right. by split; [left|].
      + rewrite lookup_insert_ne in Hacc; [by left | done].
    - right. by split; [right|]. }
  intros [Hempty|Hfound]%Hfold; [by rewrite lookup_empty in Hempty | exact Hfound].
Qed.

(** Every declaration has an entry under its qualified name, which holds
    a declaration of that name (the last one when a name is declared more
    than once). *)
Lemma buildLocalTypes_declared namespace declarations d :
  In d declarations ->
  exists d', buildLocalTypes namespace declarations
               !! (namespace ++ "." ++ cd_name d) = Some d'
             /\ cd_name d' = cd_name d.
Proof.
  unfold buildLocalTypes.
  assert (forall (ds : list ClassDeclaration) (acc : gmap string ClassDeclaration),
    (exists d', acc !! (namespace ++ "." ++ cd_name d) = Some d' /\ cd_name d' = cd_name d) ->
    exists d', foldl (fun acc d => <[namespace ++ "." ++ ClassDeclaration_getName d := d]> acc)
                     acc ds !! (namespace ++ "." ++ cd_name d) = Some d'
               /\ cd_name d' = cd_name d) as Hkept.
  { induction ds as [|d0 ds IH]; intros acc Hacc; simpl; [exact Hacc|].
    apply IH. destruct Hacc as (d' & Hd' & Hname).
    destruct (decide (namespace ++ "." ++ ClassDeclaration_getName d0
                      = namespace ++ "." ++ cd_name d)) as [Heq|Hne].
    - exists d0. rewrite Heq, lookup_insert_eq. split; [done|].
      apply String.app_inj in Heq. apply String.app_inj in Heq. exact Heq.
    - exists d'. by rewrite lookup_insert_ne. }
  generalize (∅ : gmap string ClassDeclaration).
  induction declarations as [|d0 ds IH]; intros acc Hin; simpl; [destruct Hin|].
  destruct Hin as [->|Hin]; [|by apply IH].
  apply Hkept. exists d. by rewrite lookup_insert_eq.
Qed.

(** X7. In a model file that the constructor built, [getLocalType]
    returns only declarations of the file, and the declaration it returns
    has the qualified name that was looked up (the name itself when it
    starts with the text of the namespace, the name qualified with the
    namespace otherwise); and every declaration of the file is found
    under its fully qualified name by a declaration of that name. *)
Theorem getLocalType_returns_the_named_declaration ast definitions fileName f :
  newModelFile ast definitions fileName = inr f ->
  (forall type d,
      ModelFile_getLocalType f type = Some d ->
      In d (mf_declarations f)
      /\ ClassDeclaration_getFullyQualifiedName d
         = (if String.prefix (ModelFile_getNamespace f) type
            then type else ModelFile_getNamespace f ++ "." ++ type))
  /\ (forall d,
         In d (mf_declarations f) ->
         exists d',
           ModelFile_getLocalType f (ClassDeclaration_getFullyQualifiedName d) = Some d'
           /\ ClassDeclaration_getFullyQualifiedName d'
              = ClassDeclaration_getFullyQualifiedName d).
Proof.
  intros (ds & Hds & Hnamespace & Hdeclarations & Hlocal & _)%newModelFile_inr.
  pose proof (fromAst_declarations_owned _ _ Hds) as Howned.
  split.
  - intros type d. unfold ModelFile_getLocalType, ModelFile_getNamespace.
    rewrite Hlocal, Hnamespace, Hdeclarations.
    intros (Hin & Hkey)%buildLocalTypes_lookup. split; [exact Hin|].
    unfold ClassDeclaration_getFullyQualifiedName, getFullyQualifiedName.
    rewrite (Howned _ Hin), <- Hkey.
    by destruct (String.prefix (ast_namespace ast) type).
  - intros d Hin. rewrite Hdeclarations in Hin.
    destruct (buildLocalTypes_declared (ast_namespace ast) ds d Hin) as (d' & Hd' & Hname).
    exists d'. unfold ModelFile_getLocalType, ModelFile_getNamespace.
    unfold ClassDeclaration_getFullyQualifiedName, getFullyQualifiedName.
    rewrite Hlocal, Hnamespace, (Howned _ Hin), prefix_app. simpl.
    split; [exact Hd'|].
    apply buildLocalTypes_lookup in Hd' as (Hin' & _).
    by rewrite (Howned _ Hin'), Hname.
Qed.


(** The named imports map a short name to a name qualified with the
    namespace of the import. *)
Lemma fromAst_importShortNames_lookup imports name fqn :
  fromAst_importShortNames imports !! name = Some fqn ->
  exists namespace uri,
    In (ImportType namespace name uri) imports /\ fqn = namespace ++ "." ++ name.
Proof.
  unfold fromAst_importShortNames.
  assert (forall acc : gmap string string,
    foldl (fun acc imp =>
             match imp with
             | ImportAll _ _ => acc
             | ImportType _ name _ => <[name := importFullyQualifiedName imp]> acc
             end) acc imports !! name = Some fqn ->
    acc !! name = Some fqn
    \/ exists namespace uri,
         In (ImportType namespace name uri) imports /\ fqn = namespace ++ "." ++ name)
    as Hfold.
  { induction imports as [|imp imports IH]; intros acc; simpl; [by left|].
    intros [Hacc|(namespace & uri & Hin & ->)]%IH.
    - destruct imp as [ns u|ns short u]; [by left|].
      destruct (decide (short = name)) as [->|Hne].
      + rewrite lookup_insert_eq in Hacc. injection Hacc as <-. right.
        exists ns, u. by split; [left|].
      + rewrite lookup_insert_ne in Hacc; [by left | done].
    - right. exists namespace, uri. by split; [right|]. }
  intros [Hempty|Hfound]%Hfold; [by rewrite lookup_empty in Hempty | exact Hfound].
Qed.

(** An imported type always resolves, and in a file that the constructor
    built it resolves to a qualified name. *)
Lemma resolveImport_imported m f type :
  ModelFile_isImportedType m f type = ret true ->
  exists fqn, ModelFile_resolveImport m f type = ret fqn.
Proof.
  unfold ModelFile_isImportedType, ModelFile_resolveImport.
  destruct (mf_importShortNames f !! type) as [fqn|]; [by eexists|].
  rewrite bool_decide_eq_false_2; [|by intros [? ?]].
  destruct (findWildcard m type (mf_importWildcardNamespaces f)) as [e|[w|]]; simpl;
    [discriminate | by eexists | discriminate].
Qed.

Lemma resolveImport_qualified m ast definitions fileName f type fqn :
  newModelFile ast definitions fileName = inr f ->
  ModelFile_resolveImport m f type = ret fqn ->
  exists namespace, fqn = namespace ++ "." ++ type.
Proof.
  intros (ds & _ & _ & _ & _ & _ & Hnames & _)%newModelFile_inr.
  unfold ModelFile_resolveImport.
  destruct (mf_importShortNames f !! type) as [named|] eqn:Hnamed.
  - intros [= <-]. rewrite Hnames in Hnamed.
    apply fromAst_importShortNames_lookup in Hnamed as (namespace & _ & _ & ->).
    by exists namespace.
  - destruct (findWildcard m type (mf_importWildcardNamespaces f)) as [e|[w|]]; simpl;
      [discriminate| |discriminate].
    intros [= <-]. by exists w.
Qed.

(** X8. In a model file that the constructor built, [resolveType] and
    [getType] agree on a name that is not a primitive, in every state of
    the manager: [resolveType] accepts the name exactly when [getType]
    resolves it to a declaration, it raises [IllegalModelException]
    exactly when [getType] answers null, and it raises a [TypeError]
    exactly when [getType] raises one (both read an inherited member of
    [this.modelFiles] then, as for an import from [constructor]); it
    raises nothing else. *)
Theorem resolveType_agrees_with_getType m ast definitions fileName f context type :
  newModelFile ast definitions fileName = inr f ->
  isPrimitiveType type = false ->
  (ModelFile_resolveType m f context type = ret tt <->
   exists d, ModelFile_getType m f type = ret (Some (Declaration d)))
  /\ ((exists message,
         ModelFile_resolveType m f context type = throw (IllegalModelException message))
      <-> ModelFile_getType m f type = ret None)
  /\ ((exists message, ModelFile_resolveType m f context type = throw (TypeError message))
      <-> exists message, ModelFile_getType m f type = throw (TypeError message))
  /\ (forall e, ModelFile_resolveType m f context type = inl e ->
                exists message, e = IllegalModelException message \/ e = TypeError message).
Proof.
  intros Hbuilt Hprimitive.
  assert (forall g name,
             String.eqb name "" = false ->
             ModelFile_isLocalType g name
             = match ModelFile_getLocalType g name with Some _ => true | None => false end)
    as Hlocal.
  { intros g name Hname. unfold ModelFile_isLocalType. rewrite Hname. simpl.
    by destruct (ModelFile_getLocalType g name). }
  assert (forall e, ModelFile_isImportedType m f type = inl e ->
                    exists message, e = TypeError message) as Hloop.
  { unfold ModelFile_isImportedType. destruct (bool_decide _); [discriminate|].
    generalize (mf_importWildcardNamespaces f). intros namespaces e.
    induction namespaces as [|w namespaces IH]; simpl; [discriminate|].
    unfold wildcardDeclares at 1.
    destruct (getModelFile m w) as [g| |]; simpl.
    - destruct (ModelFile_isLocalType g type); [discriminate | exact IH].
    - intros [= <-]. by eexists.
    - exact IH. }
  unfold ModelFile_resolveType, ModelFile_getType. rewrite Hprimitive. simpl.
  destruct (ModelFile_isImportedType m f type) as [e|[|]] eqn:Himported; simpl.
  - destruct (Hloop e eq_refl) as [message ->].
    split; [by split; [|intros [? ?]]|]. split; [by split; [intros [? ?]|]|].
    split; [by split; eexists|]. intros e [= <-]. eexists. by right.
  - destruct (resolveImport_imported _ _ _ Himported) as [fqn Hresolve].
    rewrite Hresolve. simpl.
    destruct (resolveImport_qualified _ _ _ _ _ _ _ Hbuilt Hresolve) as [namespace ->].
    unfold BaseModelManager_resolveType.
    rewrite isPrimitiveType_qualified.
    destruct (getModelFile m (getNamespace (namespace ++ "." ++ type))) as [g| |]; simpl.
    + rewrite (Hlocal g _ (qualified_not_empty _ _)).
      destruct (ModelFile_getLocalType g (namespace ++ "." ++ type)) as [d|]; simpl.
      * split; [split; [by eexists | done]|]. split; [by split; [intros [? ?]|]|].
        split; [by split; intros [? ?]|]. discriminate.
      * split; [split; [discriminate | by intros [? ?]]|].
        split; [by split; [|eexists]|]. split; [by split; intros [? ?]|].
        intros e [= <-]. eexists. by left.
    + split; [by split; [|intros [? ?]]|]. split; [by split; [intros [? ?]|]|].
      split; [by split; eexists|]. intros e [= <-]. eexists. by right.
    + split; [split; [discriminate | by intros [? ?]]|].
      split; [by split; [|eexists]|]. split; [by split; intros [? ?]|].
      intros e [= <-]. eexists. by left.
  - destruct (String.eqb type "") eqn:Hempty.
    + unfold ModelFile_isLocalType. rewrite Hempty. simpl.
      split; [split; [discriminate | by intros [? ?]]|].
      split; [by split; [|eexists]|]. split; [by split; intros [? ?]|].
      intros e [= <-]. eexists. by left.
    + rewrite (Hlocal f _ Hempty).
      destruct (ModelFile_getLocalType f type) as [d|]; simpl.
      * split; [split; [by eexists | done]|]. split; [by split; [intros [? ?]|]|].
        split; [by split; intros [? ?]|]. discriminate.
      * split; [split; [discriminate | by intros [? ?]]|].
        split; [by split; [|eexists]|]. split; [by split; intros [? ?]|].
        intros e [= <-]. eexists. by left.
Qed.


End ModelFileProperties.

(** ** The registry: order of additions, metamodel round trip, lookups by
    file name and by kind *)

Section ManagerProperties.

Context `{Collaborators}.

(** A list of model file objects is built as it is. *)
Lemma buildInputs_objects files fileNames :
  forall n, buildInputs (map FileObject files) fileNames n = inr files.
Proof.
  induction files as [|f files IH]; intros n; simpl; [done|]. by rewrite IH.
Qed.

(** X10. [addModelFiles] of model file objects does not depend on their
    order: for two orders of the same files (and whatever file names are
    passed along), [this.modelFiles] reads the same under every key
    afterwards and [getNamespaces()] lists the same namespaces (each
    once; their order in the list is not compared), one call returns
    exactly when the other does, and a call that returns gives the files
    in the order in which it received them. *)
Theorem addModelFiles_order_independent m files1 files2 fileNames1 fileNames2
    disableValidation :
  files1 ≡ₚ files2 ->
  let r1 := addModelFiles m (map FileObject files1) fileNames1 disableValidation in
  let r2 := addModelFiles m (map FileObject files2) fileNames2 disableValidation in
  (forall namespace, getModelFile r1.2 namespace = getModelFile r2.2 namespace)
  /\ getNamespaces r1.2 ≡ₚ getNamespaces r2.2
  /\ (r1.1 = inr files1 <-> r2.1 = inr files2)
  /\ (forall added, r1.1 = inr added -> added = files1).
Proof.
  intros Hsame r1 r2.
  assert (NoDup (map ModelFile_getNamespace files1)
          /\ Forall (fun f => getModelFile m (ModelFile_getNamespace f) = SlotUndefined)
                    files1
          <-> NoDup (map ModelFile_getNamespace files2)
              /\ Forall (fun f => getModelFile m (ModelFile_getNamespace f)
                                  = SlotUndefined) files2)
    as Hcondition.
  { change (map ModelFile_getNamespace files1) with (ModelFile_getNamespace <$> files1).
    change (map ModelFile_getNamespace files2) with (ModelFile_getNamespace <$> files2).
    by rewrite Hsame. }
  assert (forall added, r1.1 = inr added -> added = files1) as Hadded.
  { intros added Hr1. subst r1.
    destruct (addModelFiles m (map FileObject files1) fileNames1 disableValidation)
      as [r m'] eqn:Hcall. simpl in Hr1. subst r.
    apply addModelFiles_inr in Hcall as [Hloop _].
    apply addModelFiles_loop_inr_free in Hloop as (Hbuilt & _).
    rewrite buildInputs_objects in Hbuilt. by injection Hbuilt. }
  assert (r1.2 = r2.2) as Hstate.
  { subst r1 r2.
    destruct (addModelFiles_loop m (map FileObject files1) fileNames1 0)
      as [[e1|added1] m1] eqn:Hloop1.
    - rewrite (addModelFiles_loop_raises _ _ _ disableValidation _ _ Hloop1).
      destruct (addModelFiles_loop m (map FileObject files2) fileNames2 0)
        as [[e2|added2] m2] eqn:Hloop2.
      + by rewrite (addModelFiles_loop_raises _ _ _ disableValidation _ _ Hloop2).
      + apply addModelFiles_loop_inr_free in Hloop2 as (Hbuilt2 & Hfree2).
        rewrite buildInputs_objects in Hbuilt2. injection Hbuilt2 as <-.
        apply Hcondition in Hfree2 as [Hdistinct Hfree].
        rewrite (addModelFiles_loop_installs _ _ _ _ _ (buildInputs_objects _ _ _)
                   Hdistinct Hfree) in Hloop1. discriminate Hloop1.
    - apply addModelFiles_loop_inr_free in Hloop1 as (Hbuilt1 & Hfree1).
      rewrite buildInputs_objects in Hbuilt1. injection Hbuilt1 as <-.
      destruct Hfree1 as [Hdistinct1 Hfree1].
      destruct (proj1 Hcondition (conj Hdistinct1 Hfree1)) as [Hdistinct2 Hfree2].
      pose proof (addModelFiles_loop_installs _ _ fileNames1 0 _
                    (buildInputs_objects _ _ _) Hdistinct1 Hfree1) as Hloop1.
      pose proof (addModelFiles_loop_installs _ _ fileNames2 0 _
                    (buildInputs_objects _ _ _) Hdistinct2 Hfree2) as Hloop2.
      assert (installAll m files1 = installAll m files2) as Hinstalled.
      { apply ModelManager_eq, map_eq. intros namespace. apply option_eq. intros g.
        rewrite !installAll_lookup; try done.
        - assert (In g files1 <-> In g files2) as ->; [|done].
          by rewrite <- !list_elem_of_In, Hsame.
        - eapply Forall_impl; [exact Hfree2|]. simpl.
          by intros f [? _]%getModelFile_SlotUndefined.
        - eapply Forall_impl; [exact Hfree1|]. simpl.
          by intros f [? _]%getModelFile_SlotUndefined. }
      unfold addModelFiles. rewrite Hloop1, Hloop2, Hinstalled.
      destruct disableValidation; simpl; [done|].
      by destruct (validateModelFiles (installAll m files2)). }
  split; [by rewrite Hstate|]. split; [by rewrite Hstate|].
  split; [|exact Hadded].
  assert (forall filesA filesB namesA namesB,
             filesA ≡ₚ filesB ->
             (addModelFiles m (map FileObject filesA) namesA disableValidation).2
             = (addModelFiles m (map FileObject filesB) namesB disableValidation).2 ->
             (addModelFiles m (map FileObject filesA) namesA disableValidation).1
             = inr filesA ->
             (addModelFiles m (map FileObject filesB) namesB disableValidation).1
             = inr filesB) as Hone.
  { intros filesA filesB namesA namesB HAB HstateAB HA.
    destruct (addModelFiles m (map FileObject filesA) namesA disableValidation)
      as [rA mA] eqn:HcallA. simpl in HA, HstateAB. subst rA.
    apply addModelFiles_inr in HcallA as [HloopA HvalidA].
    pose proof (addModelFiles_loop_inr_free _ _ _ _ _ _ HloopA)
      as (_ & HdistinctA & HfreeA).
    assert (NoDup (map ModelFile_getNamespace filesB)
            /\ Forall (fun f => getModelFile m (ModelFile_getNamespace f)
                                = SlotUndefined) filesB)
      as [HdistinctB HfreeB].
    { change (map ModelFile_getNamespace filesA)
        with (ModelFile_getNamespace <$> filesA) in HdistinctA.
      change (map ModelFile_getNamespace filesB) with (ModelFile_getNamespace <$> filesB).
      by rewrite <- HAB. }
    pose proof (addModelFiles_loop_installs _ _ namesB 0 _
                  (buildInputs_objects _ _ _) HdistinctB HfreeB) as HloopB.
    revert HstateAB. unfold addModelFiles. rewrite HloopB.
    destruct disableValidation; simpl; [done|].
    destruct HvalidA as [?|HvalidA]; [done|].
    destruct (validateModelFiles (installAll m filesB)) as [e|[]] eqn:HvalidB; [|done].
    simpl. intros ->.
    rewrite (addModelFiles_loop_installs _ _ namesA 0 _
               (buildInputs_objects _ _ _) HdistinctA HfreeA) in HloopA.
    injection HloopA as HloopA.
    assert (installAll m filesA = installAll m filesB) as Hinstalled.
    { apply ModelManager_eq, map_eq. intros namespace. apply option_eq. intros g.
      rewrite !installAll_lookup; try done.
      - assert (In g filesA <-> In g filesB) as ->; [|done].
        by rewrite <- !list_elem_of_In, HAB.
      - eapply Forall_impl; [exact HfreeB|]. simpl.
        by intros f [? _]%getModelFile_SlotUndefined.
      - eapply Forall_impl; [exact HfreeA|]. simpl.
        by intros f [? _]%getModelFile_SlotUndefined. }
    rewrite <- HloopA, Hinstalled, HvalidB in HvalidA. discriminate HvalidA. }
  subst r1 r2. split.
  - by apply Hone.
  - apply Hone; [by symmetry | by symmetry].
Qed.

(** [addRootModel] registers, under [concerto], the file built from the
    root model. *)
Lemma addRootModel_inr m r m' :
  addRootModel m = (inr r, m') ->
  newModelFile rootModelAst rootModelCto rootModelFile = inr r
  /\ ModelFile_getNamespace r = "concerto"
  /\ modelFiles m !! "concerto" = None
  /\ m' = setModelFile m "concerto" r.
Proof.
  unfold addRootModel.
  destruct (newModelFile rootModelAst rootModelCto rootModelFile) as [e|rootFile] eqn:Hroot;
    [intros [= ]|].
  pose proof (newModelFile_namespace _ _ _ _ Hroot) as Hnamespace. simpl in Hnamespace.
  intros (Hfree & -> & ->)%addModelFile_inr. rewrite Hnamespace in *. by repeat split.
Qed.

Lemma addRootModel_inl m e m' : addRootModel m = (inl e, m') -> m' = m.
Proof.
  unfold addRootModel.
  destruct (newModelFile rootModelAst rootModelCto rootModelFile) as [e0|rootFile];
    [by intros [= _ <-]|].
  by intros ->%addModelFile_inl.
Qed.

(** The loop of [fromAst] when it goes through: one file per model, each
    registered under the namespace of its model. *)
Lemma fromAst_models_inr models :
  forall m u m1,
    fromAst_models m models = (inr u, m1) ->
    exists files,
      Forall2 (fun model f => newModelFile model None None = inr f) models files
      /\ map_to_list (modelFiles m1)
         ≡ₚ ((fun f => (ModelFile_getNamespace f, f)) <$> files)
            ++ map_to_list (modelFiles m).
Proof.
  induction models as [|model models IH]; intros m u m1; simpl.
  - intros [= _ <-]. exists []. by split; [constructor|].
  - destruct (newModelFile model None None) as [e|f] eqn:Hbuilt; [intros [= ]|].
    destruct (addModelFile m f true) as [[e|r] m'] eqn:Hadd; [intros [= ]|].
    apply addModelFile_inr in Hadd as (Hfree & _ & ->).
    intros (files & Hfiles & Hlist)%IH.
    exists (f :: files). split; [by constructor|].
    rewrite Hlist. simpl. rewrite (map_to_list_insert _ _ _ Hfree).
    by rewrite Permutation_middle.
Qed.

(** Whatever the outcome of the loop of [fromAst], what is registered
    then was registered before or was built from one of the models. *)
Lemma fromAst_models_registered models :
  forall m namespace f,
    modelFiles (fromAst_models m models).2 !! namespace = Some f ->
    modelFiles m !! namespace = Some f
    \/ exists model,
         In model models /\ newModelFile model None None = inr f
         /\ namespace = ast_namespace model.
Proof.
  induction models as [|model models IH]; intros m namespace f; simpl; [by left|].
  destruct (newModelFile model None None) as [e|g] eqn:Hbuilt; [by left|].
  destruct (addModelFile m g true) as [[e|r] m'] eqn:Hadd.
  - apply addModelFile_inl in Hadd as ->. by left.
  - apply addModelFile_inr in Hadd as (Hfree & _ & ->).
    intros [Hm|(model' & Hin & Hmodel & ->)]%IH.
    + simpl in Hm. destruct (decide (ModelFile_getNamespace g = namespace)) as [<-|Hne].
      * rewrite lookup_insert_eq in Hm. injection Hm as <-. right.
        exists model. split; [by left|]. split; [done|].
        by apply newModelFile_namespace in Hbuilt.
      * rewrite lookup_insert_ne in Hm by done. by left.
    + right. exists model'. by split; [right|].
Qed.

(** X11. Round trip through the metamodel: when [fromAst] returns, the
    models of [getAst()] are the models it was given, each once (in the
    order of the registry); the registered namespaces are those of the
    models and [concerto]; so the namespaces of the models are pairwise
    distinct and none is [concerto]; and the files were validated. *)
Theorem fromAst_getAst_round_trip m models u m' :
  BaseModelManager_fromAst m models = (inr u, m') ->
  getAst m' false ≡ₚ models
  /\ getNamespaces m' ≡ₚ "concerto" :: map ast_namespace models
  /\ NoDup ("concerto" :: map ast_namespace models)
  /\ validateModelFiles m' = ret tt.
Proof.
  unfold BaseModelManager_fromAst, clearModelFiles.
  destruct (addRootModel {| modelFiles := ∅ |}) as [[e|root] m0] eqn:Hroot; [intros [= ]|].
  apply addRootModel_inr in Hroot as (_ & Hnamespace & _ & ->). simpl.
  destruct (fromAst_models _ models) as [[e|u1] m1] eqn:Hloop; [intros [= ]|].
  intros [= Hvalid <-].
  apply fromAst_models_inr in Hloop as (files & Hfiles & Hlist).
  simpl in Hlist. rewrite insert_empty, map_to_list_singleton in Hlist.
  assert (map ast_namespace models = map ModelFile_getNamespace files) as Hnamespaces.
  { clear Hlist Hvalid.
    induction Hfiles as [|model f models files Hmodel _ IH]; [done|]. simpl.
    by rewrite IH, (newModelFile_namespace _ _ _ _ Hmodel). }
  assert (map mf_ast files = models) as Hasts.
  { clear Hlist Hvalid Hnamespaces.
    induction Hfiles as [|model f models files Hmodel _ IH]; [done|]. simpl.
    apply newModelFile_inr in Hmodel as (ds & _ & _ & _ & _ & _ & _ & _ & _ & ->).
    by f_equal. }
  assert (getNamespaces m1 ≡ₚ "concerto" :: map ast_namespace models) as Hkeys.
  { unfold getNamespaces. rewrite Hlist, fmap_app, <- list_fmap_compose. simpl.
    rewrite <- Permutation_cons_append, Hnamespaces. done. }
  assert (NoDup ("concerto" :: map ast_namespace models)) as Hdistinct.
  { rewrite <- Hkeys. apply NoDup_fst_map_to_list. }
  repeat split; [|exact Hkeys|exact Hdistinct|by destruct u].
  unfold getAst, getModelFiles.
  change (map ?f ?l) with (f <$> l). rewrite Hlist, omap_app. simpl.
  rewrite app_nil_r.
  assert (omap (fun entry : string * ModelFile =>
                  if negb (String.eqb entry.1 "concerto")
                  then Some entry.2 else None)
               ((fun f => (ModelFile_getNamespace f, f)) <$> files) = files) as ->.
  { apply NoDup_cons in Hdistinct as [Hroot _]. rewrite Hnamespaces in Hroot.
    clear -Hroot. induction files as [|f files IH]; [done|]. simpl.
    destruct (String.eqb (ModelFile_getNamespace f) "concerto") eqn:Hf.
    - apply String.eqb_eq in Hf. exfalso. apply Hroot. rewrite <- Hf. by left.
    - simpl. f_equal. apply IH. intros Hin. apply Hroot. by right. }
  rewrite <- Hasts. done.
Qed.

(** X12. [fromAst] puts nothing back: whether it returns or raises, every
    file registered afterwards is the root model under [concerto] or the
    file built from one of the models, under the namespace of that model;
    what was registered before the call is gone. *)
Theorem fromAst_never_restores m models namespace f :
  modelFiles (BaseModelManager_fromAst m models).2 !! namespace = Some f ->
  (namespace = "concerto"
   /\ newModelFile rootModelAst rootModelCto rootModelFile = inr f)
  \/ exists model,
       In model models /\ newModelFile model None None = inr f
       /\ namespace = ast_namespace model.
Proof.
  unfold BaseModelManager_fromAst, clearModelFiles.
  destruct (addRootModel {| modelFiles := ∅ |}) as [[e|root] m0] eqn:Hroot; simpl.
  - apply addRootModel_inl in Hroot as ->. simpl. by rewrite lookup_empty.
  - apply addRootModel_inr in Hroot as (Hbuilt & _ & _ & ->).
    intros Hfound.
    assert (modelFiles (fromAst_models (setModelFile {| modelFiles := ∅ |} "concerto" root)
                                       models).2 !! namespace = Some f) as Hloop.
    { by destruct (fromAst_models _ models) as [[e|u] m1]. }
    apply fromAst_models_registered in Hloop as [Hm|Hmodel]; [|by right].
    simpl in Hm. left.
    destruct (decide ("concerto" = namespace)) as [<-|Hne].
    + rewrite lookup_insert_eq in Hm. by injection Hm as <-.
    + by rewrite lookup_insert_ne, lookup_empty in Hm.
Qed.

End ManagerProperties.

(** ** Lookups by file name and by kind, import URIs *)

Section LookupProperties.

Context `{Collaborators}.

(** X13. In a manager whose files sit under their own namespaces,
    [getModelFileByFileName] returns a registered file of that name which
    is not the root model, and it returns nothing exactly when no
    registered file other than the root model has that name: the root
    model is never found by its file name. *)
Theorem getModelFileByFileName_skips_root_model m fileName :
  keyedByNamespace m ->
  (forall f,
      getModelFileByFileName m fileName = Some f ->
      ModelFile_getName f = Some fileName
      /\ ModelFile_getNamespace f <> "concerto"
      /\ getModelFile m (ModelFile_getNamespace f) = SlotOwn f)
  /\ (getModelFileByFileName m fileName = None <->
      forall namespace f,
        modelFiles m !! namespace = Some f ->
        ModelFile_getName f = Some fileName -> namespace = "concerto").
Proof.
  intros Hkeyed. unfold getModelFileByFileName. split.
  - intros f [Hname Hin%elem_of_getModelFiles]%head_Some_elem_of%list_elem_of_filter.
    destruct Hin as (namespace & [Hall|Hnamespace] & Hfile); [discriminate|].
    pose proof (Hkeyed _ _ Hfile) as Hown. rewrite Hown.
    split; [done|]. split; [done|]. by apply getModelFile_SlotOwn.
  - rewrite head_None. split.
    + intros Hnone namespace f Hfile Hname.
      destruct (decide (namespace = "concerto")) as [|Hother]; [done|].
      assert (f ∈ filter (fun mf => ModelFile_getName mf = Some fileName)
                         (getModelFiles m false)) as Hin.
      { apply list_elem_of_filter. split; [done|].
        apply elem_of_getModelFiles. exists namespace. by split; [right|]. }
      rewrite Hnone in Hin. by apply elem_of_nil in Hin.
    + intros Hroot.
      destruct (filter _ _) as [|f rest] eqn:Hfilter; [done|].
      assert (f ∈ filter (fun mf => ModelFile_getName mf = Some fileName)
                         (getModelFiles m false)) as Hin.
      { rewrite Hfilter. by left. }
      apply list_elem_of_filter in Hin as [Hname Hin%elem_of_getModelFiles].
      destruct Hin as (namespace & [Hall|Hnamespace] & Hfile); [discriminate|].
      by destruct (Hnamespace (Hroot _ _ Hfile Hname)).
Qed.

Lemma foldl_concat {A B : Type} (f : A -> list B) (l : list A) :
  forall acc, foldl (fun prev cur => (prev ++ f cur)%list) acc l = (acc ++ List.concat (map f l))%list.
Proof.
  induction l as [|a l IH]; intros acc; simpl; [by rewrite app_nil_r|].
  by rewrite IH, app_assoc.
Qed.

Lemma DeclarationKind_eqb_eq a b : DeclarationKind_eqb a b = true <-> a = b.
Proof. by destruct a, b. Qed.

(** X14. The six lists of declarations of the manager: a declaration is
    in the list of a kind exactly when it is of that kind and declared in
    a file that is registered under a namespace other than [concerto].
    So no declaration of the root model is listed, and a declaration is
    in the list of one kind only. *)
Theorem manager_declarations_by_kind m type d :
  d ∈ getDeclarationsOfKind m type <->
  cd_kind d = type
  /\ exists namespace f,
       namespace <> "concerto" /\ modelFiles m !! namespace = Some f
       /\ d ∈ ModelFile_getAllDeclarations f.
Proof.
  unfold getDeclarationsOfKind, ModelFile_getAllDeclarations.
  rewrite foldl_concat. simpl. rewrite list_elem_of_In, in_concat. split.
  - intros (l & (f & <- & Hf)%in_map_iff & Hd%list_elem_of_In).
    apply list_elem_of_filter in Hd as [Hkind%DeclarationKind_eqb_eq Hd].
    apply list_elem_of_In, elem_of_getModelFiles in Hf
      as (namespace & [Hall|Hnamespace] & Hfile); [discriminate|].
    split; [done|]. by exists namespace, f.
  - intros [Hkind (namespace & f & Hnamespace & Hfile & Hd)].
    exists (ModelFile_getDeclarations f type). split.
    + apply in_map_iff. exists f. split; [done|].
      apply list_elem_of_In, elem_of_getModelFiles. exists namespace. by split; [right|].
    + apply list_elem_of_In, list_elem_of_filter. split; [|done].
      by apply DeclarationKind_eqb_eq.
Qed.

(** The URI map is filled from the imports that carry a URI, under the
    fully qualified name of the import. *)
Lemma fromAst_importUriMap_lookup imports key uri :
  fromAst_importUriMap imports !! key = Some uri ->
  exists imp,
    In imp imports /\ importFullyQualifiedName imp = key /\ imp_uri imp = Some uri
    /\ uri <> "".
Proof.
  unfold fromAst_importUriMap.
  assert (forall acc : gmap string string,
    foldl (fun acc imp =>
             match imp_uri imp with
             | Some u => if truthy (Some u)
                         then <[importFullyQualifiedName imp := u]> acc
                         else acc
             | None => acc
             end) acc imports !! key = Some uri ->
    acc !! key = Some uri
    \/ exists imp,
         In imp imports /\ importFullyQualifiedName imp = key /\ imp_uri imp = Some uri
         /\ uri <> "") as Hfold.
  { induction imports as [|imp imports IH]; intros acc; simpl; [by left|].
    intros [Hacc|(imp' & Hin & Hkey & Huri & Hnonempty)]%IH.
    - destruct (imp_uri imp) as [u|] eqn:Hu; [|by left].
      destruct (String.eqb u "") eqn:Htruthy; [by left|]. simpl in Hacc.
      destruct (decide (importFullyQualifiedName imp = key)) as [Hkey|Hne].
      + rewrite Hkey, lookup_insert_eq in Hacc. injection Hacc as <-. right.
        exists imp. repeat split; [by left | done | done |].
        intros ->. discriminate Htruthy.
      + rewrite lookup_insert_ne in Hacc by done. by left.
    - right. exists imp'. by repeat split; [right| | |]. }
  intros [Hempty|Hfound]%Hfold; [by rewrite lookup_empty in Hempty | exact Hfound].
Qed.

Lemma String_length_app (s t : string) :
  String.length (s ++ t) = String.length s + String.length t.
Proof. induction s as [|c s IH]; simpl; [done | by rewrite IH]. Qed.

(** No key of the URI map is the name of an inherited member: the keys
    are qualified names. *)
Lemma inheritedName_no_dot key :
  inheritedName key = true -> splitLastDot key = None.
Proof.
  intros (name & Hin & ->%String.eqb_eq)%existsb_exists. simpl in Hin.
  by repeat (destruct Hin as [<-|Hin]; [done|]).
Qed.

Lemma importFullyQualifiedName_dot imp : splitLastDot (importFullyQualifiedName imp) <> None.
Proof. destruct imp as [namespace u|namespace name u]; apply splitLastDot_qualified. Qed.

(** X15. In a model file that the constructor built, what
    [getImportURI] finds in [importUriMap] under a key is the non-empty
    [uri] of an import of the AST whose fully qualified name ([ns.Type],
    or [ns.*] for a wildcard import) is that key; the key is never the
    namespace of the import that carries the URI, and the five imports of
    the root types that the constructor adds bring no URI.  Under a key
    that is the name of a member that objects inherit ([constructor],
    say), and only under such a key, the method returns that member,
    which is neither a URI nor [null]. *)
Theorem getImportURI_is_keyed_by_import_name ast definitions fileName f key :
  newModelFile ast definitions fileName = inr f ->
  (forall uri,
      ModelFile_getImportURI f key = SlotOwn uri ->
      uri <> ""
      /\ exists imp,
           In imp (default [] (ast_imports ast))
           /\ imp_uri imp = Some uri
           /\ key = importFullyQualifiedName imp
           /\ key <> imp_namespace imp)
  /\ (ModelFile_getImportURI f key = SlotInherited <-> inheritedName key = true).
Proof.
  intros (ds & _ & _ & _ & _ & _ & _ & _ & Huris & _)%newModelFile_inr.
  unfold ModelFile_getImportURI, readObject. rewrite Huris.
  destruct (fromAst_importUriMap (fromAst_imports ast) !! key) as [u|] eqn:Hlookup.
  - apply fromAst_importUriMap_lookup in Hlookup as (imp & Hin & Hkey & Huri & Hnonempty).
    assert (truthy (Some u) = true) as ->.
    { simpl. apply String.eqb_neq in Hnonempty. by rewrite Hnonempty. }
    split.
    + intros uri [= <-]. split; [done|]. exists imp.
      assert (In imp (default [] (ast_imports ast))) as Hgiven.
      { unfold fromAst_imports in Hin.
        assert (In imp (default [] (ast_imports ast) ++ builtinImports)%list
                -> In imp (default [] (ast_imports ast))) as Hbuiltin.
        { intros [Hgiven|Hadded]%in_app_or; [done|].
          simpl in Hadded.
          repeat (destruct Hadded as [<-|Hadded]; [discriminate Huri|]). destruct Hadded. }
        destruct (negb _); [by apply Hbuiltin|].
        by destruct (ast_imports ast). }
      repeat split; [done | done | done |].
      rewrite <- Hkey. destruct imp as [namespace u0|namespace name u0]; simpl.
      * intros Hsame. apply (f_equal String.length) in Hsame.
        rewrite String_length_app in Hsame. simpl in Hsame. lia.
      * intros Hsame. apply (f_equal String.length) in Hsame.
        rewrite !String_length_app in Hsame. simpl in Hsame. lia.
    + split; [discriminate|]. intros Hinherited%inheritedName_no_dot.
      rewrite <- Hkey in Hinherited. by destruct (importFullyQualifiedName_dot imp).
  - split; [by destruct (inheritedName key)|]. by destruct (inheritedName key).
Qed.

End LookupProperties.

(** ** CSharpVisitor *)

Section CSharpVisitorProperties.

Variable getSuperType : ClassDeclaration -> result (option string).

Lemma writerState_lines lines rest :
  forallb isWriteLine lines = true ->
  writerState true (lines ++ rest) = writerState true rest.
Proof.
  induction lines as [|event lines IH]; simpl; [done|].
  intros [Hevent Hlines]%andb_true_iff. destruct event; try discriminate. by apply IH.
Qed.

Lemma openedFiles_lines lines :
  forallb isWriteLine lines = true -> openedFiles lines = [].
Proof.
  induction lines as [|event lines IH]; simpl; [done|].
  intros [Hevent Hlines]%andb_true_iff. destruct event; try discriminate. by apply IH.
Qed.

Lemma andThen_write event second :
  andThen (write event) second = (second.1, event :: second.2).
Proof. done. Qed.

Lemma forEachWritten_lines {A : Type} (visit : A -> Written) (l : list A) :
  (forall a, forallb isWriteLine (visit a).2 = true) ->
  forallb isWriteLine (forEachWritten visit l).2 = true.
Proof.
  intros Hvisit. induction l as [|a l IH]; simpl; [done|].
  specialize (Hvisit a). unfold andThen.
  destruct (visit a) as [[e|u] events]; simpl in *; [done|].
  rewrite forallb_app. by rewrite Hvisit, IH.
Qed.

Lemma forEachWritten_returns {A : Type} (visit : A -> Written) (l : list A) :
  (forall a, (visit a).1 = inr tt) -> (forEachWritten visit l).1 = inr tt.
Proof.
  intros Hvisit. induction l as [|a l IH]; simpl; [done|].
  specialize (Hvisit a). unfold andThen.
  by destruct (visit a) as [[e|u] events]; simpl in *.
Qed.

Lemma visitProperty_line property :
  exists indent text,
    CSharpVisitor_visitProperty property = (inr tt, [WriteLine indent text]).
Proof.
  unfold CSharpVisitor_visitProperty. destruct (p_kind property); by eexists _, _.
Qed.

Lemma visitDeclaration_lines declaration :
  forallb isWriteLine (CSharpVisitor_visitDeclaration getSuperType declaration).2 = true.
Proof.
  assert (forall properties,
             forallb isWriteLine
               (forEachWritten CSharpVisitor_visitProperty properties).2 = true)
    as Hproperties.
  { intros properties. apply forEachWritten_lines. intros property.
    by destruct (visitProperty_line property) as (indent & text & ->). }
  assert (forall properties,
             (forEachWritten CSharpVisitor_visitProperty properties).1 = inr tt)
    as Hreturns.
  { intros properties. apply forEachWritten_returns. intros property.
    by destruct (visitProperty_line property) as (indent & text & ->). }
  unfold CSharpVisitor_visitDeclaration, CSharpVisitor_visitEnumDeclaration,
    CSharpVisitor_visitClassDeclaration.
  destruct (cd_kind declaration);
    try (destruct (getSuperType declaration) as [e|super]; [done|]);
    rewrite !andThen_write; simpl; unfold andThen;
    specialize (Hproperties (cd_properties declaration));
    specialize (Hreturns (cd_properties declaration));
    destruct (forEachWritten CSharpVisitor_visitProperty (cd_properties declaration))
      as [[e|u] events]; simpl in *; try discriminate;
    by rewrite forallb_app, Hproperties.
Qed.

(** What a visit of a model file writes: the file is opened, lines are
    written, and the file is closed when no declaration raised. *)
Lemma visitModelFile_written modelFile :
  exists lines,
    forallb isWriteLine lines = true
    /\ ((exists e, CSharpVisitor_visitModelFile getSuperType modelFile
                   = (inl e, OpenFile (csharpFileName modelFile) :: lines))
        \/ CSharpVisitor_visitModelFile getSuperType modelFile
           = (inr tt, OpenFile (csharpFileName modelFile) :: lines ++ [CloseFile])).
Proof.
  unfold CSharpVisitor_visitModelFile. rewrite !andThen_write. simpl.
  pose proof (forEachWritten_lines
                (fun namespace => write (WriteLine 1 ("using " ++ namespace ++ ";")))
                (usingNamespaces modelFile) (fun _ => eq_refl)) as Husing.
  pose proof (forEachWritten_returns
                (fun namespace => write (WriteLine 1 ("using " ++ namespace ++ ";")))
                (usingNamespaces modelFile) (fun _ => eq_refl)) as Hreturns.
  destruct (forEachWritten _ (usingNamespaces modelFile)) as [[e|[]] usings]; simpl in *;
    [discriminate|].
  pose proof (forEachWritten_lines (CSharpVisitor_visitDeclaration getSuperType)
                (mf_declarations modelFile) visitDeclaration_lines) as Hdeclarations.
  destruct (forEachWritten _ (mf_declarations modelFile)) as [[e|[]] declarations];
    simpl in *.
  - eexists. split; [|left; by eexists].
    simpl. by rewrite forallb_app, Husing, Hdeclarations.
  - exists ([WriteLine 0 "using System;"; WriteLine 0 "using System.Text.Json.Serialization;";
             WriteLine 0 ("namespace " ++ ModelFile_getNamespace modelFile ++ " {")]
            ++ usings ++ declarations ++ [WriteLine 0 "}"])%list.
    split.
    + simpl. by rewrite !forallb_app, Husing, Hdeclarations.
    + right. simpl. by rewrite <- !app_assoc.
Qed.

Lemma forEachWritten_modelFiles files :
  let written := forEachWritten (CSharpVisitor_visitModelFile getSuperType) files in
  match written.1 with
  | inr _ =>
      writerState false written.2 = Some false
      /\ openedFiles written.2 = map csharpFileName files
  | inl _ =>
      writerState false written.2 = Some true
      /\ exists visited skipped,
           files = (visited ++ skipped)%list /\ visited <> []
           /\ openedFiles written.2 = map csharpFileName visited
  end.
Proof.
  induction files as [|f files IH]; [done|]. cbn [forEachWritten].
  destruct (visitModelFile_written f) as (lines & Hlines & [[e ->]| ->]); simpl.
  - rewrite <- (app_nil_r lines), (writerState_lines _ _ Hlines), app_nil_r.
    split; [done|]. exists [f], files. repeat split; [done|].
    by rewrite (openedFiles_lines _ Hlines).
  - destruct (forEachWritten _ files) as [[e|u] events]; simpl in *.
    + destruct IH as (Hstate & visited & skipped & -> & _ & Hopened).
      rewrite <- app_assoc, (writerState_lines _ _ Hlines). simpl. split; [done|].
      exists (f :: visited), skipped. repeat split; [done|]. simpl. f_equal.
      unfold openedFiles in *. rewrite !omap_app.
      fold (openedFiles lines). by rewrite (openedFiles_lines _ Hlines).
    + destruct IH as [Hstate Hopened].
      rewrite <- app_assoc, (writerState_lines _ _ Hlines). simpl. split; [done|].
      f_equal. unfold openedFiles in *. rewrite !omap_app.
      fold (openedFiles lines). by rewrite (openedFiles_lines _ Hlines).
Qed.

(** X16. The calls that [visitModelManager] makes on the file writer.
    When the visit returns, the calls are well bracketed (every line is
    written to an open file, no file is opened over an open one, and the
    last file is closed) and one file [<namespace>.cs] was opened for
    every registered model file, the root model included.  When the visit
    raises, which only [getSuperType] of a declaration can make it do,
    the file of the model file being visited is left open and the files
    after it are not written. *)
Theorem visitModelManager_writer_protocol modelManager :
  let written := CSharpVisitor_visitModelManager getSuperType modelManager in
  match written.1 with
  | inr _ =>
      writerState false written.2 = Some false
      /\ openedFiles written.2 = map csharpFileName (getModelFiles modelManager true)
  | inl _ =>
      writerState false written.2 = Some true
      /\ exists visited skipped,
           getModelFiles modelManager true = (visited ++ skipped)%list /\ visited <> []
           /\ openedFiles written.2 = map csharpFileName visited
  end.
Proof. apply forEachWritten_modelFiles. Qed.

Lemma existsb_eqb_elem_of (v : string) (l : list string) :
  existsb (String.eqb v) l = true <-> v ∈ l.
Proof.
  rewrite existsb_exists. split.
  - intros (x & Hx%list_elem_of_In & ->%String.eqb_eq). exact Hx.
  - intros Hv. exists v. split; [by apply list_elem_of_In | apply String.eqb_refl].
Qed.

Lemma firstOccurrences_spec l :
  forall earlier,
    NoDup (firstOccurrences earlier l)
    /\ forall x, x ∈ firstOccurrences earlier l <-> x ∈ l /\ x ∉ earlier.
Proof.
  induction l as [|v l IH]; intros earlier; simpl.
  - split; [constructor|]. intros x. split; [by intros ?%elem_of_nil|].
    by intros [?%elem_of_nil _].
  - destruct (IH (v :: earlier)) as [Hdistinct Hmembers].
    destruct (existsb (String.eqb v) earlier) eqn:Hearlier.
    + apply existsb_eqb_elem_of in Hearlier. split; [done|].
      intros x. rewrite Hmembers, not_elem_of_cons, elem_of_cons. split.
      * intros [Hx [Hne Hnew]]. by split; [right|].
      * intros [[->|Hx] Hnew]; [done|]. split; [done|]. split; [|done].
        intros ->. by apply Hnew.
    + assert (v ∉ earlier) as Hnew.
      { intros Hv%existsb_eqb_elem_of. by rewrite Hv in Hearlier. }
      split.
      * constructor; [|done]. rewrite Hmembers, not_elem_of_cons. by intros [_ [? _]].
      * intros x.
        rewrite (elem_of_cons (firstOccurrences (v :: earlier) l)), Hmembers,
          not_elem_of_cons, elem_of_cons.
        split.
        -- intros [->|[Hx [Hne Hfresh]]]; [by split; [left|] | by split; [right|]].
        -- intros [[->|Hx] Hfresh]; [by left|].
           destruct (decide (x = v)) as [->|Hne]; [by left | by right].
Qed.

(** X17. The [using] lines of a generated C# file name each namespace
    once, never the namespace of the file itself, and exactly the
    namespaces that the fully qualified names of the imports of the file
    have; a file that the constructor built for a namespace other than
    [concerto] gets [using concerto;], whatever it imports. *)
Theorem usingNamespaces_of_imports `{Collaborators} modelFile :
  NoDup (usingNamespaces modelFile)
  /\ (forall namespace,
         namespace ∈ usingNamespaces modelFile <->
         namespace <> ModelFile_getNamespace modelFile
         /\ exists imp,
              In imp (mf_imports modelFile)
              /\ getNamespace (importFullyQualifiedName imp) = namespace)
  /\ (forall ast definitions fileName,
         newModelFile ast definitions fileName = inr modelFile ->
         ast_namespace ast <> "concerto" ->
         "concerto" ∈ usingNamespaces modelFile).
Proof.
  assert (forall namespace,
             namespace ∈ usingNamespaces modelFile <->
             namespace <> ModelFile_getNamespace modelFile
             /\ exists imp,
                  In imp (mf_imports modelFile)
                  /\ getNamespace (importFullyQualifiedName imp) = namespace) as Hmembers.
  { intros namespace. unfold usingNamespaces.
    rewrite (proj2 (firstOccurrences_spec _ [])), list_elem_of_filter.
    rewrite map_map, list_elem_of_In, in_map_iff. split.
    - intros [[Hother (imp & Himp & Hin)] _]. split; [done|]. by exists imp.
    - intros [Hother (imp & Hin & Himp)]. split; [|by intros ?%elem_of_nil].
      split; [done|]. by exists imp. }
  split; [apply firstOccurrences_spec|]. split; [exact Hmembers|].
  intros ast definitions fileName Hbuilt Hnamespace.
  apply newModelFile_inr in Hbuilt as (ds & _ & Hown & _ & _ & Himports & _).
  apply Hmembers. unfold ModelFile_getNamespace. rewrite Hown. split; [done|].
  exists (ImportType "concerto" "Concept" None). split; [|done].
  rewrite Himports. unfold fromAst_imports.
  destruct (String.eqb (ast_namespace ast) "concerto") eqn:Heqb.
  - by apply String.eqb_eq in Heqb.
  - simpl. apply in_or_app. right. by left.
Qed.

(** X18. [toCSharpType] translates exactly the primitive types: a name
    that is not primitive is left as it is, and the translation of a
    primitive is one of the C# names [DateTime], [bool], [string],
    [float], [long], [int]; so, [DateTime] apart, what it returns is
    never the name of a Concerto primitive, and translating twice is
    translating once. *)
Theorem toCSharpType_translates_primitives type :
  (if isPrimitiveType type
   then In (toCSharpType type) ["DateTime"; "bool"; "string"; "float"; "long"; "int"]
   else toCSharpType type = type)
  /\ (isPrimitiveType (toCSharpType type) = true <-> type = "DateTime")
  /\ toCSharpType (toCSharpType type) = toCSharpType type.
Proof.
  destruct (isPrimitiveType type) eqn:Hprimitive.
  - apply existsb_exists in Hprimitive as (primitive & Hin & ->%String.eqb_eq).
    simpl in Hin.
    repeat (destruct Hin as [<-|Hin];
            [vm_compute; repeat split; auto 10; discriminate|]).
    destruct Hin.
  - assert (toCSharpType type = type) as Hsame.
    { unfold isPrimitiveType, primitiveTypes in Hprimitive. simpl in Hprimitive.
      repeat (apply orb_false_iff in Hprimitive as [? Hprimitive]).
      unfold toCSharpType.
      by repeat match goal with Heqb : String.eqb type _ = false |- _ =>
                                  rewrite Heqb; clear Heqb end. }
    rewrite !Hsame. split; [done|]. split; [|done]. rewrite Hprimitive.
    split; [discriminate|]. intros ->. discriminate Hprimitive.
Qed.

End CSharpVisitorProperties.

(** ** Names of types and the version of Concerto *)

Section NameProperties.

Context `{Collaborators}.

(** X19. [getFullyQualifiedTypeName] beside [getType], in every model
    file and every state of the manager: where [getType] gives a
    declaration, [getFullyQualifiedTypeName] gives the fully qualified
    name of that declaration; where [getType] answers [null] for a name
    that is not imported, so does [getFullyQualifiedTypeName]; but where
    [getType] answers [null] for an imported name (its namespace is not
    registered, or has no such declaration), [getFullyQualifiedTypeName]
    raises a [TypeError]. *)
Theorem getFullyQualifiedTypeName_beside_getType m f type :
  (forall d,
      ModelFile_getType m f type = ret (Some (Declaration d)) ->
      ModelFile_getFullyQualifiedTypeName m f type
      = ret (Some (ClassDeclaration_getFullyQualifiedName d)))
  /\ (ModelFile_getType m f type = ret None ->
      (ModelFile_isImportedType m f type = ret true
       /\ exists message,
            ModelFile_getFullyQualifiedTypeName m f type = inl (TypeError message))
      \/ (ModelFile_isImportedType m f type = ret false
          /\ ModelFile_getFullyQualifiedTypeName m f type = ret None)).
Proof.
  unfold ModelFile_getType, ModelFile_getFullyQualifiedTypeName.
  destruct (isPrimitiveType type); simpl; [by split; [intros d [= ]|intros [= ]]|].
  destruct (ModelFile_isImportedType m f type) as [e|[|]] eqn:Himported; simpl.
  - by split; [intros d [= ]|intros [= ]].
  - destruct (resolveImport_imported _ _ _ Himported) as [fqn ->]. simpl.
    destruct (getModelFile m (getNamespace fqn)) as [g| |].
    + destruct (ModelFile_getLocalType g fqn) as [d0|]; simpl.
      * split; [by intros d [= <-] | intros [= ]].
      * split; [intros d [= ] | intros _; left; split; [done | by eexists]].
    + split; [intros d [= ] | intros [= ]].
    + split; [intros d [= ] | intros _; left; split; [done | by eexists]].
  - destruct (ModelFile_isLocalType f type) eqn:Hlocal; simpl;
      [|by split; [intros d [= ]|intros _; right]].
    destruct (ModelFile_getLocalType f type) as [d0|] eqn:Hd0; simpl.
    + split; [by intros d [= <-] | intros [= ]].
    + unfold ModelFile_isLocalType in Hlocal. rewrite Hd0 in Hlocal.
      by rewrite andb_false_r in Hlocal.
Qed.

(** X20. The constructor and the version of Concerto.  A model file is
    built only from an AST whose [concertoVersion], when it has one, is a
    range that the version of this package satisfies, and
    [getConcertoVersion()] is then that range ([null] when the AST has
    none); when the declarations of the AST are built and the range is
    not satisfied, the constructor raises the [Error] that names both
    versions. *)
Theorem constructor_checks_concerto_version ast definitions fileName :
  (forall f,
      newModelFile ast definitions fileName = inr f ->
      match ast_concertoVersion ast with
      | Some range =>
          if String.eqb range ""
          then ModelFile_getConcertoVersion f = None
          else versionSatisfies range = true
               /\ ModelFile_getConcertoVersion f = Some range
      | None => ModelFile_getConcertoVersion f = None
      end)
  /\ (forall range declarations,
         ast_concertoVersion ast = Some range ->
         range <> "" ->
         versionSatisfies range = false ->
         fromAst_declarations ast = inr declarations ->
         newModelFile ast definitions fileName
         = inl (Error ("ModelFile expects Concerto version " ++ range
                         ++ " but this is " ++ packageVersion))).
Proof.
  unfold newModelFile, isCompatibleVersion, ModelFile_getConcertoVersion. split.
  - intros f. destruct (fromAst_declarations ast) as [e|declarations]; [intros [= ]|].
    simpl. destruct (ast_concertoVersion ast) as [range|]; simpl.
    + destruct (String.eqb range ""); simpl; [by intros [= <-]|].
      destruct (versionSatisfies range); simpl; [by intros [= <-] | intros [= ]].
    + by intros [= <-].
  - intros range declarations -> Hrange Hversion ->. simpl.
    apply String.eqb_neq in Hrange. by rewrite Hrange, Hversion.
Qed.

End NameProperties.

(** ** addModel and updateExternalModels *)

Section ExternalModelsProperties.

Context `{Collaborators}.

Variable processFile_definitions : option string -> string -> option string.

(** X21. [addModel] never replaces a model: when the namespace of the
    parsed model is registered and the constructor builds its file, the
    call raises the [Error] that the namespace is already declared and
    changes nothing; and however a call ends, every file that was
    registered is still registered afterwards. *)
Theorem addModel_never_replaces m modelInput cto fileName disableValidation :
  modelFiles m
  ⊆ modelFiles (addModel processFile_definitions m modelInput cto fileName
                         disableValidation).2
  /\ (forall ast existing f,
         processFile fileName modelInput = inr ast ->
         modelFiles m !! ast_namespace ast = Some existing ->
         newModelFile ast (if truthy cto then cto
                           else processFile_definitions fileName modelInput) fileName
         = inr f ->
         addModel processFile_definitions m modelInput cto fileName disableValidation
         = (inl (Error (alreadyExistsMessage existing f)), m)).
Proof.
  unfold addModel. split.
  - destruct (processFile fileName modelInput) as [e|ast]; [done|].
    destruct (newModelFile ast _ fileName) as [e|f]; [done|].
    destruct (addModelFile m f disableValidation) as [[e|r] m'] eqn:Hadd; simpl.
    + by rewrite (addModelFile_inl _ _ _ _ _ Hadd).
    + apply addModelFile_inr in Hadd as (Hfree & _ & ->). simpl.
      by apply insert_subseteq.
  - intros ast existing f Hparsed Hexisting Hbuilt.
    rewrite Hparsed, Hbuilt. unfold addModelFile.
    rewrite (newModelFile_namespace _ _ _ _ Hbuilt).
    by rewrite (proj2 (getModelFile_SlotOwn _ _ _) Hexisting).
Qed.

(** What the loop of [updateExternalModels] does: it raises only what
    the constructor raises for one of the files, and otherwise each file
    is put under its namespace, in order. *)
Lemma updateExternalModels_loop_cases externalModels :
  forall m,
    match (updateExternalModels_loop m externalModels).1 with
    | inr externalModelFiles =>
        Forall2 (fun file mf => ExternalModel_build file = inr mf)
                externalModels externalModelFiles
        /\ modelFiles (updateExternalModels_loop m externalModels).2
           = foldl (fun files mf => <[ModelFile_getNamespace mf := mf]> files)
                   (modelFiles m) externalModelFiles
    | inl e => exists file, In file externalModels /\ ExternalModel_build file = inl e
    end.
Proof.
  induction externalModels as [|file rest IH]; intros m; [by split; [constructor|]|].
  cbn [updateExternalModels_loop].
  destruct (ExternalModel_build file) as [e|mf] eqn:Hbuilt.
  { exists file. by split; [left|]. }
  assert (match getModelFile m (ModelFile_getNamespace mf) with
          | SlotOwn _ | SlotInherited =>
              updateModelFile m (FileObject mf) (ModelFile_getName mf) true
          | SlotUndefined => addModelFile m mf true
          end = (ret mf, setModelFile m (ModelFile_getNamespace mf) mf)) as ->.
  { unfold updateModelFile, addModelFile.
    by destruct (getModelFile m (ModelFile_getNamespace mf)) eqn:Hexisting. }
  specialize (IH (setModelFile m (ModelFile_getNamespace mf) mf)).
  destruct (updateExternalModels_loop _ rest) as [[e|pushed] m'']; simpl in *.
  - destruct IH as (file' & Hin & Hfile'). exists file'. by split; [right|].
  - destruct IH as [Hfiles Hregistry]. by split; [constructor|].
Qed.

Lemma foldl_insert_keeps (files : list ModelFile) :
  forall (registry : gmap string ModelFile) namespace,
    is_Some (registry !! namespace) ->
    is_Some (foldl (fun files mf => <[ModelFile_getNamespace mf := mf]> files)
                   registry files !! namespace).
Proof.
  induction files as [|mf files IH]; intros registry namespace Hregistered; simpl; [done|].
  apply IH. destruct (decide (ModelFile_getNamespace mf = namespace)) as [<-|Hother].
  - by rewrite lookup_insert_eq.
  - by rewrite lookup_insert_ne.
Qed.

(** X22. [updateExternalModels], once the download has resolved.  When it
    resolves, every downloaded file has been built and put under its
    namespace in the order of the download (a later file of a namespace
    replaces an earlier one and the registered one), all files of the
    registry are valid, and no namespace has been lost.  When it rejects,
    the registry is as it was, and the exception is one that the
    constructor raised for a downloaded file or one that the validation
    of the updated registry raised: a registered namespace is no reason
    to reject. *)
Theorem updateExternalModels_applies_or_restores m externalModels :
  match updateExternalModels m externalModels with
  | (inr externalModelFiles, m') =>
      Forall2 (fun file mf => ExternalModel_build file = inr mf)
              externalModels externalModelFiles
      /\ modelFiles m'
         = foldl (fun files mf => <[ModelFile_getNamespace mf := mf]> files)
                 (modelFiles m) externalModelFiles
      /\ validateModelFiles m' = ret tt
      /\ dom (modelFiles m) ⊆ dom (modelFiles m')
  | (inl e, m') =>
      m' = m
      /\ ((exists file, In file externalModels /\ ExternalModel_build file = inl e)
          \/ validateModelFiles (updateExternalModels_loop m externalModels).2 = inl e)
  end.
Proof.
  unfold updateExternalModels.
  pose proof (updateExternalModels_loop_cases externalModels m) as Hloop.
  destruct (updateExternalModels_loop m externalModels) as [[e|externalModelFiles] m1];
    simpl in *.
  - split; [by destruct m | by left].
  - destruct Hloop as [Hfiles Hregistry].
    destruct (validateModelFiles m1) as [e|[]] eqn:Hvalid.
    + split; [by destruct m | by right].
    + split; [done|]. split; [done|]. split; [done|].
      rewrite Hregistry. intros namespace Hnamespace%elem_of_dom.
      by apply elem_of_dom, foldl_insert_keeps.
Qed.

End ExternalModelsProperties.

(** ** The further properties on concrete models *)

(** The manager with [org.b] and [org.a] keeps its files under their
    namespaces. *)
Lemma reachable_keyedByNamespace_witness : keyedByNamespace managerAB.
Proof.
  apply reachable_keyedByNamespace. unfold managerAB.
  apply reach_addModelFiles, reach_new. vm_compute. reflexivity.
Defined.

(** Replacing [org.b] by itself, and updating the fresh manager with a
    model file of the namespace [constructor]. *)
Lemma updateModelFile_keeps_namespaces_witness :
  (modelFiles (updateModelFile managerAB (FileObject fileB) None true).2
   = <[ModelFile_getNamespace fileB := fileB]> (modelFiles managerAB)
   /\ dom (modelFiles (updateModelFile managerAB (FileObject fileB) None true).2)
      = dom (modelFiles managerAB))
  /\ (modelFiles (updateModelFile freshManager (FileObject fileConstructor) None true).2
      = <[ModelFile_getNamespace fileConstructor := fileConstructor]>
          (modelFiles freshManager)
      /\ dom (modelFiles
                (updateModelFile freshManager (FileObject fileConstructor) None true).2)
         = {[ ModelFile_getNamespace fileConstructor ]} ∪ dom (modelFiles freshManager)).
Proof.
  assert (updateModelFile managerAB (FileObject fileB) None true
          = (ret fileB, (updateModelFile managerAB (FileObject fileB) None true).2))
    as Hcall by (vm_compute; reflexivity).
  assert (updateModelFile freshManager (FileObject fileConstructor) None true
          = (ret fileConstructor,
             (updateModelFile freshManager (FileObject fileConstructor) None true).2))
    as Hcall' by (vm_compute; reflexivity).
  assert (modelFiles managerAB !! ModelFile_getNamespace fileB = Some fileB) as Hhere
    by (vm_compute; reflexivity).
  assert (modelFiles freshManager !! ModelFile_getNamespace fileConstructor = None)
    as Hfree by (vm_compute; reflexivity).
  pose proof (proj2 (proj2 (updateModelFile_keeps_namespaces managerAB (FileObject fileB)
                              None true)) fileB _ Hcall) as Hreplaced.
  pose proof (proj2 (proj2 (updateModelFile_keeps_namespaces freshManager
                              (FileObject fileConstructor) None true))
                fileConstructor _ Hcall') as Hregistered.
  rewrite Hhere in Hreplaced. rewrite Hfree in Hregistered.
  split; [exact Hreplaced|]. apply (proj2 Hregistered). discriminate.
Defined.


(** [org.a] imports [Asset] without saying so. *)
Lemma root_types_always_imported_witness :
  mf_importShortNames fileA !! "Asset" = Some "concerto.Asset"
  /\ ModelFile_isImportedType managerAB fileA "Asset" = ret true.
Proof.
  assert (newModelFile modelA None None = inr fileA) as Hbuilt by (vm_compute; reflexivity).
  assert (ast_namespace modelA <> "concerto") as Hnamespace by discriminate.
  assert (In "Asset" ["Concept"; "Asset"; "Transaction"; "Participant"; "Event"]) as Hname
    by (right; left; reflexivity).
  destruct (root_types_always_imported modelA None None fileA "Asset" Hbuilt Hnamespace Hname)
    as [Hnamed Hall].
  split; [exact Hnamed | exact (proj1 (Hall managerAB))].
Defined.

(** [org.a] against a manager that has no file at all, and [org.d],
    which imports [constructor.T]. *)
Lemma validate_needs_root_model_witness :
  (exists message,
      ModelFile_validate {| modelFiles := ∅ |} fileA
      = throw (IllegalModelException message))
  /\ exists e,
       ModelFile_validate {| modelFiles := ∅ |} fileImportingConstructor = throw e
       /\ ((exists message, e = IllegalModelException message)
           \/ (exists message, e = TypeError message)
              /\ exists namespace name uri,
                   In (ImportType namespace name uri)
                      (default [] (ast_imports modelImportingConstructor))
                   /\ inheritedName namespace = true).
Proof.
  assert (newModelFile modelA None None = inr fileA) as Hbuilt by (vm_compute; reflexivity).
  assert (ast_namespace modelA <> "concerto") as Hnamespace by discriminate.
  assert (newModelFile modelImportingConstructor None None = inr fileImportingConstructor)
    as Hbuilt' by (vm_compute; reflexivity).
  assert (ast_namespace modelImportingConstructor <> "concerto") as Hnamespace'
    by discriminate.
  assert (modelFiles {| modelFiles := ∅ |} !! "concerto" = None) as Hnone
    by (vm_compute; reflexivity).
  split.
  - destruct (validate_needs_root_model {| modelFiles := ∅ |} modelA None None fileA
                Hbuilt Hnamespace Hnone) as (e & Hraised & Hkind).
    destruct Hkind as [[message ->] | [[message ->] _]].
    + exists message. exact Hraised.
    + vm_compute in Hraised. discriminate Hraised.
  - exact (validate_needs_root_model {| modelFiles := ∅ |} modelImportingConstructor
             None None fileImportingConstructor Hbuilt' Hnamespace' Hnone).
Defined.

(** The asset [ab] of the namespace [a], asked for by its qualified name. *)
Lemma getLocalType_returns_the_named_declaration_witness :
  In abDeclaration (mf_declarations fileShort)
  /\ ClassDeclaration_getFullyQualifiedName abDeclaration = "a.ab".
Proof.
  assert (newModelFile
            (model "a" []
               [declaration "concerto.metamodel.AssetDeclaration" "ab" None (Some "id")
                  [field "id" "String"]]) None None = inr fileShort) as Hbuilt
    by (vm_compute; reflexivity).
  assert (ModelFile_getLocalType fileShort "a.ab" = Some abDeclaration) as Hfound
    by (vm_compute; reflexivity).
  exact (proj1 (getLocalType_returns_the_named_declaration _ None None fileShort Hbuilt)
           "a.ab" abDeclaration Hfound).
Defined.

(** The name [T] in [org.a], where it is imported from [org.b]. *)
Lemma resolveType_agrees_with_getType_witness :
  ModelFile_resolveType managerAB fileA "T in org.a" "T" = ret tt <->
  exists d, ModelFile_getType managerAB fileA "T" = ret (Some (Declaration d)).
Proof.
  assert (newModelFile modelA None None = inr fileA) as Hbuilt by (vm_compute; reflexivity).
  exact (proj1 (resolveType_agrees_with_getType managerAB modelA None None fileA
                  "T in org.a" "T" Hbuilt eq_refl)).
Defined.


(** [org.b] before [org.a], and [org.a] before [org.b]. *)
Lemma addModelFiles_order_independent_witness :
  getNamespaces
    (addModelFiles freshManager [FileObject fileB; FileObject fileA] None false).2
  ≡ₚ getNamespaces
       (addModelFiles freshManager [FileObject fileA; FileObject fileB] None false).2.
Proof.
  exact (proj1 (proj2 (addModelFiles_order_independent freshManager [fileB; fileA]
                         [fileA; fileB] None None false (perm_swap fileA fileB [])))).
Defined.

(** The metamodels of [org.b] and [org.a], loaded and read back. *)
Lemma fromAst_getAst_round_trip_witness :
  getAst (BaseModelManager_fromAst freshManager [modelB; modelA]).2 false
  ≡ₚ [modelB; modelA].
Proof.
  assert (BaseModelManager_fromAst freshManager [modelB; modelA]
          = (inr tt, (BaseModelManager_fromAst freshManager [modelB; modelA]).2)) as Hcall
    by (vm_compute; reflexivity).
  exact (proj1 (fromAst_getAst_round_trip freshManager [modelB; modelA] tt _ Hcall)).
Defined.

(** [fromAst] of the metamodel of [org.b] on the manager that has [org.b]
    and [org.a]. *)
Lemma fromAst_never_restores_witness :
  modelFiles (BaseModelManager_fromAst managerAB [modelB]).2 !! "org.b" = Some fileB
  /\ (("org.b" = "concerto"
       /\ newModelFile rootModelAst rootModelCto rootModelFile = inr fileB)
      \/ exists model,
           In model [modelB] /\ newModelFile model None None = inr fileB
           /\ "org.b" = ast_namespace model).
Proof.
  assert (modelFiles (BaseModelManager_fromAst managerAB [modelB]).2 !! "org.b" = Some fileB)
    as Hfound by (vm_compute; reflexivity).
  split; [exact Hfound|].
  exact (fromAst_never_restores managerAB [modelB] "org.b" fileB Hfound).
Defined.

(** The file name of the root model finds nothing. *)
Lemma getModelFileByFileName_skips_root_model_witness :
  getModelFileByFileName managerAB "concerto.cto" = None <->
  forall namespace f,
    modelFiles managerAB !! namespace = Some f ->
    ModelFile_getName f = Some "concerto.cto" -> namespace = "concerto".
Proof.
  assert (keyedByNamespace managerAB) as Hkeyed.
  { unfold managerAB, freshManager, newModelManager.
    apply keyedByNamespace_addModelFiles.
    pose proof keyedByNamespace_addRootModel as Hroot.
    destruct (addRootModel {| modelFiles := ∅ |}) as [r m]. exact Hroot. }
  exact (proj2 (getModelFileByFileName_skips_root_model managerAB "concerto.cto" Hkeyed)).
Defined.

(** The URI of the wildcard import of [org.b]. *)
Lemma getImportURI_is_keyed_by_import_name_witness :
  ModelFile_getImportURI (buildFile modelWithUri) "org.b.*"
  = SlotOwn "https://models.example/b.cto"
  /\ (exists imp,
         In imp (default [] (ast_imports modelWithUri))
         /\ imp_uri imp = Some "https://models.example/b.cto"
         /\ "org.b.*" = importFullyQualifiedName imp
         /\ "org.b.*" <> imp_namespace imp)
  /\ ModelFile_getImportURI (buildFile modelWithUri) "constructor" = SlotInherited.
Proof.
  assert (newModelFile modelWithUri None None = inr (buildFile modelWithUri)) as Hbuilt
    by (vm_compute; reflexivity).
  assert (ModelFile_getImportURI (buildFile modelWithUri) "org.b.*"
          = SlotOwn "https://models.example/b.cto") as Huri by (vm_compute; reflexivity).
  split; [exact Huri|]. split.
  - exact (proj2 (proj1 (getImportURI_is_keyed_by_import_name modelWithUri None None _
                           "org.b.*" Hbuilt) _ Huri)).
  - exact (proj2 (proj2 (getImportURI_is_keyed_by_import_name modelWithUri None None _
                           "constructor" Hbuilt)) eq_refl).
Defined.

(** The generated file of [org.a] has [using concerto;]. *)
Lemma usingNamespaces_of_imports_witness : "concerto" ∈ usingNamespaces fileA.
Proof.
  assert (newModelFile modelA None None = inr fileA) as Hbuilt by (vm_compute; reflexivity).
  assert (ast_namespace modelA <> "concerto") as Hnamespace by discriminate.
  exact (proj2 (proj2 (usingNamespaces_of_imports fileA)) modelA None None Hbuilt Hnamespace).
Defined.

(** The name [T] in [org.a] is the concept of [org.b]. *)
Lemma getFullyQualifiedTypeName_beside_getType_witness :
  ModelFile_getFullyQualifiedTypeName managerAB fileA "T"
  = ret (Some (ClassDeclaration_getFullyQualifiedName conceptT)).
Proof.
  assert (ModelFile_getType managerAB fileA "T" = ret (Some (Declaration conceptT)))
    as Htype by (vm_compute; reflexivity).
  exact (proj1 (getFullyQualifiedTypeName_beside_getType managerAB fileA "T")
           conceptT Htype).
Defined.

(** [org.b] asks for no version; [org.v] asks for [^2.0.0] of a package
    that is at [3.0.0]. *)
Lemma constructor_checks_concerto_version_witness :
  ModelFile_getConcertoVersion fileB = None
  /\ newModelFile (H := pinnedCollaborators) modelPinned None None
     = inl (Error "ModelFile expects Concerto version ^2.0.0 but this is 3.0.0").
Proof.
  assert (newModelFile modelB None None = inr fileB) as Hbuilt by (vm_compute; reflexivity).
  split.
  - exact (proj1 (constructor_checks_concerto_version modelB None None) fileB Hbuilt).
  - apply (proj2 (constructor_checks_concerto_version (H := pinnedCollaborators)
                    modelPinned None None) "^2.0.0" []).
    + reflexivity.
    + discriminate.
    + reflexivity.
    + reflexivity.
Defined.

(** The CTO of [org.b] for the manager that has [org.b]. *)
Lemma addModel_never_replaces_witness :
  addModel (H := parsingCollaborators) (fun _ _ => None) managerAB ctoB None None true
  = (inl (Error (alreadyExistsMessage fileB fileB)), managerAB).
Proof.
  apply (proj2 (addModel_never_replaces (H := parsingCollaborators) (fun _ _ => None)
                  managerAB ctoB None None true) modelB fileB fileB).
  - reflexivity.
  - vm_compute. reflexivity.
  - vm_compute. reflexivity.
Defined.

(** The concept [T] of [org.b] is among the concepts of the manager. *)
Lemma manager_declarations_by_kind_witness :
  conceptT ∈ getDeclarationsOfKind managerAB ConceptDeclaration.
Proof.
  apply (proj2 (manager_declarations_by_kind managerAB ConceptDeclaration conceptT)).
  split; [reflexivity|]. exists "org.b", fileB.
  split; [discriminate|]. split; [vm_compute; reflexivity|].
  apply list_elem_of_In. left. reflexivity.
Defined.

(** [DateTime] is the one primitive that keeps its name. *)
Lemma toCSharpType_translates_primitives_witness :
  isPrimitiveType (toCSharpType "DateTime") = true.
Proof.
  exact (proj2 (proj1 (proj2 (toCSharpType_translates_primitives "DateTime"))) eq_refl).
Defined.
